(** * cellxgene REST layer: a shallow embedding of [backend/server/common/rest.py]

    The development follows the Python module function by function:

    - [_query_parameter_to_filter], the filter query language;
    - [schema_get_helper], the layer list of the schema document;
    - [diffexp_obs_post], the differential-expression handler;
    - [save_metadata_put] / [save_genedata_put], the two export handlers;
    - [delete_obsm_put], deletion of named embeddings;
    - [summarize_var_post], the POST variant of the var summary.

    Python exceptions are values of [exn]; a computation that may raise has
    type [result A].  Handlers that talk to the outside world (logger,
    analysis engine, file system) thread that state explicitly. *)

From Stdlib Require Import String Ascii List ZArith QArith Bool Lia.
From stdpp Require Import base strings list gmap.

Set Warnings "-register-all,-clear-no-such-hyp".

Import ListNotations.
Local Open Scope string_scope.
Local Open Scope list_scope.

(** ** JSON request bodies

    What [request.get_json()] returns: [None], a bool, a number, a str, a
    list, or a dict (keys in document order). *)
Inductive json : Type :=
| JNull
| JBool (b : bool)
| JNum (n : Z)
| JStr (s : string)
| JArr (items : list json)
| JObj (fields : list (string * json)).

(** ** Exceptions and the error monad *)

(** Why a builtin raised [ValueError]: tuple unpacking of the wrong number of
    items, [float()] on a string that is not a number, or an enum class
    called on something that is not one of its values. *)
Inductive value_error : Type :=
| UnpackMismatch (expected got : nat)
| BadFloat (s : string)
| BadEnumValue (v : json).

(** The text carried by an exception of the backend: a literal of the source,
    or [str(e)] of a caught builtin error. *)
Inductive errmsg : Type :=
| Literal (s : string)
| StrOfValueError (v : value_error).

Inductive exn : Type :=
| ValueError (v : value_error)
| KeyError (key : string)
| IndexError
| TypeError
| AttributeError
| FileNotFoundError (path : string)
| FilterError (msg : errmsg)
| DisabledFeatureError
| ExceedsLimitError
| JSONEncodingValueError
| NotImplementedError
| UnsupportedSummaryMethod.

Inductive result (A : Type) : Type :=
| Ok (a : A)
| Raise (e : exn).
Arguments Ok {A} a.
Arguments Raise {A} e.

Definition bind {A B} (m : result A) (k : A -> result B) : result B :=
  match m with
  | Ok a => k a
  | Raise e => Raise e
  end.

Notation "'do' x <- m ;; k" := (bind m (fun x => k))
  (at level 10, x name, m at level 99, k at level 200).
Notation "'do' ' p <- m ;; k" := (bind m (fun x => match x with p => k end))
  (at level 10, p pattern, m at level 99, k at level 200).

(** [k in d] for an optional key of a dict modelled as a record. *)
Definition has_key {A} (o : option A) : bool :=
  match o with Some _ => true | None => false end.

(** [for x in xs: s = body(s, x)], stopping at the first exception. *)
Fixpoint for_each {S X} (body : S -> X -> result S) (xs : list X) (s : S) : result S :=
  match xs with
  | [] => Ok s
  | x :: xs' => do s' <- body s x ;; for_each body xs' s'
  end.

(** A Python dict with string keys, in insertion order: [d.get(k)]. *)
Fixpoint dict_get {A} (d : list (string * A)) (k : string) : option A :=
  match d with
  | [] => None
  | (k', v) :: d' => if String.eqb k' k then Some v else dict_get d' k
  end.

(** ** Python string helpers *)

(** [s.split(sep)] for a one-character separator: never empty, [n]
    occurrences of [sep] give [n + 1] pieces. *)
Fixpoint split (sep : ascii) (s : string) : list string :=
  match s with
  | EmptyString => [EmptyString]
  | String c s' =>
      if Ascii.eqb c sep then EmptyString :: split sep s'
      else match split sep s' with
           | [] => [String c EmptyString]
           | w :: ws => String c w :: ws
           end
  end.

(** The exceptions the body of the filter parser can raise. *)
Definition parser_exn (e : exn) : Prop :=
  (exists v, e = ValueError v) \/ (exists m, e = FilterError m).

(** ** FilterParser: [_query_parameter_to_filter] *)

Module FilterParser.
Section Parser.

(** The two library functions the parser calls.  [url_unquote] is werkzeug's
    percent-decoder (total on strings); [float] is Python's builtin, which
    either returns a number or raises [ValueError]. *)
Variable url_unquote : string -> string.
Variable F : Type.
Variable float : string -> option F.

(** The dict [current] of one field.  Its key ["name"] is always present;
    ["values"], ["min"] and ["max"] are present when the option is [Some]. *)
Record FieldPredicate : Type := mkPred {
  fp_name : string;
  fp_values : option (list string);
  fp_min : option F;
  fp_max : option F
}.

(** [len(current)] *)
Definition dict_len (cur : FieldPredicate) : nat :=
  1 + (if has_key (fp_values cur) then 1 else 0)
    + (if has_key (fp_min cur) then 1 else 0)
    + (if has_key (fp_max cur) then 1 else 0).

(** [{"name": name}] *)
Definition fresh (name : string) : FieldPredicate := mkPred name None None None.

(** A Python dict from field name to [current], in insertion order. *)
Definition axis_dict : Type := list (string * FieldPredicate).

Fixpoint od_get (d : axis_dict) (k : string) : option FieldPredicate :=
  match d with
  | [] => None
  | (k', v) :: d' => if String.eqb k' k then Some v else od_get d' k
  end.

(** [d[k] = v]: in place when [k] is a key, appended otherwise. *)
Fixpoint od_set (d : axis_dict) (k : string) (v : FieldPredicate) : axis_dict :=
  match d with
  | [] => [(k, v)]
  | (k', v') :: d' =>
      if String.eqb k' k then (k', v) :: d' else (k', v') :: od_set d' k v
  end.

(** [d.setdefault(k, dflt)]: the dict afterwards and the value returned. *)
Definition od_setdefault (d : axis_dict) (k : string) (dflt : FieldPredicate)
  : axis_dict * FieldPredicate :=
  match od_get d k with
  | Some v => (d, v)
  | None => (od_set d k dflt, dflt)
  end.

(** [filters = {"obs": {}, "var": {}}] *)
Record filters : Type := mkFilters { f_obs : axis_dict; f_var : axis_dict }.

Definition empty_filters : filters := mkFilters [] [].

(** [filters[axis]], read after the axis check. *)
Definition get_axis (fs : filters) (axis : string) : axis_dict :=
  if String.eqb axis "obs" then f_obs fs else f_var fs.

Definition set_axis (fs : filters) (axis : string) (d : axis_dict) : filters :=
  if String.eqb axis "obs" then mkFilters d (f_var fs) else mkFilters (f_obs fs) d.

(** [axis, name = key.split(":")] *)
Definition unpack2 (parts : list string) : result (string * string) :=
  match parts with
  | [a; b] => Ok (a, b)
  | _ => Raise (ValueError (UnpackMismatch 2 (length parts)))
  end.

(** [float(s)] *)
Definition py_float (s : string) : result F :=
  match float s with
  | Some x => Ok x
  | None => Raise (ValueError (BadFloat s))
  end.

(** The single-value branch: [len(val_split) == 1]. *)
Definition value_branch (cur : FieldPredicate) (value : string) : result FieldPredicate :=
  if has_key (fp_min cur) || has_key (fp_max cur)
  then Raise (FilterError (Literal "do not mix range and value filters"))
  else
    let value := url_unquote value in
    let values := match fp_values cur with Some vs => vs | None => [] end in
    Ok (mkPred (fp_name cur) (Some (values ++ [value])) (fp_min cur) (fp_max cur)).

(** The range branch: [len(val_split) == 2]. *)
Definition range_branch (cur : FieldPredicate) (lo hi : string) : result FieldPredicate :=
  if Nat.ltb 1 (dict_len cur)
  then Raise (FilterError (Literal "duplicate range specification"))
  else
    let min := url_unquote lo in
    let max := url_unquote hi in
    do cur <- (if String.eqb min "*" then Ok cur
               else do x <- py_float min ;;
                    Ok (mkPred (fp_name cur) (fp_values cur) (Some x) (fp_max cur))) ;;
    do cur <- (if String.eqb max "*" then Ok cur
               else do x <- py_float max ;;
                    Ok (mkPred (fp_name cur) (fp_values cur) (fp_min cur) (Some x))) ;;
    if Nat.ltb (dict_len cur) 2
    then Raise (FilterError (Literal "must specify at least min or max in range filter"))
    else Ok cur.

(** The [if]/[elif]/[else] on [len(val_split)]: what becomes of [current]. *)
Definition branch (current : FieldPredicate) (value : string) : result FieldPredicate :=
  let val_split := split "," value in
  match val_split with
  | [_] => value_branch current value
  | [lo; hi] => range_branch current lo hi
  | _ => Raise (FilterError (Literal "badly formated filter value"))
  end.

(** One iteration of the loop over [args.items(multi=True)]. *)
Definition step (fs : filters) (kv : string * string) : result filters :=
  let '(key, value) := kv in
  do ' (axis, name) <- unpack2 (split ":" key) ;;
  if negb (String.eqb axis "obs" || String.eqb axis "var")
  then Raise (FilterError (Literal "unknown filter axis"))
  else
    let name := url_unquote name in
    let '(d, current) := od_setdefault (get_axis fs axis) name (fresh name) in
    do current <- branch current value ;;
    Ok (set_axis fs axis (od_set d name current)).

(** A werkzeug [MultiDict]: each key with the list of its values. *)
Definition MultiDict : Type := list (string * list string).

(** [args.items(multi=True)] *)
Definition items_multi (args : MultiDict) : list (string * string) :=
  flat_map (fun kvs => map (fun v => (fst kvs, v)) (snd kvs)) args.

(** The body of the [try] block. *)
Definition try_body (args : MultiDict) : result filters :=
  for_each step (items_multi args) empty_filters.

(** [except ValueError as e: raise FilterError(str(e))] *)
Definition except_ValueError {A} (r : result A) : result A :=
  match r with
  | Raise (ValueError v) => Raise (FilterError (StrOfValueError v))
  | _ => r
  end.

Record AxisFilter : Type := mkAxisFilter { annotation_value : list FieldPredicate }.

(** The dict returned: keys among ["obs"], ["var"], in insertion order. *)
Definition FilterSpec : Type := list (string * AxisFilter).

(** [for axis in ("obs", "var"): ...] *)
Definition build_result (fs : filters) : FilterSpec :=
  flat_map
    (fun axis =>
       let axis_filter := get_axis fs axis in
       if Nat.ltb 0 (length axis_filter)
       then [(axis, mkAxisFilter (map snd axis_filter))]
       else [])
    ["obs"; "var"].

Definition _query_parameter_to_filter (args : MultiDict) : result FilterSpec :=
  do fs <- except_ValueError (try_body args) ;;
  Ok (build_result fs).

(** *** Shapes of parameters, as the parser tells them apart *)

(** The key does not split into exactly two parts at [":"]. *)
Definition key_malformed (key : string) : bool :=
  negb (Nat.eqb (length (split ":" key)) 2).

(** The key has two parts and the first is neither ["obs"] nor ["var"]. *)
Definition axis_unknown (key : string) : bool :=
  match split ":" key with
  | [axis; _] => negb (String.eqb axis "obs" || String.eqb axis "var")
  | _ => false
  end.

(** One comma-separated segment: a value.  Two: a range. *)
Definition is_value (value : string) : bool := Nat.eqb (length (split "," value)) 1.
Definition is_range (value : string) : bool := Nat.eqb (length (split "," value)) 2.

Definition segments_wrong (value : string) : bool :=
  negb (is_value value || is_range value).

(** A range endpoint that is neither the wildcard nor a number. *)
Definition not_a_bound (endpoint : string) : bool :=
  negb (String.eqb (url_unquote endpoint) "*") && negb (has_key (float (url_unquote endpoint))).

Definition endpoint_non_numeric (value : string) : bool :=
  match split "," value with
  | [lo; hi] => not_a_bound lo || not_a_bound hi
  | _ => false
  end.

(** Two keys name the same field of the same axis. *)
Definition same_field (k1 k2 : string) : bool :=
  match split ":" k1, split ":" k2 with
  | [a1; n1], [a2; n2] => String.eqb a1 a2 && String.eqb (url_unquote n1) (url_unquote n2)
  | _, _ => false
  end.

(** What a field holds. *)
Definition holds_range (cur : FieldPredicate) : bool :=
  has_key (fp_min cur) || has_key (fp_max cur).
Definition holds_values (cur : FieldPredicate) : bool := has_key (fp_values cur).

(** [filters[axis].get(name)] *)
Definition field_at (fs : filters) (axis name : string) : option FieldPredicate :=
  od_get (get_axis fs axis) name.

(** What [filters[axis].setdefault(name, {"name": name})] returns. *)
Definition current_of (fs : filters) (axis name : string) : FieldPredicate :=
  match field_at fs axis name with
  | Some cur => cur
  | None => fresh name
  end.

End Parser.
End FilterParser.

(** ** The library functions, concretely

    Strings of the model are byte strings (text in UTF-8).  [url_unquote]
    is werkzeug's percent-decoding: a ["%"] followed by two hex digits is the
    byte they denote, any other ["%"] stays.  [float] reads Python's decimal
    float syntax and keeps the exact rational the literal denotes, where
    CPython rounds it to the nearest binary64.

    Both are the library functions on ASCII text, escapes included as long
    as they decode to ASCII.  Beyond it they are not: werkzeug decodes the
    bytes as UTF-8 and replaces what is not UTF-8 by U+FFFD, where
    [url_unquote] keeps the bytes; Python's [float] also reads the decimal
    digits and the white space of other scripts, and gives infinity for a
    literal too large for a binary64, where [float] reads ASCII digits and
    ASCII white space only and keeps the rational.  What is proved of
    the parser is proved for every [url_unquote] and every [float]; the
    handlers run the parser with these two, and what is proved of the
    handlers does not depend on how a text decodes or reads as a number.
    The examples are ASCII. *)

Module PyLib.

Definition hex_digit (c : ascii) : option N :=
  let n := N_of_ascii c in
  if ((48 <=? n) && (n <=? 57))%N then Some (n - 48)%N
  else if ((65 <=? n) && (n <=? 70))%N then Some (n - 55)%N
  else if ((97 <=? n) && (n <=? 102))%N then Some (n - 87)%N
  else None.

Fixpoint url_unquote (s : string) : string :=
  match s with
  | EmptyString => EmptyString
  | String c t1 =>
      if Ascii.eqb c "%" then
        match t1 with
        | String a (String b rest) =>
            match hex_digit a, hex_digit b with
            | Some x, Some y => String (ascii_of_N (16 * x + y)) (url_unquote rest)
            | _, _ => String c (url_unquote t1)
            end
        | _ => String c (url_unquote t1)
        end
      else String c (url_unquote t1)
  end.

Inductive pyfloat : Type :=
| Finite (q : Q)
| Infinity (negative : bool)
| NaN.

Definition is_digit (c : ascii) : bool :=
  let n := N_of_ascii c in ((48 <=? n) && (n <=? 57))%N.

(** Python's white space among the ASCII characters: the space, tab to
    carriage return, and the four separators FS, GS, RS and US. *)
Definition is_space (c : ascii) : bool :=
  let n := N_of_ascii c in
  ((n =? 32) || ((9 <=? n) && (n <=? 13)) || ((28 <=? n) && (n <=? 31)))%N.

Fixpoint lstrip (s : string) : string :=
  match s with
  | String c s' => if is_space c then lstrip s' else s
  | EmptyString => EmptyString
  end.

Fixpoint all_space (s : string) : bool :=
  match s with
  | String c s' => is_space c && all_space s'
  | EmptyString => true
  end.

(** A run of digits, single underscores allowed between two digits:
    the number read so far, how many digits, and the rest. *)
Fixpoint digits (s : string) (acc : N) (cnt : nat) : N * nat * string :=
  match s with
  | EmptyString => (acc, cnt, EmptyString)
  | String c s' =>
      if is_digit c then digits s' (10 * acc + (N_of_ascii c - 48))%N (S cnt)
      else if Ascii.eqb c "_" && Nat.ltb 0 cnt
              && match s' with String d _ => is_digit d | EmptyString => false end
      then digits s' acc cnt
      else (acc, cnt, s)
  end.

Definition lower (c : ascii) : ascii :=
  let n := N_of_ascii c in
  if ((65 <=? n) && (n <=? 90))%N then ascii_of_N (n + 32) else c.

Fixpoint lowercase (s : string) : string :=
  match s with
  | String c s' => String (lower c) (lowercase s')
  | EmptyString => EmptyString
  end.

Fixpoint rstrip_spaces (s : string) : string :=
  match s with
  | String c s' =>
      if all_space s then EmptyString else String c (rstrip_spaces s')
  | EmptyString => EmptyString
  end.

(** [sign] and the rest *)
Definition read_sign (s : string) : bool * string :=
  match s with
  | String c s' =>
      if Ascii.eqb c "-" then (true, s')
      else if Ascii.eqb c "+" then (false, s')
      else (false, s)
  | EmptyString => (false, s)
  end.

(** The optional exponent part: [e], an optional sign and digits. *)
Definition read_exponent (s : string) : option (Z * string) :=
  match s with
  | String c s' =>
      if Ascii.eqb (lower c) "e" then
        let '(neg, s1) := read_sign s' in
        let '(e, n, rest) := digits s1 0%N 0 in
        if Nat.eqb n 0 then None
        else Some (if neg then (- Z.of_N e)%Z else Z.of_N e, rest)
      else Some (0%Z, s)
  | EmptyString => Some (0%Z, s)
  end.

Definition float (s : string) : option pyfloat :=
  let '(neg, body) := read_sign (rstrip_spaces (lstrip s)) in
  let word := lowercase body in
  if String.eqb word "inf" || String.eqb word "infinity" then Some (Infinity neg)
  else if String.eqb word "nan" then Some NaN
  else
    let '(ip, ni, s1) := digits body 0%N 0 in
    let '(fp, nf, s2) :=
      match s1 with
      | String c s' => if Ascii.eqb c "." then digits s' 0%N 0 else (0%N, 0, s1)
      | EmptyString => (0%N, 0, s1)
      end in
    if Nat.eqb (ni + nf) 0 then None
    else
      match read_exponent s2 with
      | Some (e, EmptyString) =>
          let mant := (Z.of_N ip * 10 ^ Z.of_nat nf + Z.of_N fp)%Z in
          let q := Qmult (inject_Z mant) (Qpower (10 # 1) (e - Z.of_nat nf)) in
          Some (Finite (Qred (if neg then Qopp q else q)))
      | _ => None
      end.

End PyLib.

(** The parser as the server runs it. *)
Definition _query_parameter_to_filter :=
  FilterParser._query_parameter_to_filter PyLib.url_unquote PyLib.pyfloat PyLib.float.

Definition FieldPredicate := FilterParser.FieldPredicate PyLib.pyfloat.
Definition FilterSpec := FilterParser.FilterSpec PyLib.pyfloat.

(** [{"name": name, "values": vs}] and [{"name": name, "min": lo}] *)
Definition values_predicate (name : string) (vs : list string) : FieldPredicate :=
  FilterParser.mkPred PyLib.pyfloat name (Some vs) None None.
Definition min_predicate (name : string) (lo : Q) : FieldPredicate :=
  FilterParser.mkPred PyLib.pyfloat name None (Some (PyLib.Finite lo)) None.

(** The query string [obs:tissue=heart&obs:num_reads=1000,*] as a MultiDict. *)
Definition scenario_args : FilterParser.MultiDict :=
  [("obs:tissue", ["heart"]); ("obs:num_reads", ["1000,*"])].

(** [{obs: {annotation_value: [{name: tissue, values: [heart]},
                               {name: num_reads, min: 1000.0}]}}] *)
Definition scenario_filter : FilterSpec :=
  [("obs", FilterParser.mkAxisFilter PyLib.pyfloat
             [values_predicate "tissue" ["heart"]; min_predicate "num_reads" (1000 # 1)])].


(** ** Python operations on JSON values *)

(** [o[k]] with a str key: [KeyError] on a dict without it, [TypeError] on
    anything that is not a dict. *)
Definition getitem (o : json) (k : string) : result json :=
  match o with
  | JObj fields =>
      match dict_get fields k with
      | Some v => Ok v
      | None => Raise (KeyError k)
      end
  | _ => Raise TypeError
  end.

(** [o.get(k, dflt)]: only dicts have the method. *)
Definition py_get (o : json) (k : string) (dflt : json) : result json :=
  match o with
  | JObj fields =>
      match dict_get fields k with
      | Some v => Ok v
      | None => Ok dflt
      end
  | _ => Raise AttributeError
  end.

(** [k in o] for a str [k] and a dict [o]. *)
Definition has_field (k : string) (fields : list (string * json)) : bool :=
  has_key (dict_get fields k).

(** [o is None] *)
Definition is_None (o : json) : bool :=
  match o with JNull => true | _ => false end.

(** Truth value of a JSON value, as [if o] tests it. *)
Definition truthy (o : json) : bool :=
  match o with
  | JNull => false
  | JBool b => b
  | JNum n => negb (Z.eqb n 0)
  | JStr s => negb (String.eqb s "")
  | JArr items => Nat.ltb 0 (length items)
  | JObj fields => Nat.ltb 0 (length fields)
  end.

(** ** HTTP outcomes and the effects of a handler *)

Inductive HTTPStatus : Type :=
| OK
| BAD_REQUEST
| NOT_FOUND
| NOT_ACCEPTABLE
| UNSUPPORTED_MEDIA_TYPE
| NOT_IMPLEMENTED.

Definition status_code (s : HTTPStatus) : Z :=
  match s with
  | OK => 200
  | BAD_REQUEST => 400
  | NOT_FOUND => 404
  | NOT_ACCEPTABLE => 406
  | UNSUPPORTED_MEDIA_TYPE => 415
  | NOT_IMPLEMENTED => 501
  end.

(** 4xx: the client's fault. *)
Definition is_client_error (s : HTTPStatus) : bool :=
  (400 <=? status_code s)%Z && (status_code s <? 500)%Z.

Inductive body : Type :=
| Jsonify (j : json)
| Raw (bytes : string).

(** How a handler ends: [make_response(...)], [send_file(...)], [abort(code)]
    (flask turns it into the error response of that status), or an exception
    that leaves the handler. *)
Inductive outcome : Type :=
| Response (b : body) (status : HTTPStatus) (headers : list (string * string))
| SendFile (path : string)
| Abort (status : HTTPStatus)
| Raised (e : exn).

Inductive loglevel : Type := DEBUG | WARNING | ERROR.

Inductive logmsg : Type :=
| LogText (s : string)
| LogStr (e : exn)
| JSON_NaN_to_num_warning_msg.

(** What a handler does to the world besides answering. *)
Inductive event : Type :=
| Log (level : loglevel) (msg : logmsg)
| Print (e : exn)
| Call_diffexp_topN (set1_filter set2_filter count : json)
| Call_summarize_var (method : string) (filter : FilterSpec) (query_hash layer : string)
                     (logscale : bool).

Definition handled : Type := (outcome * list event)%type.

(** [abort_and_log(code, logmsg)]: log, then abort. *)
Definition abort_and_log (code : HTTPStatus) (msg : logmsg) : handled :=
  (Abort code, [Log DEBUG msg]).

(** Whether the analysis engine was asked for a differential expression. *)
Definition is_diffexp_call (e : event) : bool :=
  match e with Call_diffexp_topN _ _ _ => true | _ => false end.
Definition diffexp_invoked (evs : list event) : bool := existsb is_diffexp_call evs.

(** ** [diffexp_obs_post] *)

Module Diffexp.

Inductive DiffExpMode : Type := TOP_N | VAR_FILTER.

(** Modelled from the spec: the enum classes of [backend.common.constants]
    are not in the sources at hand.  A differential expression is "top-N"
    or, not implemented, by var filter: [DiffExpMode(v)] is the member whose
    value is [v] and [ValueError] for anything else. *)
Definition DiffExpMode_of (v : json) : result DiffExpMode :=
  match v with
  | JStr s =>
      if String.eqb s "topN" then Ok TOP_N
      else if String.eqb s "varFilter" then Ok VAR_FILTER
      else Raise (ValueError (BadEnumValue v))
  | _ => Raise (ValueError (BadEnumValue v))
  end.

Definition is_VAR_FILTER (m : DiffExpMode) : bool :=
  match m with VAR_FILTER => true | TOP_N => false end.

Definition is_JStr (s : string) (j : json) : bool :=
  match j with JStr s' => String.eqb s' s | _ => false end.

(** Modelled from the spec: [Axis] of [backend.common.constants] is not in
    the sources at hand.  The axes are [obs] and [var], and a member stands
    for its string (the schema helper indexes a dict of str keys by it):
    [Axis.VAR in o] looks for the key ["var"] in a dict and for the item
    ["var"] in a list; a str, a number or a bool cannot be searched for a
    member. *)
Definition Axis_VAR_in (o : json) : result bool :=
  match o with
  | JObj fields => Ok (has_field "var" fields)
  | JArr items => Ok (existsb (is_JStr "var") items)
  | _ => Raise TypeError
  end.

(** [{"filter": {}}] *)
Definition default_set : json := JObj [("filter", JObj [])].

(** [args.get(set, {"filter": {}})["filter"]] *)
Definition set_filter (args : json) (set : string) : result json :=
  do s <- py_get args set default_set ;; getitem s "filter".

(** How the first [try] block ends when nothing is raised: with a
    [return], or by falling through with the three values it computed. *)
Inductive checked : Type :=
| Return (h : handled)
| Proceed (set1_filter set2_filter count : json).

Definition check_axes (set1_filter set2_filter count : json) : result checked :=
  do v1 <- Axis_VAR_in set1_filter ;;
  do v <- (if v1 then Ok true else Axis_VAR_in set2_filter) ;;
  if v then Ok (Return (abort_and_log BAD_REQUEST (LogText "var axis filter not enabled")))
  else Ok (Proceed set1_filter set2_filter count).

Definition check_sets (args : json) : result checked :=
  do set1_filter <- set_filter args "set1" ;;
  do set2_filter <- set_filter args "set2" ;;
  do count <- py_get args "count" JNull ;;
  if is_None set1_filter || is_None set2_filter || is_None count
  then Ok (Return (abort_and_log BAD_REQUEST (LogText "missing required parameter")))
  else check_axes set1_filter set2_filter count.

(** The body of the first [try]. *)
Definition check_request (args : json) : result checked :=
  do m <- getitem args "mode" ;;
  do mode <- DiffExpMode_of m ;;
  do var_filter <- (if is_VAR_FILTER mode then Ok true
                    else match args with
                         | JObj fields => Ok (has_field "varFilter" fields)
                         | _ => Raise TypeError
                         end) ;;
  if var_filter
  then Ok (Return (abort_and_log NOT_IMPLEMENTED (LogText "varFilter not enabled")))
  else check_sets args.

Section Handler.

(** [data_adaptor.diffexp_topN], the analysis engine. *)
Variable diffexp_topN : json -> json -> json -> result string.

(** The second [try]: run the engine and shape its answer. *)
Definition run_engine (set1_filter set2_filter count : json) : handled :=
  let call := Call_diffexp_topN set1_filter set2_filter count in
  match diffexp_topN set1_filter set2_filter count with
  | Ok diffexp =>
      (Response (Raw diffexp) OK [("Content-Type", "application/json")], [call])
  | Raise e =>
      match e with
      | ValueError _ | DisabledFeatureError | FilterError _ | ExceedsLimitError =>
          (Abort BAD_REQUEST, [call; Log DEBUG (LogStr e)])
      | JSONEncodingValueError =>
          (Raised e, [call; Log WARNING JSON_NaN_to_num_warning_msg])
      | _ => (Raised e, [call])
      end
  end.

Definition diffexp_obs_post (diffexp__enable : bool) (args : json) : handled :=
  if negb diffexp__enable then (Abort NOT_IMPLEMENTED, [])
  else
    match check_request args with
    | Raise e =>
        match e with
        | KeyError _ | TypeError => abort_and_log BAD_REQUEST (LogStr e)
        | _ => (Raised e, [])
        end
    | Ok (Return h) => h
    | Ok (Proceed set1_filter set2_filter count) =>
        run_engine set1_filter set2_filter count
    end.

End Handler.

(** *** Shapes of requests *)

(** The request names set [set] and its filter is a dict with a [var] key. *)
Definition has_var_filter (args : json) (set : string) : bool :=
  match args with
  | JObj fields =>
      match dict_get fields set with
      | Some (JObj s) =>
          match dict_get s "filter" with
          | Some (JObj f) => has_field "var" f
          | _ => false
          end
      | _ => false
      end
  | _ => false
  end.

(** A top-N request: mode ["topN"] and no [varFilter] key. *)
Definition is_topN_request (args : json) : bool :=
  match args with
  | JObj fields =>
      match dict_get fields "mode" with
      | Some (JStr s) => String.eqb s "topN" && negb (has_field "varFilter" fields)
      | _ => false
      end
  | _ => false
  end.

(** The key is not in the request body. *)
Definition absent (args : json) (k : string) : bool :=
  match args with
  | JObj fields => negb (has_field k fields)
  | _ => true
  end.

(** [args] with [k: v] added at the end of the body. *)
Definition with_field (args : json) (k : string) (v : json) : json :=
  match args with
  | JObj fields => JObj (fields ++ [(k, v)])
  | _ => args
  end.

(** An engine that answers every request with an empty list. *)
Definition idle_engine (_ _ _ : json) : result string := Ok "[]".

(** [{"mode": "topN", "set2": {"filter": {}}, "count": 10}] *)
Definition request_without_set1 : json :=
  JObj [("mode", JStr "topN"); ("set2", JObj [("filter", JObj [])]); ("count", JNum 10)].

(** [{"mode": "varFilter", "set1": {"filter": {"var": {}}},
      "set2": {"filter": {}}, "count": 10}] *)
Definition request_varFilter_mode : json :=
  JObj [("mode", JStr "varFilter");
        ("set1", JObj [("filter", JObj [("var", JObj [])])]);
        ("set2", JObj [("filter", JObj [])]);
        ("count", JNum 10)].

(** [{"mode": "topN", "set1": {"filter": {"var": {}}},
      "set2": {"filter": {}}, "count": 10}] *)
Definition request_var_in_set1 : json :=
  JObj [("mode", JStr "topN");
        ("set1", JObj [("filter", JObj [("var", JObj [])])]);
        ("set2", JObj [("filter", JObj [])]);
        ("count", JNum 10)].

End Diffexp.

(** ** [schema_get_helper]: the layers of the schema document *)

Module Schema.

(** What the helper reads of [data_adaptor.data] to list the layers:
    whether [raw] is not [None], and [layers.keys()]. *)
Record dataset : Type := mkDataset {
  raw_is_not_None : bool;
  layers_keys : list string
}.

(** [x in layers] *)
Definition mem (x : string) (layers : list string) : bool :=
  existsb (String.eqb x) layers.

(** The value of [schema["layers"]]. *)
Definition schema_layers (data : dataset) : list string :=
  let layers :=
    if raw_is_not_None data then [".raw"] ++ layers_keys data
    else layers_keys data in
  if negb (mem "X" layers) then ["X"] ++ layers else layers.

(** A dataset with a raw layer and no declared layer. *)
Definition raw_only : dataset := mkDataset true [].

End Schema.

(** ** The per-user file store *)

(** The regular files that exist, each by its path relative to the working
    directory, in the one form the file system resolves it to: components
    separated by single slashes, none of them empty, [.] or [..].  The
    functions below compare paths as strings.  That is what the file system
    does when it is given a path of this form whose directories exist; a
    path such as [u/emb/./umap.p] is another spelling of [u/emb/umap.p] to
    the file system and another file to these functions.  Statements about
    which files stay or move therefore assume [stored_canonically] and
    names that are single components.  Links, permissions and limits on
    names are left out. *)
Abbreviation FS := (gset string).

Module Files.

(** A name that can be one component of a path: no slash, no NUL. *)
Fixpoint is_component (s : string) : bool :=
  match s with
  | EmptyString => true
  | String c s' =>
      negb (Ascii.eqb c "/") && negb (Ascii.eqb c Ascii.zero) && is_component s'
  end.

(** A path in the form the store keeps. *)
Definition canonical (p : string) : bool :=
  forallb (fun c => is_component c && negb (String.eqb c "")
                    && negb (String.eqb c ".") && negb (String.eqb c ".."))
          (split "/" p).

Definition stored_canonically (fs : FS) : Prop :=
  forall p, p ∈ fs -> canonical p = true.

(** [os.path.exists(p)] *)
Definition os_path_exists (p : string) (fs : FS) : bool := bool_decide (p ∈ fs).

(** [os.remove(p)]: raises when there is no such file. *)
Definition os_remove (p : string) (fs : FS) : result unit * FS :=
  if bool_decide (p ∈ fs) then (Ok tt, fs ∖ {[p]})
  else (Raise (FileNotFoundError p), fs).

(** [send_file(p, as_attachment=True)] *)
Definition send_file (p : string) (fs : FS) : result outcome :=
  if bool_decide (p ∈ fs) then Ok (SendFile p)
  else Raise (FileNotFoundError p).

End Files.

(** ** [delete_obsm_put] *)

Module Embeddings.
Import Files.

(** The JSON body [{"embNames": ...}]: [None] when the key is absent or
    null, otherwise the list of names. *)
Record delete_request : Type := mkDeleteRequest { embNames : option (list string) }.

Definition emb_path (userID embName : string) : string :=
  userID +:+ "/emb/" +:+ embName +:+ ".p".
Definition nnm_path (userID embName : string) : string :=
  userID +:+ "/nnm/" +:+ embName +:+ ".p".
Definition params_path (userID embName : string) : string :=
  userID +:+ "/params/" +:+ embName +:+ ".p".

(** The three artifacts of an embedding name. *)
Definition artifacts (userID embName : string) : list string :=
  [emb_path userID embName; nnm_path userID embName; params_path userID embName].

(** [if os.path.exists(p): os.remove(p)] *)
Definition remove_if_exists (p : string) (fs : FS) : result unit * FS :=
  if os_path_exists p fs then os_remove p fs else (Ok tt, fs).

(** Statements in sequence on the file store. *)
Definition andthen (a b : FS -> result unit * FS) (fs : FS) : result unit * FS :=
  match a fs with
  | (Ok _, fs') => b fs'
  | (Raise e, fs') => (Raise e, fs')
  end.

(** The body of the loop over [embNames]. *)
Definition delete_embedding (userID embName : string) : FS -> result unit * FS :=
  andthen (remove_if_exists (emb_path userID embName))
    (andthen (remove_if_exists (nnm_path userID embName))
       (remove_if_exists (params_path userID embName))).

Fixpoint delete_embeddings (userID : string) (names : list string) (fs : FS)
  : result unit * FS :=
  match names with
  | [] => (Ok tt, fs)
  | embName :: rest =>
      andthen (delete_embedding userID embName) (delete_embeddings userID rest) fs
  end.

(** [jsonify({"fail": fail})] with status 200. *)
Definition fail_response (fail : bool) : outcome :=
  Response (Jsonify (JObj [("fail", JBool fail)])) OK [("Content-Type", "application/json")].

Definition delete_obsm_put (userID : string) (request : delete_request) (fs : FS)
  : outcome * FS :=
  let fail := false in
  let '(r, fs') :=
    match embNames request with
    | Some names => delete_embeddings userID names fs
    | None => (Ok tt, fs)
    end in
  match r with
  | Ok _ => (fail_response fail, fs')
  | Raise e => (Raised e, fs')
  end.

End Embeddings.

(** ** [save_metadata_put] and [save_genedata_put] *)

Module ExportFiles.
Import Files.

(** A function registered with [after_this_request]: it receives the
    response once the view is done, and returns the response to send. *)
Definition hook : Type := outcome -> FS -> outcome * FS * list event.

(** What a view leaves behind: its outcome, the file store, and the
    functions it registered to run after the request. *)
Record view_result : Type := mkView {
  vr_outcome : outcome;
  vr_fs : FS;
  vr_hooks : list hook;
  vr_events : list event
}.

(** Flask runs the registered functions on the response, in turn. *)
Fixpoint run_hooks (hooks : list hook) (response : outcome) (fs : FS)
  : outcome * FS * list event :=
  match hooks with
  | [] => (response, fs, [])
  | h :: rest =>
      let '(response', fs', evs) := h response fs in
      let '(response'', fs'', evs') := run_hooks rest response' fs' in
      (response'', fs'', evs ++ evs')
  end.

(** The request from the view to the response sent. *)
Definition complete (v : view_result) : outcome * FS * list event :=
  let '(response, fs, evs) := run_hooks (vr_hooks v) (vr_outcome v) (vr_fs v) in
  (response, fs, vr_events v ++ evs).

Definition obs_csv (userID : string) : string := userID +:+ "/" +:+ userID +:+ "_obs.csv".
Definition obs_pickle (userID : string) : string := userID +:+ "/obs.p".
Definition gene_sets_csv (userID : string) : string := userID +:+ "/gene-sets.csv".

(** The nested function [remove_file] of [save_metadata_put]. *)
Definition remove_file (userID : string) : hook :=
  fun response fs =>
    match os_remove (obs_csv userID) fs with
    | (Ok _, fs') => (response, fs', [])
    | (Raise error, fs') => (response, fs', [Print error])
    end.

(** The closing [try] of both views around [send_file]. *)
Definition try_send_file (p : string) (fs : FS) : handled :=
  match send_file p fs with
  | Ok response => (response, [])
  | Raise e =>
      match e with
      | NotImplementedError => abort_and_log NOT_IMPLEMENTED (LogStr e)
      | ValueError _ | DisabledFeatureError | FilterError _ =>
          abort_and_log BAD_REQUEST (LogStr e)
      | _ => (Raised e, [])
      end
  end.

Section Views.

(** [data_adaptor._axis_filter_to_mask(Axis.OBS, f, data_adaptor.get_shape()[0])] *)
Variable axis_filter_to_mask : json -> result (list bool).
(** pandas: [labels[labelNames][obs_mask]], when the pickle can be read. *)
Variable select_labels : json -> list bool -> result unit.

(** The first [try]: [KeyError] and [IndexError] become [FilterError]. *)
Definition obs_mask_of (filter : json) : result (list bool) :=
  match (do f <- getitem filter "obs" ;; axis_filter_to_mask f) with
  | Raise (KeyError _) | Raise IndexError =>
      Raise (FilterError (Literal "Error parsing filter"))
  | r => r
  end.

(** Everything up to [labels.to_csv]. *)
Definition prepare_labels (userID : string) (args : json) (fs : FS) : result unit :=
  do labelNames <- py_get args "labelNames" JNull ;;
  do filter <- (if truthy args then getitem args "filter" else Ok JNull) ;;
  do obs_mask <- obs_mask_of filter ;;
  do _ <- (if bool_decide (obs_pickle userID ∈ fs) then Ok tt
           else Raise (FileNotFoundError (obs_pickle userID))) ;;
  select_labels labelNames obs_mask.

Definition save_metadata_put (userID : string) (args : json) (fs : FS) : view_result :=
  match prepare_labels userID args fs with
  | Raise e => mkView (Raised e) fs [] []
  | Ok _ =>
      let fs := {[obs_csv userID]} ∪ fs in
      let hooks := [remove_file userID] in
      let '(response, evs) := try_send_file (obs_csv userID) fs in
      mkView response fs hooks evs
  end.

End Views.

Definition save_genedata_put (userID : string) (fs : FS) : view_result :=
  let '(response, evs) := try_send_file (gene_sets_csv userID) fs in
  mkView response fs [] evs.

(** A user scope holding the labels and the gene sets of user ["u"]. *)
Definition scope_u : FS := {[ "u/obs.p"; "u/gene-sets.csv" ]}.

(** [{"labelNames": ["louvain"], "filter": {"obs": {}}}] *)
Definition export_request : json :=
  JObj [("labelNames", JArr [JStr "louvain"]); ("filter", JObj [("obs", JObj [])])].

(** An adaptor that selects every cell, and labels that are all there. *)
Definition every_cell (_ : json) : result (list bool) := Ok [true].
Definition all_labels (_ : json) (_ : list bool) : result unit := Ok tt.

End ExportFiles.

(** ** [summarize_var_helper], [summarize_var_get], [summarize_var_post] *)

Module Summarize.

(** What the handlers read of the flask request.  [values] is
    [request.values], the query and form parameters together;
    [accepts_octet_stream] tells whether
    [accept_mimetypes.best_match(["application/octet-stream"])] finds it. *)
Record request : Type := mkRequest {
  content_type : option string;
  content_length : option Z;
  accepts_octet_stream : bool;
  args : FilterParser.MultiDict;
  values : FilterParser.MultiDict;
  query_string : string;
  data : string
}.

(** [needle in hay] on strings *)
Fixpoint contains (needle hay : string) : bool :=
  match hay with
  | EmptyString => String.prefix needle hay
  | String _ rest => String.prefix needle hay || contains needle rest
  end.

(** [d.get(k, default=dflt)] on a MultiDict: the first value of the key. *)
Definition md_get (d : FilterParser.MultiDict) (k : string) : option string :=
  match dict_get d k with
  | Some (v :: _) => Some v
  | _ => None
  end.

Definition md_get_default (d : FilterParser.MultiDict) (k dflt : string) : string :=
  match md_get d k with
  | Some v => v
  | None => dflt
  end.

(** [d.poplist(k)], for what it leaves in [d]. *)
Definition poplist (k : string) (d : FilterParser.MultiDict) : FilterParser.MultiDict :=
  List.filter (fun kv => negb (String.eqb (fst kv) k)) d.

(** Truth value of an optional str: [None] and [""] are false. *)
Definition str_truthy (s : option string) : bool :=
  match s with
  | Some s => negb (String.eqb s "")
  | None => false
  end.

Definition form_urlencoded : string := "application/x-www-form-urlencoded".

Section Handlers.

(** [summarizeQueryHash] of [backend.common.genesets]. *)
Variable summarizeQueryHash : string -> string.
(** [data_adaptor.summarize_var], the summary computation. *)
Variable summarize_var : string -> FilterSpec -> string -> string -> bool -> result string.

Definition summarize_var_helper (request : request) (key : option string)
    (raw_query : string) : handled :=
  if negb (accepts_octet_stream request) then (Abort NOT_ACCEPTABLE, [])
  else
    let summary_method := md_get_default (values request) "method" "mean" in
    let query_hash := summarizeQueryHash raw_query in
    if str_truthy key
       && negb (match key with Some k => String.eqb query_hash k | None => false end)
    then (Abort BAD_REQUEST, [])
    else
      let args_filter_only :=
        poplist "logscale" (poplist "layer" (poplist "key"
          (poplist "method" (values request)))) in
      let layer := md_get_default (values request) "layer" "X" in
      let logscale := String.eqb (md_get_default (values request) "logscale" "false") "true" in
      match _query_parameter_to_filter args_filter_only with
      | Raise e =>
          match e with
          | ValueError _ => (Abort NOT_FOUND, [])
          | UnsupportedSummaryMethod | FilterError _ => (Abort BAD_REQUEST, [])
          | _ => (Raised e, [])
          end
      | Ok filter =>
          let call := Call_summarize_var summary_method filter query_hash layer logscale in
          match summarize_var summary_method filter query_hash layer logscale with
          | Ok summary =>
              (Response (Raw summary) OK [("Content-Type", "application/octet-stream")],
               [call])
          | Raise e =>
              match e with
              | ValueError _ => (Abort NOT_FOUND, [call])
              | UnsupportedSummaryMethod | FilterError _ => (Abort BAD_REQUEST, [call])
              | _ => (Raised e, [call])
              end
          end
      end.

Definition summarize_var_get (request : request) : handled :=
  summarize_var_helper request None (query_string request).

Definition summarize_var_post (request : request) : handled :=
  if negb (str_truthy (content_type request))
     || negb (match content_type request with
              | Some ct => contains form_urlencoded ct
              | None => false
              end)
  then (Abort UNSUPPORTED_MEDIA_TYPE, [])
  else
    match content_length request with
    | None => (Raised TypeError, [])
    | Some n =>
        if (1000000 <? n)%Z then (Abort BAD_REQUEST, [])
        else
          let key := md_get (args request) "key" in
          summarize_var_helper request key (data request)
    end.

End Handlers.

(** The content type names the form encoding. *)
Definition declares_form_urlencoded (request : request) : bool :=
  match content_type request with
  | Some ct => contains form_urlencoded ct
  | None => false
  end.

(** A two-megabyte body sent as plain text. *)
Definition oversized_plain_text : request :=
  mkRequest (Some "text/plain") (Some 2000000%Z) true [] [] "" "".

(** A two-megabyte form. *)
Definition oversized_form : request :=
  mkRequest (Some "application/x-www-form-urlencoded; charset=utf-8") (Some 2000000%Z)
            true [] [] "" "".

Definition no_hash (_ : string) : string := "".
Definition mean_of_nothing (_ : string) (_ : FilterSpec) (_ _ : string) (_ : bool)
  : result string := Ok "".

End Summarize.

(** ** More shapes of filter parameters and filters *)

Module FilterShapes.
Import FilterParser.
Section Shapes.

Variable url_unquote : string -> string.
Variable F : Type.
Variable float : string -> option F.

(** [axis in ("obs", "var")] *)
Definition valid_axis (axis : string) : bool :=
  String.eqb axis "obs" || String.eqb axis "var".

(** A range whose two endpoints are both the wildcard. *)
Definition both_wildcards (value : string) : bool :=
  match split "," value with
  | [lo; hi] => String.eqb (url_unquote lo) "*" && String.eqb (url_unquote hi) "*"
  | _ => false
  end.

(** The axis and the decoded field name a key addresses. *)
Definition field_of (key : string) : option (string * string) :=
  match split ":" key with
  | [axis; name] => Some (axis, url_unquote name)
  | _ => None
  end.

(** The key of the parameter is for field [name] of [axis]. *)
Definition addresses (axis name : string) (kv : string * string) : bool :=
  match field_of (fst kv) with
  | Some (a, n) => String.eqb a axis && String.eqb n name
  | None => false
  end.

(** The key of the parameter is for some field of [axis]. *)
Definition on_axis (axis : string) (kv : string * string) : bool :=
  match field_of (fst kv) with
  | Some (a, _) => String.eqb a axis
  | None => false
  end.

(** A parameter with a well-formed key on a known axis and a value without
    a comma. *)
Definition is_value_param (kv : string * string) : bool :=
  match field_of (fst kv) with
  | Some (a, _) => valid_axis a && is_value (snd kv)
  | None => false
  end.

(** The decoded values sent for a field, in the order of the parameters. *)
Definition values_of (axis name : string) (items : list (string * string)) : list string :=
  map (fun kv => url_unquote (snd kv)) (List.filter (addresses axis name) items).

(** What the loop holds for a field after value parameters only. *)
Definition value_set (name : string) (vs : list string) : option (FieldPredicate F) :=
  match vs with
  | [] => None
  | _ => Some (mkPred F name (Some vs) None None)
  end.

(** A predicate is a non-empty value set without bounds, or a range with at
    least one bound and no values. *)
Definition well_formed (p : FieldPredicate F) : bool :=
  match fp_values F p, fp_min F p, fp_max F p with
  | Some (_ :: _), None, None => true
  | None, Some _, _ => true
  | None, None, Some _ => true
  | _, _, _ => false
  end.

(** The state the loop keeps: every entry of an axis dict is filed under its
    own name and is well formed. *)
Definition entry_ok (kp : string * FieldPredicate F) : Prop :=
  fp_name F (snd kp) = fst kp /\ well_formed (snd kp) = true.

Definition dict_ok (d : axis_dict F) : Prop :=
  Forall entry_ok d /\ List.NoDup (map fst d).

Definition filters_ok (fs : filters F) : Prop :=
  dict_ok (f_obs F fs) /\ dict_ok (f_var F fs).

(** The axes with an entry are those the parameters seen so far are for, and
    those are known axes. *)
Definition axes_seen (done : list (string * string)) (fs : filters F) : Prop :=
  (forall kv axis, In kv done -> on_axis axis kv = true -> valid_axis axis = true)
  /\ (forall axis, valid_axis axis = true ->
        (get_axis F fs axis <> [] <-> exists kv, In kv done /\ on_axis axis kv = true)).

(** Each field holds the decoded values sent for it so far, in order. *)
Definition values_so_far (done : list (string * string)) (fs : filters F) : Prop :=
  forall axis name, valid_axis axis = true ->
    field_at F fs axis name = value_set name (values_of axis name done).

End Shapes.
End FilterShapes.

(** ** Handlers that delegate to the data adaptor *)

(** The calls these handlers make to the data adaptor, and what a handler
    does besides answering: it logs and it calls. *)
Inductive adaptor_call : Type :=
| data_frame_to_fbs_matrix (filter : FilterSpec) (layer : string) (logscale : bool)
| compute_sankey_df (labels name filter : json) (userID : string)
| compute_embedding (method filter reembedParams parentName embName : json)
                    (userID : string) (hosted : bool).

Inductive effect : Type :=
| Logged (level : loglevel) (msg : logmsg)
| Called (c : adaptor_call).

Definition answered : Type := (outcome * list effect)%type.

Definition is_call (e : effect) : bool :=
  match e with Called _ => true | Logged _ _ => false end.

(** Whether the data adaptor was called at all. *)
Definition adaptor_called (effects : list effect) : bool := existsb is_call effects.

(** [abort_and_log(code, logmsg)] after the effects so far. *)
Definition abort_logged (sofar : list effect) (code : HTTPStatus) (msg : logmsg) : answered :=
  (Abort code, sofar ++ [Logged DEBUG msg]).

Module DataVar.
Section Handler.

(** [data_adaptor.data_frame_to_fbs_matrix(filter, axis=Axis.VAR, layer=..., logscale=...)] *)
Variable to_fbs_matrix : FilterSpec -> string -> bool -> result string.

(** [except (FilterError, ValueError, ExceedsLimitError) as e] *)
Definition except_bad_request (sofar : list effect) (e : exn) : answered :=
  match e with
  | FilterError _ | ValueError _ | ExceedsLimitError =>
      abort_logged sofar BAD_REQUEST (LogStr e)
  | _ => (Raised e, sofar)
  end.

Definition data_var_get (request : Summarize.request) : answered :=
  if negb (Summarize.accepts_octet_stream request) then (Abort NOT_ACCEPTABLE, [])
  else
    let layer := Summarize.md_get_default (Summarize.values request) "layer" "X" in
    let logscale :=
      String.eqb (Summarize.md_get_default (Summarize.values request) "logscale" "false")
                 "true" in
    let args_filter_only :=
      Summarize.poplist "logscale" (Summarize.poplist "layer" (Summarize.args request)) in
    match _query_parameter_to_filter args_filter_only with
    | Raise e => except_bad_request [] e
    | Ok filter =>
        let call := Called (data_frame_to_fbs_matrix filter layer logscale) in
        match to_fbs_matrix filter layer logscale with
        | Ok fbs =>
            (Response (Raw fbs) OK [("Content-Type", "application/octet-stream")], [call])
        | Raise e => except_bad_request [call] e
        end
    end.

End Handler.

(** The parameter cannot be part of a filter, whatever [url_unquote] and
    [float] make of it: its key is not [axis:field], its axis is neither
    [obs] nor [var], or its value has two commas or more. *)
Definition malformed (kv : string * string) : bool :=
  FilterParser.key_malformed (fst kv) || FilterParser.axis_unknown (fst kv)
  || FilterParser.segments_wrong (snd kv).

(** An adaptor with nothing to say. *)
Definition empty_matrix (_ : FilterSpec) (_ : string) (_ : bool) : result string := Ok "".

(** [GET ...?method=mean], accepting octet-stream. *)
Definition request_with_method : Summarize.request :=
  Summarize.mkRequest None None true [("method", ["mean"])] [("method", ["mean"])]
                      "method=mean" "".

End DataVar.

Module Sankey.
Section Handler.

Variable userID : string.
(** [data_adaptor.compute_sankey_df(labels, name, filter, userID)]: edges and
    weights. *)
Variable compute_sankey : json -> json -> json -> string -> result (list (list json) * list json).

(** [jsonify({"edges": edges, "weights": weights})] with status 200 *)
Definition graph_response (edges : list (list json)) (weights : list json) : outcome :=
  Response (Jsonify (JObj [("edges", JArr (map JArr edges)); ("weights", JArr weights)]))
           OK [("Content-Type", "application/json")].

Definition sankey_data_put (args : json) : answered :=
  match (do labels <- py_get args "labels" JNull ;;
         do name <- py_get args "name" JNull ;;
         do filter <- py_get args "filter" JNull ;;
         Ok (labels, name, filter)) with
  | Raise e => (Raised e, [])
  | Ok (labels, name, filter) =>
      if negb (truthy labels) then (graph_response [] [], [])
      else
        let call := Called (compute_sankey_df labels name filter userID) in
        match compute_sankey labels name filter userID with
        | Ok (edges, weights) => (graph_response edges weights, [call])
        | Raise e =>
            match e with
            | NotImplementedError => abort_logged [call] NOT_IMPLEMENTED (LogStr e)
            | ValueError _ | DisabledFeatureError | FilterError _ =>
                abort_logged [call] BAD_REQUEST (LogStr e)
            | _ => (Raised e, [call])
            end
        end
  end.

End Handler.

(** An adaptor that finds one edge. *)
Definition one_edge (_ _ _ : json) (_ : string) : result (list (list json) * list json) :=
  Ok ([[JStr "a"; JStr "b"]], [JNum 1]).

End Sankey.

Module Reembed.
Section Handler.

Variable userID : string.
Variable hosted_mode : bool.
(** [data_adaptor.compute_embedding(method, filter, reembedParams, parentName,
    embName, userID, hosted=...)]: the schema to send back. *)
Variable compute : json -> json -> json -> json -> json -> string -> bool -> result json.

(** [args[k] if args else dflt] *)
Definition item_or (args : json) (k : string) (dflt : json) : result json :=
  if truthy args then getitem args k else Ok dflt.

Definition layout_obs_put (args : json) : answered :=
  match item_or args "filter" JNull with
  | Raise e => (Raised e, [])
  | Ok filter =>
      if negb (truthy filter)
      then abort_logged [] BAD_REQUEST (LogText "obs filter is required")
      else
        match (do method <- item_or args "method" (JStr "umap") ;;
               do reembedParams <- item_or args "params" (JObj []) ;;
               do parentName <- item_or args "parentName" (JStr "") ;;
               do embName <- item_or args "embName" JNull ;;
               Ok (method, reembedParams, parentName, embName)) with
        | Raise e => (Raised e, [])
        | Ok (method, reembedParams, parentName, embName) =>
            let call := Called (compute_embedding method filter reembedParams parentName
                                                  embName userID hosted_mode) in
            match compute method filter reembedParams parentName embName userID hosted_mode with
            | Ok schema =>
                (Response (Jsonify schema) OK [("Content-Type", "application/json")], [call])
            | Raise e =>
                match e with
                | NotImplementedError => abort_logged [call] NOT_IMPLEMENTED (LogStr e)
                | ValueError _ | DisabledFeatureError | FilterError _ =>
                    abort_logged [call] BAD_REQUEST (LogStr e)
                | _ => (Raised e, [call])
                end
            end
        end
  end.

End Handler.

(** The request has every key the handler reads, and a filter that is
    neither null nor empty. *)
Definition complete_request (args : json) : bool :=
  match args with
  | JObj fields =>
      match dict_get fields "filter" with
      | Some filter =>
          truthy filter && has_field "method" fields && has_field "params" fields
          && has_field "parentName" fields && has_field "embName" fields
      | None => false
      end
  | _ => false
  end.

Definition same_schema (_ _ _ _ _ : json) (_ : string) (_ : bool) : result json :=
  Ok (JObj []).

(** [{"filter": {"obs": {"index": [[0, 10]]}}, "method": "umap", "params": {},
      "parentName": "", "embName": "e"}] *)
Definition reembed_request : json :=
  JObj [("filter", JObj [("obs", JObj [("index", JArr [JArr [JNum 0; JNum 10]])])]);
        ("method", JStr "umap"); ("params", JObj []); ("parentName", JStr "");
        ("embName", JStr "e")].

End Reembed.

(** ** [rename_obsm_put] *)

Module Rename.
Import Files Embeddings.

(** The JSON body [{"embNames": ..., "oldName": ..., "newName": ...}]:
    [None] for a key that is absent or null. *)
Record rename_request : Type := mkRenameRequest {
  embNames : option (list string);
  oldName : option string;
  newName : option string
}.

(** [os.rename(src, dst)] for a [dst] in a directory that exists, as the
    directory of [src] does: raises when there is no [src]; a file at [dst]
    is replaced.  The paths are compared as strings, see [FS]. *)
Definition os_rename (src dst : string) (fs : FS) : result unit * FS :=
  if bool_decide (src ∈ fs) then (Ok tt, {[dst]} ∪ (fs ∖ {[src]}))
  else (Raise (FileNotFoundError src), fs).

Section Handler.

(** Python's [s.replace(old, new)]. *)
Variable replace : string -> string -> string -> string.
(** [schema_get_helper(data_adaptor)] on the files as they are. *)
Variable schema_get_helper : FS -> result json.

(** The body of the loop over [embNames]. *)
Definition rename_embedding (userID old new embName : string) : FS -> result unit * FS :=
  andthen (os_rename (emb_path userID embName) (emb_path userID (replace embName old new)))
    (andthen (os_rename (nnm_path userID embName) (nnm_path userID (replace embName old new)))
       (os_rename (params_path userID embName)
                  (params_path userID (replace embName old new)))).

Fixpoint rename_embeddings (userID old new : string) (names : list string) (fs : FS)
  : result unit * FS :=
  match names with
  | [] => (Ok tt, fs)
  | embName :: rest =>
      andthen (rename_embedding userID old new embName)
              (rename_embeddings userID old new rest) fs
  end.

(** The renames of the request, when [embNames], [oldName] and [newName] are
    all given. *)
Definition renames (userID : string) (request : rename_request) (fs : FS)
  : result unit * FS :=
  match embNames request, oldName request, newName request with
  | Some names, Some old, Some new => rename_embeddings userID old new names fs
  | _, _, _ => (Ok tt, fs)
  end.

Definition rename_obsm_put (userID : string) (request : rename_request) (fs : FS)
  : answered * FS :=
  match renames userID request fs with
  | (Raise e, fs') => ((Raised e, []), fs')
  | (Ok _, fs') =>
      match schema_get_helper fs' with
      | Ok schema =>
          ((Response (Jsonify (JObj [("schema", schema)])) OK
                     [("Content-Type", "application/json")], []), fs')
      | Raise e =>
          match e with
          | NotImplementedError => (abort_logged [] NOT_IMPLEMENTED (LogStr e), fs')
          | ValueError _ | DisabledFeatureError | FilterError _ =>
              (abort_logged [] BAD_REQUEST (LogStr e), fs')
          | _ => ((Raised e, []), fs')
          end
      end
  end.

End Handler.

(** A [replace] that knows one name. *)
Definition umap_to_tsne (s old new : string) : string :=
  if String.eqb s "umap" then "tsne" else s.

Definition no_schema (_ : FS) : result json := Ok JNull.

(** The three artifacts of the embedding [umap] of user ["u"], and labels. *)
Definition umap_scope : FS :=
  {[ "u/emb/umap.p"; "u/nnm/umap.p"; "u/params/umap.p"; "u/obs.p" ]}.

(** Coordinates without a neighbour graph. *)
Definition broken_scope : FS := {[ "u/emb/umap.p"; "u/obs.p" ]}.

End Rename.

(** ** [schema_get_helper]: the layouts of the schema document *)

Module Layout.
Import Embeddings.

(** [s.split(sep)] for a separator of one character or more: the pieces
    between the occurrences of [sep], found from the left without overlap.
    [skip] counts the characters of an occurrence still to pass. *)
Fixpoint split_on_from (sep : string) (skip : nat) (s : string) : list string :=
  match s with
  | EmptyString => [EmptyString]
  | String c s' =>
      match skip with
      | S k => split_on_from sep k s'
      | O =>
          if String.prefix sep s
          then EmptyString :: split_on_from sep (String.length sep - 1) s'
          else match split_on_from sep 0 s' with
               | [] => [String c EmptyString]
               | w :: ws => String c w :: ws
               end
      end
  end.

Definition split_on (sep s : string) : list string := split_on_from sep 0 s.

(** [s[:-2]] *)
Definition drop_last_two (s : string) : string :=
  String.substring 0 (String.length s - 2) s.

(** [x.split(f"{userID}/emb/")[-1][:-2]] *)
Definition layout_name (userID x : string) : string :=
  drop_last_two (List.last (split_on (userID +:+ "/emb/") x) EmptyString).

Fixpoint has_slash (s : string) : bool :=
  match s with
  | EmptyString => false
  | String c s' => Ascii.eqb c "/" || has_slash s'
  end.

Definition ends_with_dot_p (s : string) : bool :=
  String.eqb (String.substring (String.length s - 2) 2 s) ".p".

Definition starts_with_dot (s : string) : bool := String.prefix "." s.

(** What [*.p] matches in a directory: a file name that ends in [.p] and
    does not start with a dot. *)
Definition star_dot_p (base : string) : bool :=
  negb (has_slash base) && ends_with_dot_p base && negb (starts_with_dot base).

(** Whether [glob(f"{userID}/emb/*.p")] yields the path, the directory part
    read literally. *)
Definition in_emb_glob (userID p : string) : bool :=
  let dir := userID +:+ "/emb/" in
  String.prefix dir p
  && star_dot_p (String.substring (String.length dir) (String.length p - String.length dir) p).

(** [glob(f"{userID}/emb/*.p")], in no particular order. *)
Definition glob_emb (userID : string) (fs : FS) : list string :=
  List.filter (in_emb_glob userID) (elements fs).

(** [{"name": layout, "type": "float32", "dims": [f"{layout}_0", f"{layout}_1"]}] *)
Record layout_schema : Type := mkLayout {
  ls_name : string;
  ls_type : string;
  ls_dims : list string
}.

(** The value of [schema["layout"]["obs"]]. *)
Definition schema_layout (userID : string) (fs : FS) : list layout_schema :=
  map (fun x =>
         let layout := layout_name userID x in
         mkLayout layout "float32" [layout +:+ "_0"; layout +:+ "_1"])
      (glob_emb userID fs).

(** The embedding names the schema lists. *)
Definition listed (userID : string) (fs : FS) : list string :=
  map ls_name (schema_layout userID fs).

(** A name under which [glob] finds the coordinates file. *)
Definition listable (name : string) : bool :=
  negb (has_slash name) && negb (starts_with_dot (name +:+ ".p")).

End Layout.

(** ** [reembed_parameters_obsm_put] *)

Module ReembedParams.

(** A value of the pickled parameters: a plain Python value, or a numpy
    object, known by what its [.item()] gives. *)
Inductive pyvalue : Type :=
| Plain (j : json)
| Numpy (item : result json).

(** The pickled parameters of an embedding: a dict. *)
Definition params : Type := list (string * pyvalue).

(** [del d[k]] inside [try: ... except: pass] *)
Definition del_if_present (k : string) (d : params) : params :=
  List.filter (fun kv => negb (String.eqb (fst kv) k)) d.

(** The keys kept for reproduction only. *)
Definition internal_keys : list string :=
  ["parentParams"; "sample_ids"; "feature_ids"; "feature_weights"].

Definition is_internal (k : string) : bool := existsb (String.eqb k) internal_keys.

(** The four [del]s. *)
Definition strip (d : params) : params :=
  del_if_present "feature_weights"
    (del_if_present "feature_ids"
       (del_if_present "sample_ids"
          (del_if_present "parentParams" d))).

(** The loop that replaces numpy values by their [.item()]. *)
Fixpoint to_python (d : params) : result (list (string * json)) :=
  match d with
  | [] => Ok []
  | (k, v) :: rest =>
      do j <- match v with Plain j => Ok j | Numpy item => item end ;;
      do rest' <- to_python rest ;;
      Ok ((k, j) :: rest')
  end.

(** [jsonify({"reembedParams": o})] with status 200 *)
Definition params_response (o : list (string * json)) : outcome :=
  Response (Jsonify (JObj [("reembedParams", JObj o)])) OK [].

Section Handler.

(** [pickle.load(open(f"{userID}/params/{embName}", "rb"))] *)
Variable load : json -> result params.

Definition reembed_parameters_obsm_put (args : json) : answered :=
  match getitem args "embName" with
  | Raise e => (Raised e, [])
  | Ok embName =>
      let reembedParams :=
        match load embName with
        | Ok d => Some d
        | Raise _ => None
        end in
      let reembedParams := option_map strip reembedParams in
      match reembedParams with
      | Some d =>
          match to_python d with
          | Ok o => (params_response o, [])
          | Raise e =>
              match e with
              | ValueError _ | KeyError _ => abort_logged [] BAD_REQUEST (LogStr e)
              | _ => (Raised e, [])
              end
          end
      | None => (params_response [], [])
      end
  end.

End Handler.

(** Parameters as the embedding leaves them. *)
Definition umap_params : params :=
  [("n_neighbors", Numpy (Ok (JNum 15)));
   ("parentParams", Plain JNull);
   ("feature_weights", Numpy (Raise TypeError));
   ("metric", Plain (JStr "cosine"))].

Definition load_umap (_ : json) : result params := Ok umap_params.

End ReembedParams.

(** ** [annotations_obs_put], [annotations_put_fbs_helper], [annotations_obs_get] *)

Module Labels.
Section Handlers.

(** [_get_user_id(data_adaptor)] *)
Variable userID : string.
(** A table of labels, as pandas holds it. *)
Variable table : Type.
(** [df.empty] *)
Variable is_empty : table -> bool.
(** [annotations.user_annotations_enabled()] *)
Variable user_annotations_enabled : bool.
(** [annotations.is_safe_collection_name] *)
Variable is_safe_collection_name : string -> bool.
(** [zlib.decompress] *)
Variable zlib_decompress : string -> result string.
(** [decode_matrix_fbs] *)
Variable decode_matrix_fbs : string -> result table.
(** [data_adaptor.check_new_labels] *)
Variable check_new_labels : table -> result table.
(** [data_adaptor.annotation_to_fbs_matrix(Axis.OBS, fields, labels)] *)
Variable annotation_to_fbs_matrix : list string -> option table -> result string.
(** [server_config.exceeds_limit("column_request_max", n)] *)
Variable exceeds_limit : nat -> bool.
(** [len(data_adaptor.get_obs_keys())] *)
Variable obs_keys : nat.

(** What the handlers keep between requests: the table pickled in
    [<user>/obs.p], if the file exists, and the collection selected.
    [pickle.load] gives back the table [pickle.dump] was given, and the
    user's directory can be written to. *)
Record state : Type := mkState {
  stored : option table;
  collection : option string
}.

Record put_request : Type := mkPut {
  anno_collection : option string;
  data : string
}.

Definition inflate (data : string) : result string := zlib_decompress data.

(** [annotations_put_fbs_helper]: the table to pickle. *)
Definition annotations_put_fbs_helper (fbs : string) : result table :=
  if negb user_annotations_enabled then Raise DisabledFeatureError
  else
    do new_label_df <- decode_matrix_fbs fbs ;;
    if negb (is_empty new_label_df) then check_new_labels new_label_df
    else Ok new_label_df.

(** [json.dumps({"status": "OK"})] with status 200 *)
Definition status_OK : outcome :=
  Response (Jsonify (JObj [("status", JStr "OK")])) OK [("Content-Type", "application/json")].

Definition annotations_obs_put (request : put_request) (st : state) : answered * state :=
  if negb user_annotations_enabled then ((Abort NOT_IMPLEMENTED, []), st)
  else
    match inflate (data request) with
    | Raise e => ((Raised e, []), st)
    | Ok fbs =>
        match (match anno_collection request with
               | Some name =>
                   if negb (is_safe_collection_name name) then None
                   else Some (mkState (stored st) (Some name))
               | None => Some st
               end) with
        | None => ((Abort BAD_REQUEST, []), st)
        | Some st =>
            match annotations_put_fbs_helper fbs with
            | Ok new_label_df => ((status_OK, []), mkState (Some new_label_df) (collection st))
            | Raise e =>
                match e with
                | ValueError _ | DisabledFeatureError | KeyError _ =>
                    (abort_logged [] BAD_REQUEST (LogStr e), st)
                | _ => ((Raised e, []), st)
                end
            end
        end
    end.

Record get_request : Type := mkGet {
  annotation_names : list string;
  accepts_octet_stream : bool
}.

Definition annotations_obs_get (request : get_request) (st : state) : answered :=
  let fields := annotation_names request in
  let num_columns_requested :=
    if Nat.eqb (length fields) 0 then obs_keys else length fields in
  if exceeds_limit num_columns_requested then (Abort BAD_REQUEST, [])
  else if negb (accepts_octet_stream request) then (Abort NOT_ACCEPTABLE, [])
  else
    match (do labels <- (if user_annotations_enabled
                         then match stored st with
                              | Some t => Ok (Some t)
                              | None => Raise (FileNotFoundError (ExportFiles.obs_pickle userID))
                              end
                         else Ok None) ;;
           annotation_to_fbs_matrix fields labels) with
    | Ok fbs => (Response (Raw fbs) OK [("Content-Type", "application/octet-stream")], [])
    | Raise e =>
        match e with
        | KeyError _ => abort_logged [] BAD_REQUEST (LogStr e)
        | _ => (Raised e, [])
        end
    end.

(** The request was answered 200. *)
Definition answered_OK (a : answered) : bool :=
  match fst a with
  | Response _ OK _ => true
  | _ => false
  end.

End Handlers.

(** A table is a list of rows; nothing is compressed, nothing is checked
    away. *)
Definition rows : Type := list string.
Definition no_rows (t : rows) : bool := Nat.eqb (length t) 0.
Definition one_row (fbs : string) : result rows := Ok [fbs].
Definition unchecked (t : rows) : result rows := Ok t.
(** A label named as a column of the dataset is refused. *)
Definition not_louvain (t : rows) : result rows :=
  if existsb (String.eqb "louvain") t then Raise (KeyError "louvain") else Ok t.
Definition stored_as_is (data : string) : result string := Ok data.
Definition any_name (_ : string) : bool := true.
Definition first_row (_ : list string) (labels : option rows) : result string :=
  match labels with
  | Some (r :: _) => Ok r
  | _ => Ok ""
  end.
Definition no_limit (_ : nat) : bool := false.

End Labels.
(* ===================================================================== *)
(** * Properties *)
(* ===================================================================== *)

Example float_examples :
  PyLib.float "1000" = Some (PyLib.Finite (1000 # 1))
  /\ PyLib.float " -2.50e1 " = Some (PyLib.Finite (-25 # 1))
  /\ PyLib.float "1_000.5" = Some (PyLib.Finite (2001 # 2))
  /\ PyLib.float "*" = None
  /\ PyLib.float "abc" = None
  /\ PyLib.float "1e" = None
  /\ PyLib.float "." = None
  /\ PyLib.float ".5" = Some (PyLib.Finite (1 # 2))
  /\ PyLib.float "-Inf" = Some (PyLib.Infinity true).
Proof. vm_compute. repeat split. Qed.

Example unquote_examples :
  PyLib.url_unquote "a%20b" = "a b"
  /\ PyLib.url_unquote "%%41" = "%A"
  /\ PyLib.url_unquote "%4%41" = "%4A"
  /\ PyLib.url_unquote "tissue" = "tissue"
  /\ PyLib.url_unquote "100%" = "100%".
Proof. vm_compute. repeat split. Qed.

Example split_examples :
  split ":" "obs:tissue" = ["obs"; "tissue"]
  /\ split "," "1000,*" = ["1000"; "*"]
  /\ split "," "" = [""]
  /\ split "," "a," = ["a"; ""]
  /\ split ":" "a:b:c" = ["a"; "b"; "c"].
Proof. vm_compute. repeat split. Qed.

(** ** The error monad *)

Lemma for_each_app {S X} (body : S -> X -> result S) (xs ys : list X) (s : S) :
  for_each body (xs ++ ys) s = do s' <- for_each body xs s ;; for_each body ys s'.
Proof.
  revert s. induction xs as [|x xs IH]; intros s; simpl; [reflexivity|].
  destruct (body s x) as [s1|e]; simpl; [apply IH | reflexivity].
Qed.

Lemma for_each_app_Ok {S X} (body : S -> X -> result S) (xs ys : list X) (s s' : S) :
  for_each body (xs ++ ys) s = Ok s' ->
  exists s1, for_each body xs s = Ok s1 /\ for_each body ys s1 = Ok s'.
Proof.
  rewrite for_each_app. destruct (for_each body xs s) as [s1|e]; simpl; [eauto | discriminate].
Qed.

(** A loop whose body raises on [x] whatever the state cannot finish a list
    that contains [x]. *)
Lemma for_each_stuck {S X} (body : S -> X -> result S) (x : X) (xs : list X) :
  (forall s, exists e, body s x = Raise e) ->
  In x xs -> forall s, exists e, for_each body xs s = Raise e.
Proof.
  intros Hx. induction xs as [|y ys IH]; intros Hin s; [destruct Hin|].
  simpl. destruct Hin as [->|Hin].
  - destruct (Hx s) as [e ->]. eauto.
  - destruct (body s y) as [s'|e]; simpl; eauto.
Qed.

(** Only exceptions of the class [P] leave a loop whose body raises only
    those. *)
Lemma for_each_raises {S X} (body : S -> X -> result S) (P : exn -> Prop) :
  (forall s x e, body s x = Raise e -> P e) ->
  forall xs s e, for_each body xs s = Raise e -> P e.
Proof.
  intros Hb. induction xs as [|x xs IH]; intros s e; simpl; [discriminate|].
  destruct (body s x) as [s'|e'] eqn:E; simpl.
  - apply IH.
  - intros [= <-]. eapply Hb, E.
Qed.

(** ** FilterParser *)

Module FilterParserFacts.
Import FilterParser.
Section Facts.

Context (url_unquote : string -> string) {F : Type} (float : string -> option F).

Local Abbreviation step := (step url_unquote F float).
Local Abbreviation parse := (FilterParser._query_parameter_to_filter url_unquote F float).
Local Abbreviation value_branch := (value_branch url_unquote F).
Local Abbreviation range_branch := (range_branch url_unquote F float).
Local Abbreviation try_body := (try_body url_unquote F float).

Lemma value_branch_raises cur value e :
  value_branch cur value = Raise e -> parser_exn e.
Proof.
  unfold FilterParser.value_branch.
  destruct (_ || _); [|discriminate]. intros [= <-]. right. eauto.
Qed.

Lemma range_branch_raises cur lo hi e :
  range_branch cur lo hi = Raise e -> parser_exn e.
Proof.
  unfold FilterParser.range_branch, py_float.
  repeat (simpl;
          match goal with
          | |- context [if ?b then _ else _] => destruct b
          | |- context [match float ?s with _ => _ end] => destruct (float s)
          end);
    simpl; try discriminate; intros [= <-]; solve [left; eauto | right; eauto].
Qed.

Lemma branch_raises cur value e :
  FilterParser.branch url_unquote F float cur value = Raise e -> parser_exn e.
Proof.
  unfold FilterParser.branch.
  destruct (split "," value) as [|lo [|hi [|? ?]]]; simpl;
    try (intros [= <-]; right; eauto; fail).
  - apply value_branch_raises.
  - apply range_branch_raises.
Qed.

Lemma step_raises fs kv e : step fs kv = Raise e -> parser_exn e.
Proof.
  destruct kv as [key value]. unfold FilterParser.step, unpack2.
  destruct (split ":" key) as [|a [|n [|? ?]]]; simpl;
    try (intros [= <-]; left; eauto; fail).
  destruct (negb _); [intros [= <-]; right; eauto|].
  destruct (od_setdefault _ _ _) as [d current].
  destruct (FilterParser.branch _ _ _ current value) eqn:E; simpl; [discriminate|].
  intros [= <-]. eapply branch_raises, E.
Qed.

Lemma try_body_raises args e : try_body args = Raise e -> parser_exn e.
Proof. apply (for_each_raises _ parser_exn). apply step_raises. Qed.

(** Whatever the loop does, the function returns or raises [FilterError]. *)
Lemma parse_Ok_or_FilterError args :
  (exists f, parse args = Ok f) \/ (exists m, parse args = Raise (FilterError m)).
Proof.
  unfold FilterParser._query_parameter_to_filter.
  fold (try_body args).
  destruct (try_body args) as [fs|e] eqn:E; simpl; [left; eauto|].
  right. destruct (try_body_raises _ _ E) as [[v ->]|[m ->]]; simpl; eauto.
Qed.

(** When the loop cannot finish, the function raises [FilterError]. *)
Lemma parse_FilterError_of_loop args e :
  try_body args = Raise e -> exists m, parse args = Raise (FilterError m).
Proof.
  intros E. unfold FilterParser._query_parameter_to_filter.
  fold (try_body args). rewrite E.
  destruct (try_body_raises _ _ E) as [[v ->]|[m ->]]; simpl; eauto.
Qed.

(** *** Malformed parameters stop the loop, whatever the state *)

Lemma step_stuck_key fs key value :
  key_malformed key = true -> exists e, step fs (key, value) = Raise e.
Proof.
  unfold key_malformed, FilterParser.step, unpack2.
  destruct (split ":" key) as [|a [|n [|? ?]]]; simpl; try discriminate; eauto.
Qed.

Lemma step_stuck_axis fs key value :
  axis_unknown key = true -> exists e, step fs (key, value) = Raise e.
Proof.
  unfold axis_unknown, FilterParser.step, unpack2.
  destruct (split ":" key) as [|a [|n [|? ?]]]; simpl; try discriminate.
  intros ->. eauto.
Qed.

Lemma step_stuck_segments fs key value :
  segments_wrong value = true -> exists e, step fs (key, value) = Raise e.
Proof.
  unfold segments_wrong, is_value, is_range, FilterParser.step, FilterParser.branch, unpack2.
  destruct (split ":" key) as [|a [|n [|? ?]]]; simpl; eauto.
  destruct (negb (String.eqb a "obs" || String.eqb a "var")); eauto.
  destruct (od_setdefault _ _ _) as [d current].
  destruct (split "," value) as [|lo [|hi [|? ?]]]; simpl; try discriminate; eauto.
Qed.

Lemma range_branch_stuck cur lo hi :
  not_a_bound url_unquote F float lo || not_a_bound url_unquote F float hi = true ->
  exists e, range_branch cur lo hi = Raise e.
Proof.
  unfold not_a_bound, FilterParser.range_branch, py_float. intros H.
  destruct (Nat.ltb 1 (dict_len F cur)); eauto.
  destruct (String.eqb (url_unquote lo) "*"), (float (url_unquote lo));
  simpl in *; eauto;
  destruct (String.eqb (url_unquote hi) "*"), (float (url_unquote hi));
  simpl in *; eauto; discriminate.
Qed.

Lemma step_stuck_endpoint fs key value :
  endpoint_non_numeric url_unquote F float value = true ->
  exists e, step fs (key, value) = Raise e.
Proof.
  unfold endpoint_non_numeric, FilterParser.step, FilterParser.branch, unpack2.
  destruct (split ":" key) as [|a [|n [|? ?]]]; simpl; eauto.
  destruct (negb (String.eqb a "obs" || String.eqb a "var")); eauto.
  destruct (od_setdefault _ _ _) as [d current].
  destruct (split "," value) as [|lo [|hi [|? ?]]]; simpl; try discriminate; eauto.
  intros H. destruct (range_branch_stuck current lo hi H) as [e ->]. simpl. eauto.
Qed.

Lemma parse_stuck args key value :
  In (key, value) (items_multi args) ->
  (forall fs, exists e, step fs (key, value) = Raise e) ->
  exists m, parse args = Raise (FilterError m).
Proof.
  intros Hin Hstuck.
  destruct (for_each_stuck step (key, value) (items_multi args) Hstuck Hin (empty_filters F))
    as [e E].
  eapply parse_FilterError_of_loop, E.
Qed.

(** C8. Filter parsing returns a filter dictionary or raises [FilterError]
    and nothing else; in particular a key that does not split into two
    parts at the colon, an unknown axis, a value with a segment count other
    than one or two, and a range endpoint that is not a number all make it
    raise [FilterError]. *)
Theorem parse_raises_only_FilterError (args : MultiDict) :
  ((exists f, parse args = Ok f) \/ (exists m, parse args = Raise (FilterError m)))
  /\ (forall key value,
        In (key, value) (items_multi args) ->
        key_malformed key || axis_unknown key
        || segments_wrong value || endpoint_non_numeric url_unquote F float value = true ->
        exists m, parse args = Raise (FilterError m)).
Proof.
  split; [apply parse_Ok_or_FilterError|].
  intros key value Hin H. apply (parse_stuck args key value Hin). intros fs.
  repeat (apply orb_prop in H; destruct H as [H|H]).
  - apply step_stuck_key, H.
  - apply step_stuck_axis, H.
  - apply step_stuck_segments, H.
  - apply step_stuck_endpoint, H.
Qed.

(** *** The dict of one axis *)

Lemma od_get_set_eq (d : axis_dict F) k v : od_get F (od_set F d k v) k = Some v.
Proof.
  induction d as [|[k' v'] d IH]; simpl.
  - now rewrite String.eqb_refl.
  - destruct (String.eqb k' k) eqn:E; simpl; rewrite E; [reflexivity | exact IH].
Qed.

Lemma od_get_set_ne (d : axis_dict F) k k' v :
  k <> k' -> od_get F (od_set F d k v) k' = od_get F d k'.
Proof.
  intros Hne. induction d as [|[k0 v0] d IH]; simpl.
  - apply String.eqb_neq in Hne. now rewrite Hne.
  - destruct (String.eqb k0 k) eqn:E; simpl.
    + apply String.eqb_eq in E. subst k0.
      apply String.eqb_neq in Hne. now rewrite Hne.
    + now rewrite IH.
Qed.

Lemma get_set_axis_eq (fs : filters F) a d : get_axis F (set_axis F fs a d) a = d.
Proof. unfold get_axis, set_axis. destruct (String.eqb a "obs"); reflexivity. Qed.

Lemma get_set_axis_ne (fs : filters F) a a' d :
  a = "obs" \/ a = "var" -> a' = "obs" \/ a' = "var" -> a <> a' ->
  get_axis F (set_axis F fs a d) a' = get_axis F fs a'.
Proof. intros [-> | ->] [-> | ->] Hne; try reflexivity; now elim Hne. Qed.

(** *** What one successful iteration does *)

Lemma step_Ok_inv fs key value fs' :
  step fs (key, value) = Ok fs' ->
  exists a n cur,
    split ":" key = [a; n] /\ (a = "obs" \/ a = "var")
    /\ branch url_unquote F float (current_of F fs a (url_unquote n)) value = Ok cur
    /\ field_at F fs' a (url_unquote n) = Some cur
    /\ (forall a' n', a' = "obs" \/ a' = "var" -> (a', n') <> (a, url_unquote n) ->
                      field_at F fs' a' n' = field_at F fs a' n').
Proof.
  unfold FilterParser.step, unpack2, branch, current_of, field_at, od_setdefault.
  destruct (split ":" key) as [|a [|n [|? ?]]]; simpl; try discriminate.
  destruct (String.eqb a "obs" || String.eqb a "var") eqn:Ea; simpl; [|discriminate].
  assert (Hv : a = "obs" \/ a = "var").
  { apply orb_prop in Ea. destruct Ea as [E|E]; apply String.eqb_eq in E; auto. }
  set (nm := url_unquote n).
  intros H. exists a, n.
  assert (Hgen : forall d0 (r : result (FieldPredicate F)),
    (do current <- r ;; Ok (set_axis F fs a (od_set F d0 nm current))) = Ok fs' ->
    (forall k, k <> nm -> od_get F d0 k = od_get F (get_axis F fs a) k) ->
    exists cur, r = Ok cur /\ od_get F (get_axis F fs' a) nm = Some cur
      /\ (forall a' n', a' = "obs" \/ a' = "var" -> (a', n') <> (a, nm) ->
            od_get F (get_axis F fs' a') n' = od_get F (get_axis F fs a') n')).
  { intros d0 r Hr Hd0. destruct r as [cur|e]; simpl in Hr; [|discriminate].
    injection Hr as <-. exists cur. split; [reflexivity|]. split.
    - rewrite get_set_axis_eq. apply od_get_set_eq.
    - intros a' n' Hv' Hne. destruct (String.eqb a a') eqn:Eaa.
      + apply String.eqb_eq in Eaa. subst a'. rewrite get_set_axis_eq.
        assert (nm <> n') by (intros ->; now apply Hne).
        rewrite od_get_set_ne by assumption. apply Hd0. congruence.
      + apply String.eqb_neq in Eaa. now rewrite get_set_axis_ne. }
  fold nm in H.
  destruct (od_get F (get_axis F fs a) nm) as [c|] eqn:Eg.
  - destruct (Hgen _ _ H) as (cur & Hr & ? & ?); [reflexivity|].
    exists cur. unfold nm in *. rewrite Eg. auto.
  - destruct (Hgen _ _ H) as (cur & Hr & ? & ?).
    + intros k Hk. apply od_get_set_ne. congruence.
    + exists cur. unfold nm in *. rewrite Eg. auto.
Qed.

Local Abbreviation branch := (FilterParser.branch url_unquote F float).
Local Abbreviation holds_values := (FilterParser.holds_values F).
Local Abbreviation holds_range := (FilterParser.holds_range F).

Lemma value_branch_Ok cur value cur' :
  value_branch cur value = Ok cur' ->
  holds_range cur = false /\ holds_values cur' = true /\ holds_range cur' = false.
Proof.
  unfold FilterParser.value_branch, FilterParser.holds_range, FilterParser.holds_values.
  destruct (has_key (fp_min F cur) || has_key (fp_max F cur)) eqn:E; [discriminate|].
  intros [= <-]. simpl. auto.
Qed.

Lemma range_branch_Ok cur lo hi cur' :
  range_branch cur lo hi = Ok cur' ->
  holds_values cur = false /\ holds_range cur = false
  /\ holds_range cur' = true /\ holds_values cur' = false.
Proof.
  unfold FilterParser.range_branch, FilterParser.holds_range, FilterParser.holds_values,
  py_float, dict_len.
  destruct cur as [nm [vs|] [lo0|] [hi0|]]; simpl; try discriminate;
  destruct (String.eqb (url_unquote lo) "*"), (float (url_unquote lo));
  simpl; try discriminate;
  destruct (String.eqb (url_unquote hi) "*"), (float (url_unquote hi));
  simpl; try discriminate; intros [= <-]; auto.
Qed.

Lemma branch_Ok_keeps cur value cur' :
  branch cur value = Ok cur' ->
  (holds_values cur = true -> holds_values cur' = true)
  /\ (holds_range cur = true -> holds_range cur' = true).
Proof.
  unfold FilterParser.branch.
  destruct (split "," value) as [|lo [|hi [|? ?]]]; try discriminate; intros H.
  - apply value_branch_Ok in H. destruct H as (H1 & H2 & _). split; congruence.
  - apply range_branch_Ok in H. destruct H as (H1 & H2 & _). split; congruence.
Qed.

Lemma branch_value_Ok cur value cur' :
  is_value value = true -> branch cur value = Ok cur' ->
  holds_range cur = false /\ holds_values cur' = true.
Proof.
  unfold is_value, FilterParser.branch.
  destruct (split "," value) as [|lo [|hi [|? ?]]]; try discriminate; intros _ H.
  apply value_branch_Ok in H. tauto.
Qed.

Lemma branch_range_Ok cur value cur' :
  is_range value = true -> branch cur value = Ok cur' ->
  holds_values cur = false /\ holds_range cur' = true.
Proof.
  unfold is_range, FilterParser.branch.
  destruct (split "," value) as [|lo [|hi [|? ?]]]; try discriminate; intros _ H.
  apply range_branch_Ok in H. tauto.
Qed.

(** A field keeps what it holds through every later iteration. *)
Lemma step_keeps fs kv fs' a n cur :
  step fs kv = Ok fs' -> a = "obs" \/ a = "var" ->
  field_at F fs a n = Some cur ->
  exists cur', field_at F fs' a n = Some cur'
  /\ (holds_values cur = true -> holds_values cur' = true)
  /\ (holds_range cur = true -> holds_range cur' = true).
Proof.
  destruct kv as [key value]. intros Hs Hv Hf.
  destruct (step_Ok_inv _ _ _ _ Hs) as (a0 & n0 & cur1 & _ & _ & Hb & Hnew & Hold).
  destruct (decide ((a, n) = (a0, url_unquote n0))) as [[= -> ->]|Hne].
  - unfold current_of in Hb. rewrite Hf in Hb.
    exists cur1. split; [assumption|]. eapply branch_Ok_keeps, Hb.
  - exists cur. rewrite Hold by assumption. auto.
Qed.

Lemma for_each_keeps kvs : forall fs fs' a n cur,
  for_each step kvs fs = Ok fs' -> a = "obs" \/ a = "var" ->
  field_at F fs a n = Some cur ->
  exists cur', field_at F fs' a n = Some cur'
  /\ (holds_values cur = true -> holds_values cur' = true)
  /\ (holds_range cur = true -> holds_range cur' = true).
Proof.
  induction kvs as [|kv kvs IH]; intros fs fs' a n cur; simpl.
  - intros [= <-] _ Hf. eauto.
  - destruct (step fs kv) as [fs1|e] eqn:Es; simpl; [|discriminate].
    intros Hloop Hv Hf.
    destruct (step_keeps _ _ _ _ _ _ Es Hv Hf) as (cur1 & Hf1 & Hv1 & Hr1).
    destruct (IH _ _ _ _ _ Hloop Hv Hf1) as (cur2 & Hf2 & Hv2 & Hr2).
    exists cur2. auto.
Qed.

(** The state-based form: a value for a field that holds a range, or a
    range for a field that holds values, stops the loop. *)
Lemma step_mixing_stuck fs key value a n cur :
  split ":" key = [a; n] ->
  field_at F fs a (url_unquote n) = Some cur ->
  is_value value && holds_range cur || is_range value && holds_values cur = true ->
  exists e, step fs (key, value) = Raise e.
Proof.
  intros Hk Hf Hmix. destruct (step fs (key, value)) as [fs'|e] eqn:Es; [|eauto].
  exfalso.
  destruct (step_Ok_inv _ _ _ _ Es) as (a0 & n0 & cur1 & Hk0 & _ & Hb & _).
  rewrite Hk in Hk0. injection Hk0 as <- <-.
  unfold current_of in Hb. rewrite Hf in Hb.
  apply orb_prop in Hmix. destruct Hmix as [H|H]; apply andb_prop in H; destruct H as [H1 H2].
  - destruct (branch_value_Ok _ _ _ H1 Hb). congruence.
  - destruct (branch_range_Ok _ _ _ H1 Hb). congruence.
Qed.

Lemma loop_mixing_stuck_state pre key value post fs a n cur :
  for_each step pre (empty_filters F) = Ok fs ->
  split ":" key = [a; n] ->
  field_at F fs a (url_unquote n) = Some cur ->
  is_value value && holds_range cur || is_range value && holds_values cur = true ->
  exists e, for_each step (pre ++ (key, value) :: post) (empty_filters F) = Raise e.
Proof.
  intros Hpre Hk Hf Hmix. rewrite for_each_app, Hpre. cbn [bind for_each].
  destruct (step_mixing_stuck _ _ _ _ _ _ Hk Hf Hmix) as [e ->]. cbn [bind]. eauto.
Qed.

Lemma loop_mixing_stuck_trace pre k1 v1 mid k2 v2 post :
  same_field url_unquote k1 k2 = true ->
  is_value v1 && is_range v2 || is_range v1 && is_value v2 = true ->
  exists e,
    for_each step (pre ++ (k1, v1) :: mid ++ (k2, v2) :: post) (empty_filters F) = Raise e.
Proof.
  intros Hsame Hmix.
  destruct (for_each step _ _) as [fs|e] eqn:E; [exfalso|eauto].
  apply for_each_app_Ok in E. destruct E as (s0 & _ & E). cbn [bind for_each] in E.
  destruct (step s0 (k1, v1)) as [s1|] eqn:E1; cbn [bind] in E; [|discriminate].
  apply for_each_app_Ok in E. destruct E as (s2 & Emid & E). cbn [bind for_each] in E.
  destruct (step s2 (k2, v2)) as [s3|] eqn:E2; cbn [bind] in E; [|discriminate].
  destruct (step_Ok_inv _ _ _ _ E1) as (a & n & cur1 & Hk1 & Hv & Hb & Hf1 & _).
  unfold same_field in Hsame. rewrite Hk1 in Hsame.
  destruct (split ":" k2) as [|a2 [|n2 [|? ?]]] eqn:Hk2; try discriminate.
  apply andb_prop in Hsame. destruct Hsame as [Ha Hn].
  apply String.eqb_eq in Ha, Hn. subst a2.
  destruct (for_each_keeps _ _ _ _ _ _ Emid Hv Hf1) as (cur2 & Hf2 & Hkv & Hkr).
  rewrite Hn in Hf2.
  assert (Hstuck : is_value v2 && holds_range cur2 || is_range v2 && holds_values cur2 = true).
  { apply orb_prop in Hmix.
    destruct Hmix as [H|H]; apply andb_prop in H; destruct H as [H1 H2]; rewrite H2; simpl.
    - destruct (branch_value_Ok _ _ _ H1 Hb) as [_ Hc]. rewrite (Hkv Hc).
      apply orb_true_r.
    - destruct (branch_range_Ok _ _ _ H1 Hb) as [_ Hc]. now rewrite (Hkr Hc). }
  destruct (step_mixing_stuck _ _ _ _ _ _ Hk2 Hf2 Hstuck) as [e He].
  congruence.
Qed.

(** C5. Mixing a value filter and a range filter on one field of one axis
    makes filter parsing raise [FilterError], in both orders of arrival:
    (1) a one-segment parameter arriving when the field holds a range, or a
    two-segment parameter arriving when it holds values, and (2) whenever a
    parameter of one kind comes anywhere after a parameter of the other kind
    for the same field. *)
Theorem mixing_value_and_range_raises_FilterError (args : MultiDict) :
  (forall pre key value post fs a n cur,
      items_multi args = pre ++ (key, value) :: post ->
      for_each step pre (empty_filters F) = Ok fs ->
      split ":" key = [a; n] ->
      field_at F fs a (url_unquote n) = Some cur ->
      is_value value && holds_range cur || is_range value && holds_values cur = true ->
      exists m, parse args = Raise (FilterError m))
  /\ (forall pre k1 v1 mid k2 v2 post,
      items_multi args = pre ++ (k1, v1) :: mid ++ (k2, v2) :: post ->
      same_field url_unquote k1 k2 = true ->
      is_value v1 && is_range v2 || is_range v1 && is_value v2 = true ->
      exists m, parse args = Raise (FilterError m)).
Proof.
  split.
  - intros pre key value post fs a n cur Hargs Hpre Hk Hf Hmix.
    destruct (loop_mixing_stuck_state pre key value post fs a n cur Hpre Hk Hf Hmix)
      as [e E].
    apply (parse_FilterError_of_loop args e).
    unfold FilterParser.try_body. now rewrite Hargs.
  - intros pre k1 v1 mid k2 v2 post Hargs Hsame Hmix.
    destruct (loop_mixing_stuck_trace pre k1 v1 mid k2 v2 post Hsame Hmix) as [e E].
    apply (parse_FilterError_of_loop args e).
    unfold FilterParser.try_body. now rewrite Hargs.
Qed.

End Facts.
End FilterParserFacts.

(** *** The parser on concrete requests *)

Example parse_value_then_range :
  _query_parameter_to_filter [("obs:n", ["x"; "1,2"])]
  = Raise (FilterError (Literal "duplicate range specification")).
Proof. reflexivity. Qed.

Example parse_range_then_value :
  _query_parameter_to_filter [("obs:n", ["1,2"; "x"])]
  = Raise (FilterError (Literal "do not mix range and value filters")).
Proof. reflexivity. Qed.

Example parse_both_wildcards :
  _query_parameter_to_filter [("obs:n", ["*,*"])]
  = Raise (FilterError (Literal "must specify at least min or max in range filter")).
Proof. reflexivity. Qed.

Example parse_bad_float :
  _query_parameter_to_filter [("var:n", ["1,abc"])]
  = Raise (FilterError (StrOfValueError (BadFloat "abc"))).
Proof. reflexivity. Qed.

Example parse_key_without_colon :
  _query_parameter_to_filter [("tissue", ["lung"])]
  = Raise (FilterError (StrOfValueError (UnpackMismatch 2 1))).
Proof. reflexivity. Qed.

Example parse_empty : _query_parameter_to_filter [] = Ok [].
Proof. reflexivity. Qed.

Lemma mixing_value_and_range_witness :
  (exists m, _query_parameter_to_filter [("obs:n", ["1,2"]); ("obs:%6E", ["x"])]
             = Raise (FilterError m))
  /\ (exists m, _query_parameter_to_filter [("var:n", ["x"; "*,2"])] = Raise (FilterError m)).
Proof.
  split.
  - apply (proj1 (FilterParserFacts.mixing_value_and_range_raises_FilterError
                    PyLib.url_unquote PyLib.float [("obs:n", ["1,2"]); ("obs:%6E", ["x"])])
             [("obs:n", "1,2")] "obs:%6E" "x" []
             (FilterParser.mkFilters _
                [("n", FilterParser.mkPred _ "n" None (Some (PyLib.Finite (1 # 1)))
                                                 (Some (PyLib.Finite (2 # 1))))] [])
             "obs" "%6E"
             (FilterParser.mkPred _ "n" None (Some (PyLib.Finite (1 # 1)))
                                           (Some (PyLib.Finite (2 # 1)))));
      reflexivity.
  - apply (proj2 (FilterParserFacts.mixing_value_and_range_raises_FilterError
                    PyLib.url_unquote PyLib.float [("var:n", ["x"; "*,2"])])
             [] "var:n" "x" [] "var:n" "*,2" []);
      reflexivity.
Defined.

Lemma parse_raises_only_FilterError_witness :
  In ("obs:n", "abc,5") (FilterParser.items_multi [("obs:n", ["abc,5"])])
  /\ FilterParser.endpoint_non_numeric PyLib.url_unquote PyLib.pyfloat PyLib.float "abc,5" = true
  /\ exists m, _query_parameter_to_filter [("obs:n", ["abc,5"])] = Raise (FilterError m).
Proof.
  split; [simpl; auto|]. split; [reflexivity|].
  apply (proj2 (FilterParserFacts.parse_raises_only_FilterError
                  PyLib.url_unquote PyLib.float [("obs:n", ["abc,5"])])
           "obs:n" "abc,5"); [simpl; auto | reflexivity].
Defined.

(** C6. Parsing [obs:tissue=heart&obs:num_reads=1000,*] returns exactly
    [{obs: {annotation_value: [{name: tissue, values: [heart]},
    {name: num_reads, min: 1000.0}]}}], a dict without the key [var]. *)
Theorem parse_scenario :
  _query_parameter_to_filter scenario_args = Ok scenario_filter
  /\ dict_get scenario_filter "var" = None.
Proof. split; reflexivity. Qed.

(** ** Python dicts *)

Lemma dict_get_app_new {A} (d : list (string * A)) k v :
  dict_get d k = None -> dict_get (d ++ [(k, v)]) k = Some v.
Proof.
  induction d as [|[k' v'] d IH]; simpl.
  - now rewrite String.eqb_refl.
  - destruct (String.eqb k' k); [discriminate | exact IH].
Qed.

Lemma dict_get_app_other {A} (d : list (string * A)) k k' v :
  k <> k' -> dict_get (d ++ [(k, v)]) k' = dict_get d k'.
Proof.
  intros Hne. induction d as [|[k0 v0] d IH]; simpl.
  - apply String.eqb_neq in Hne. now rewrite Hne.
  - now rewrite IH.
Qed.

(** ** [diffexp_obs_post] *)

Module DiffexpFacts.
Import Diffexp.

Lemma set_filter_raises fields set e :
  set_filter (JObj fields) set = Raise e -> e = TypeError \/ exists k, e = KeyError k.
Proof.
  unfold set_filter, py_get, getitem; simpl.
  destruct (dict_get fields set) as [[| | | | |s]|]; simpl;
    try (intros [= <-]; eauto; fail).
  destruct (dict_get s "filter"); [discriminate|]. intros [= <-]. eauto.
Qed.

Lemma Axis_VAR_in_raises o e : Axis_VAR_in o = Raise e -> e = TypeError.
Proof. destruct o; simpl; congruence. Qed.

(** Every [return] of the set checks is a 400 that leaves the engine alone. *)
Lemma check_axes_cases f1 f2 c :
  match check_axes f1 f2 c with
  | Raise e => e = TypeError
  | Ok (Return h) => fst h = Abort BAD_REQUEST /\ diffexp_invoked (snd h) = false
  | Ok (Proceed f1' f2' c') =>
      f1' = f1 /\ f2' = f2 /\ c' = c
      /\ Axis_VAR_in f1 = Ok false /\ Axis_VAR_in f2 = Ok false
  end.
Proof.
  unfold check_axes.
  destruct (Axis_VAR_in f1) as [[|]|e1] eqn:E1; simpl.
  - auto.
  - destruct (Axis_VAR_in f2) as [[|]|e2] eqn:E2; simpl; auto.
    eapply Axis_VAR_in_raises, E2.
  - eapply Axis_VAR_in_raises, E1.
Qed.

Lemma check_sets_cases fields :
  match check_sets (JObj fields) with
  | Raise e => e = TypeError \/ exists k, e = KeyError k
  | Ok (Return h) => fst h = Abort BAD_REQUEST /\ diffexp_invoked (snd h) = false
  | Ok (Proceed f1 f2 c) =>
      set_filter (JObj fields) "set1" = Ok f1 /\ set_filter (JObj fields) "set2" = Ok f2
      /\ is_None c = false
      /\ Axis_VAR_in f1 = Ok false /\ Axis_VAR_in f2 = Ok false
  end.
Proof.
  unfold check_sets.
  destruct (set_filter (JObj fields) "set1") as [f1|e1] eqn:E1; cbn [bind].
  2:{ eapply set_filter_raises, E1. }
  destruct (set_filter (JObj fields) "set2") as [f2|e2] eqn:E2; cbn [bind].
  2:{ eapply set_filter_raises, E2. }
  unfold py_get.
  destruct (dict_get fields "count") as [c|]; cbn [bind].
  - destruct (is_None f1 || is_None f2 || is_None c) eqn:En; [simpl; auto|].
    pose proof (check_axes_cases f1 f2 c) as H.
    destruct (check_axes f1 f2 c) as [[h|f1' f2' c']|e]; auto.
    destruct H as (-> & -> & -> & ? & ?).
    apply orb_false_elim in En. destruct En as [_ En]. auto.
  - replace (is_None f1 || is_None f2 || is_None JNull) with true
      by (now destruct (is_None f1), (is_None f2)).
    simpl. auto.
Qed.

(** On a top-N request the first [try] comes down to the set checks. *)
Lemma check_request_topN args :
  is_topN_request args = true ->
  exists fields, args = JObj fields /\ check_request args = check_sets args.
Proof.
  destruct args as [| | | | |fields]; simpl; try discriminate.
  destruct (dict_get fields "mode") as [[| | |s| |]|] eqn:Em; try discriminate.
  intros H. apply andb_prop in H. destruct H as [Hs Hv].
  exists fields. split; [reflexivity|].
  unfold check_request, getitem, has_field in *. rewrite Em. simpl. rewrite Hs. simpl.
  destruct (has_key (dict_get fields "varFilter")); [discriminate | reflexivity].
Qed.

Lemma check_request_Proceed args f1 f2 c :
  check_request args = Ok (Proceed f1 f2 c) ->
  exists fields, args = JObj fields /\ check_sets (JObj fields) = Ok (Proceed f1 f2 c).
Proof.
  unfold check_request, getitem.
  destruct args as [| | | | |fields]; try discriminate.
  destruct (dict_get fields "mode") as [m|]; [|discriminate]. cbn [bind].
  destruct (DiffExpMode_of m) as [mode|]; [|discriminate]. cbn [bind].
  destruct (is_VAR_FILTER mode); cbn [bind]; [discriminate|].
  destruct (has_field "varFilter" fields); [discriminate|]. eauto.
Qed.

Lemma check_request_Return args h :
  check_request args = Ok (Return h) -> diffexp_invoked (snd h) = false.
Proof.
  unfold check_request, getitem.
  destruct args as [| | | | |fields]; try discriminate.
  destruct (dict_get fields "mode") as [m|]; [|discriminate]. cbn [bind].
  destruct (DiffExpMode_of m) as [mode|]; [|discriminate]. cbn [bind].
  assert (Hsets : check_sets (JObj fields) = Ok (Return h) ->
                  diffexp_invoked (snd h) = false).
  { intros E. pose proof (check_sets_cases fields) as H. rewrite E in H. tauto. }
  destruct (is_VAR_FILTER mode); cbn [bind].
  - intros [= <-]. reflexivity.
  - destruct (has_field "varFilter" fields); [intros [= <-]; reflexivity | exact Hsets].
Qed.

Section Engine.
Variable engine : json -> json -> json -> result string.

Lemma run_engine_invokes f1 f2 c : diffexp_invoked (snd (run_engine engine f1 f2 c)) = true.
Proof. unfold run_engine. destruct (engine f1 f2 c) as [r|[]]; reflexivity. Qed.

(** The engine is asked exactly when the first [try] falls through. *)
Lemma invoked_iff_Proceed enable args :
  diffexp_invoked (snd (diffexp_obs_post engine enable args)) = true <->
  enable = true /\ exists f1 f2 c, check_request args = Ok (Proceed f1 f2 c).
Proof.
  unfold diffexp_obs_post. destruct enable; simpl.
  2:{ split; [discriminate | intros [? _]; discriminate]. }
  destruct (check_request args) as [[h|f1 f2 c]|e] eqn:E.
  - rewrite (check_request_Return _ _ E).
    split; [discriminate | intros [_ (? & ? & ? & ?)]; discriminate].
  - rewrite run_engine_invokes. split; eauto.
  - split; [|intros [_ (? & ? & ? & ?)]; discriminate].
    destruct e; discriminate.
Qed.
End Engine.

Lemma has_var_filter_set_filter args set :
  has_var_filter args set = true ->
  exists fields f, args = JObj fields
    /\ set_filter args set = Ok (JObj f) /\ Axis_VAR_in (JObj f) = Ok true.
Proof.
  unfold has_var_filter, set_filter, py_get, getitem.
  destruct args as [| | | | |fields]; try discriminate.
  destruct (dict_get fields set) as [[| | | | |s]|]; try discriminate. cbn [bind].
  destruct (dict_get s "filter") as [[| | | | |f]|]; try discriminate.
  intros H. exists fields, f. simpl. now rewrite H.
Qed.

Lemma var_filter_never_Proceed args f1 f2 c :
  has_var_filter args "set1" || has_var_filter args "set2" = true ->
  check_request args <> Ok (Proceed f1 f2 c).
Proof.
  intros Hvar E.
  destruct (check_request_Proceed _ _ _ _ E) as (fields & -> & Es).
  pose proof (check_sets_cases fields) as H. rewrite Es in H.
  destruct H as (H1 & H2 & _ & A1 & A2).
  apply orb_prop in Hvar.
  destruct Hvar as [Hv|Hv]; apply has_var_filter_set_filter in Hv;
    destruct Hv as (fields' & f & _ & Hf & Ha); congruence.
Qed.

(** C4 (as the code has it). When the filter of set1 or of set2 has a
    [var] entry, the engine's [diffexp_topN] is never invoked, whatever the
    rest of the request and whether or not the feature is enabled; and for
    a top-N request with the feature enabled the answer is 400 bad
    request. *)
Theorem var_filter_never_reaches_engine
    (engine : json -> json -> json -> result string) (enable : bool) (args : json) :
  has_var_filter args "set1" || has_var_filter args "set2" = true ->
  diffexp_invoked (snd (diffexp_obs_post engine enable args)) = false
  /\ (enable = true -> is_topN_request args = true ->
      fst (diffexp_obs_post engine enable args) = Abort BAD_REQUEST).
Proof.
  intros Hvar. split.
  - destruct (diffexp_invoked _) eqn:E; [|reflexivity].
    apply invoked_iff_Proceed in E. destruct E as [_ (f1 & f2 & c & E)].
    now apply var_filter_never_Proceed in E.
  - intros -> Htop. unfold diffexp_obs_post. simpl.
    destruct (check_request_topN _ Htop) as (fields & -> & Ec).
    pose proof (check_sets_cases fields) as H.
    destruct (check_request (JObj fields)) as [[h|f1 f2 c]|e] eqn:E.
    + rewrite <- Ec in H. tauto.
    + now apply var_filter_never_Proceed in E.
    + rewrite <- Ec in H. destruct H as [->|[k ->]]; reflexivity.
Qed.

(** An absent set is read as [{"filter": {}}]. *)
Lemma check_request_default_set args set :
  set = "set1" \/ set = "set2" -> absent args set = true ->
  check_request (with_field args set default_set) = check_request args.
Proof.
  intros Hset Habs. destruct args as [| | | | |fields]; try reflexivity.
  simpl in Habs. unfold has_field in Habs.
  destruct (dict_get fields set) eqn:Eset; [discriminate|].
  unfold with_field, check_request, check_sets, set_filter, py_get, getitem, has_field.
  destruct Hset as [-> | ->].
  - rewrite (dict_get_app_new fields "set1" default_set Eset), Eset.
    rewrite !dict_get_app_other by discriminate. reflexivity.
  - rewrite (dict_get_app_new fields "set2" default_set Eset), Eset.
    rewrite !dict_get_app_other by discriminate. reflexivity.
Qed.

(** C1 (as the code has it). On a top-N request with the feature enabled,
    an absent [count] is answered 400 without running the computation, and
    whenever both set filters can be read and one of the three values is
    [None] the one error logged is "missing required parameter".  An absent
    [set1] or [set2] is not an error: it is read as [{"filter": {}}], and the
    request is handled as if that had been sent. *)
Theorem missing_count_rejected_missing_set_defaulted
    (engine : json -> json -> json -> result string) (args : json) :
  (is_topN_request args = true ->
     (absent args "count" = true ->
        fst (diffexp_obs_post engine true args) = Abort BAD_REQUEST
        /\ diffexp_invoked (snd (diffexp_obs_post engine true args)) = false)
     /\ (forall f1 f2 c,
           set_filter args "set1" = Ok f1 -> set_filter args "set2" = Ok f2 ->
           py_get args "count" JNull = Ok c ->
           is_None f1 || is_None f2 || is_None c = true ->
           diffexp_obs_post engine true args
           = abort_and_log BAD_REQUEST (LogText "missing required parameter")))
  /\ (forall enable set,
        set = "set1" \/ set = "set2" -> absent args set = true ->
        diffexp_obs_post engine enable args
        = diffexp_obs_post engine enable (with_field args set default_set)).
Proof.
  split.
  - intros Htop. destruct (check_request_topN _ Htop) as (fields & -> & Ec).
    unfold diffexp_obs_post. cbn [negb]. rewrite Ec. split.
    + cbn [absent]. unfold has_field. intros Habs.
      destruct (dict_get fields "count") eqn:Ecount; [discriminate|].
      pose proof (check_sets_cases fields) as H.
      destruct (check_sets (JObj fields)) as [[h|f1 f2 c]|e] eqn:E.
      * exact H.
      * exfalso. unfold check_sets in E.
        destruct (set_filter (JObj fields) "set1") as [g1|]; [|discriminate].
        destruct (set_filter (JObj fields) "set2") as [g2|]; [|discriminate].
        cbn [bind] in E. unfold py_get in E. rewrite Ecount in E. cbn [bind] in E.
        replace (is_None g1 || is_None g2 || is_None JNull) with true in E
          by (now destruct (is_None g1), (is_None g2)).
        discriminate.
      * destruct H as [->|[k ->]]; split; reflexivity.
    + intros f1 f2 c E1 E2 Ecount Hnone.
      unfold check_sets. rewrite E1, E2. cbn [bind]. rewrite Ecount. cbn [bind].
      now rewrite Hnone.
  - intros enable set Hset Habs. unfold diffexp_obs_post.
    now rewrite (check_request_default_set args set Hset Habs).
Qed.

End DiffexpFacts.

(** *** The handler on concrete requests *)

(** C1, at a request without [set1]: the computation runs, on the empty
    filter for set1. *)
Lemma diffexp_absent_set1_runs :
  Diffexp.absent Diffexp.request_without_set1 "set1" = true
  /\ Diffexp.diffexp_obs_post Diffexp.idle_engine true Diffexp.request_without_set1
     = (Response (Raw "[]") OK [("Content-Type", "application/json")],
        [Call_diffexp_topN (JObj []) (JObj []) (JNum 10)]).
Proof. split; reflexivity. Qed.

Lemma missing_count_rejected_witness :
  Diffexp.is_topN_request (JObj [("mode", JStr "topN")]) = true
  /\ Diffexp.absent (JObj [("mode", JStr "topN")]) "count" = true
  /\ Diffexp.diffexp_obs_post Diffexp.idle_engine true (JObj [("mode", JStr "topN")])
     = abort_and_log BAD_REQUEST (LogText "missing required parameter")
  /\ Diffexp.diffexp_obs_post Diffexp.idle_engine true Diffexp.request_without_set1
     = Diffexp.diffexp_obs_post Diffexp.idle_engine true
         (Diffexp.with_field Diffexp.request_without_set1 "set1" Diffexp.default_set).
Proof.
  split; [reflexivity|]. split; [reflexivity|]. split.
  - apply (proj2 (proj1 (DiffexpFacts.missing_count_rejected_missing_set_defaulted
                           Diffexp.idle_engine (JObj [("mode", JStr "topN")])) eq_refl)
             (JObj []) (JObj []) JNull); reflexivity.
  - apply (proj2 (DiffexpFacts.missing_count_rejected_missing_set_defaulted
                    Diffexp.idle_engine Diffexp.request_without_set1) true "set1");
      [left; reflexivity | reflexivity].
Defined.

(** C4, at a request in mode [varFilter] with a [var] filter on set1: the
    answer is 501 not implemented, which is not a client error. *)
Lemma diffexp_varFilter_mode_not_implemented :
  Diffexp.has_var_filter Diffexp.request_varFilter_mode "set1" = true
  /\ Diffexp.diffexp_obs_post Diffexp.idle_engine true Diffexp.request_varFilter_mode
     = (Abort NOT_IMPLEMENTED, [Log DEBUG (LogText "varFilter not enabled")])
  /\ is_client_error NOT_IMPLEMENTED = false.
Proof. repeat split. Qed.

Example diffexp_disabled_not_implemented :
  Diffexp.diffexp_obs_post Diffexp.idle_engine false Diffexp.request_var_in_set1
  = (Abort NOT_IMPLEMENTED, []).
Proof. reflexivity. Qed.

Example diffexp_unknown_mode_raises :
  Diffexp.diffexp_obs_post Diffexp.idle_engine true (JObj [("mode", JStr "top")])
  = (Raised (ValueError (BadEnumValue (JStr "top"))), []).
Proof. reflexivity. Qed.

Example diffexp_var_in_set1_rejected :
  Diffexp.diffexp_obs_post Diffexp.idle_engine true Diffexp.request_var_in_set1
  = abort_and_log BAD_REQUEST (LogText "var axis filter not enabled").
Proof. reflexivity. Qed.

Lemma var_filter_never_reaches_engine_witness :
  Diffexp.has_var_filter Diffexp.request_var_in_set1 "set1"
  || Diffexp.has_var_filter Diffexp.request_var_in_set1 "set2" = true
  /\ diffexp_invoked
       (snd (Diffexp.diffexp_obs_post Diffexp.idle_engine true Diffexp.request_var_in_set1))
     = false
  /\ fst (Diffexp.diffexp_obs_post Diffexp.idle_engine true Diffexp.request_var_in_set1)
     = Abort BAD_REQUEST.
Proof.
  split; [reflexivity|].
  destruct (DiffexpFacts.var_filter_never_reaches_engine
              Diffexp.idle_engine true Diffexp.request_var_in_set1 eq_refl) as [H1 H2].
  split; [exact H1 | apply H2; reflexivity].
Defined.

(** ** [schema_get_helper] *)

Module SchemaFacts.
Import Schema.

Lemma mem_In x layers : mem x layers = true <-> In x layers.
Proof.
  unfold mem. rewrite existsb_exists. split.
  - intros (y & Hy & E). apply String.eqb_eq in E. now subst.
  - intros H. exists x. split; [assumption | apply String.eqb_refl].
Qed.

(** C2 (as the code has it). The layer list always holds [X], put in front
    when the dataset does not declare it; when the dataset has a raw layer,
    [.raw] comes right before the declared layers: first in the list when
    [X] is declared, second, after the added [X], when it is not. *)
Theorem schema_layers_shape (data : dataset) :
  schema_layers data
  = (if mem "X" (layers_keys data) then [] else ["X"])
      ++ (if raw_is_not_None data then [".raw"] else [])
      ++ layers_keys data
  /\ In "X" (schema_layers data).
Proof.
  assert (Hshape : schema_layers data
    = (if mem "X" (layers_keys data) then [] else ["X"])
        ++ (if raw_is_not_None data then [".raw"] else []) ++ layers_keys data).
  { unfold schema_layers. destruct (raw_is_not_None data); simpl;
      destruct (mem "X" (layers_keys data)); reflexivity. }
  split; [exact Hshape|]. rewrite Hshape.
  destruct (mem "X" (layers_keys data)) eqn:E.
  - apply mem_In in E. simpl. apply in_or_app. now right.
  - simpl. now left.
Qed.

End SchemaFacts.

(** C2, at a dataset with a raw layer that does not declare [X]: the list
    starts with [X], and [.raw] is second. *)
Lemma schema_layers_raw_is_second :
  Schema.raw_is_not_None Schema.raw_only = true
  /\ Schema.schema_layers Schema.raw_only = ["X"; ".raw"]
  /\ hd_error (Schema.schema_layers Schema.raw_only) <> Some ".raw".
Proof. repeat split. discriminate. Qed.

Example schema_layers_declared_X :
  Schema.schema_layers (Schema.mkDataset true ["X"; "counts"]) = [".raw"; "X"; "counts"].
Proof. reflexivity. Qed.

(** ** The file store *)

Module FilesFacts.
Import Files.

Lemma os_remove_absent p (fs : FS) :
  p ∉ fs -> os_remove p fs = (Raise (FileNotFoundError p), fs).
Proof. intros H. unfold os_remove. now rewrite bool_decide_eq_false_2. Qed.

Lemma os_remove_present p (fs : FS) :
  p ∈ fs -> os_remove p fs = (Ok tt, fs ∖ {[p]}).
Proof. intros H. unfold os_remove. now rewrite bool_decide_eq_true_2. Qed.

End FilesFacts.

(** *** Paths in canonical form *)

Example canonical_examples :
  Files.canonical "u/emb/umap.p" = true
  /\ Files.canonical "u/emb/./umap.p" = false
  /\ Files.canonical "u/emb/../emb/umap.p" = false
  /\ Files.canonical "u//emb/umap.p" = false
  /\ Files.canonical "/u/emb/umap.p" = false
  /\ Files.canonical "u/emb/" = false
  /\ Files.is_component "umap" = true
  /\ Files.is_component "./umap" = false
  /\ Files.is_component "a/b" = false
  /\ Files.is_component (String Ascii.zero "umap") = false.
Proof. repeat split. Qed.

Module PathFacts.
Import Files.
Local Arguments String.append : simpl nomatch.

Lemma split_not_nil sep s : split sep s <> [].
Proof.
  destruct s as [|c s]; simpl; [discriminate|].
  destruct (Ascii.eqb c sep); [discriminate|].
  destruct (split sep s); discriminate.
Qed.

Lemma split_app sep a b :
  split sep (a +:+ String sep b) = split sep a ++ split sep b.
Proof.
  induction a as [|c a IH]; simpl.
  - now rewrite Ascii.eqb_refl.
  - destruct (Ascii.eqb c sep); rewrite IH; [reflexivity|].
    destruct (split sep a) as [|w ws] eqn:E; [now apply split_not_nil in E|].
    reflexivity.
Qed.

Lemma is_component_split s : is_component s = true -> split "/" s = [s].
Proof.
  induction s as [|c s IH]; simpl; [reflexivity|].
  intros H. apply andb_prop in H. destruct H as [H Hs].
  apply andb_prop in H. destruct H as [Hc _].
  apply negb_true_iff in Hc. rewrite Hc, (IH Hs). reflexivity.
Qed.

Lemma is_component_app a b :
  is_component (a +:+ b) = is_component a && is_component b.
Proof.
  induction a as [|c a IH]; simpl; [reflexivity|].
  rewrite IH. now rewrite !andb_assoc.
Qed.

Lemma canonical_app a b :
  canonical (a +:+ String "/" b) = canonical a && canonical b.
Proof. unfold canonical. now rewrite split_app, forallb_app. Qed.

(** A file name [<name>.p] is a proper component whatever the name. *)
Lemma canonical_dot_p name : is_component name = true -> canonical (name +:+ ".p") = true.
Proof.
  intros H. unfold canonical.
  rewrite is_component_split by (rewrite is_component_app, H; reflexivity).
  cbn [forallb]. rewrite is_component_app, H. cbn [andb is_component].
  destruct name as [|c [|d name]]; try reflexivity.
  - simpl. destruct (Ascii.eqb c "."); reflexivity.
  - simpl. destruct (Ascii.eqb c "."); [|reflexivity].
    destruct (Ascii.eqb d "."); [|reflexivity].
    destruct name; reflexivity.
Qed.

(** The paths the handlers build for a name that is a single component are
    in canonical form when the user's directory is: on them, comparing
    strings is comparing files. *)
Lemma artifacts_canonical userID name :
  canonical userID = true -> is_component name = true ->
  canonical (userID +:+ "/emb/" +:+ name +:+ ".p") = true
  /\ canonical (userID +:+ "/nnm/" +:+ name +:+ ".p") = true
  /\ canonical (userID +:+ "/params/" +:+ name +:+ ".p") = true.
Proof.
  intros Hu Hn. pose proof (canonical_dot_p name Hn) as Hp.
  change (userID +:+ "/emb/" +:+ name +:+ ".p")
    with (userID +:+ String "/" ("emb" +:+ String "/" (name +:+ ".p"))).
  change (userID +:+ "/nnm/" +:+ name +:+ ".p")
    with (userID +:+ String "/" ("nnm" +:+ String "/" (name +:+ ".p"))).
  change (userID +:+ "/params/" +:+ name +:+ ".p")
    with (userID +:+ String "/" ("params" +:+ String "/" (name +:+ ".p"))).
  rewrite !canonical_app, Hu, Hp. repeat split.
Qed.

(** Conversely, where such a path is in canonical form, so is the user's
    directory. *)
Lemma canonical_user userID dir rest :
  canonical (userID +:+ String "/" (dir +:+ String "/" rest)) = true ->
  canonical userID = true.
Proof. rewrite canonical_app. intros H. now apply andb_prop in H. Qed.

End PathFacts.

(** ** [delete_obsm_put] *)

Module EmbeddingsFacts.
Import Files Embeddings.

(** The guarded removal never raises, and leaves no file at the path. *)
Lemma remove_if_exists_spec p (fs : FS) : remove_if_exists p fs = (Ok tt, fs ∖ {[p]}).
Proof.
  unfold remove_if_exists, os_path_exists, os_remove.
  destruct (bool_decide (p ∈ fs)) eqn:E; [reflexivity|].
  apply bool_decide_eq_false in E. f_equal. set_solver.
Qed.

Lemma delete_embedding_spec userID embName (fs : FS) :
  delete_embedding userID embName fs
  = (Ok tt, fs ∖ list_to_set (artifacts userID embName)).
Proof.
  unfold delete_embedding, andthen. rewrite !remove_if_exists_spec.
  f_equal. unfold artifacts. simpl. set_solver.
Qed.

Lemma delete_embeddings_spec userID names : forall fs : FS,
  delete_embeddings userID names fs
  = (Ok tt, fs ∖ list_to_set (flat_map (artifacts userID) names)).
Proof.
  induction names as [|n names IH]; intros fs; simpl.
  - f_equal. set_solver.
  - unfold andthen. rewrite delete_embedding_spec, IH. f_equal.
    unfold artifacts. simpl. set_solver.
Qed.

Lemma delete_obsm_put_names userID names (fs : FS) :
  delete_obsm_put userID (mkDeleteRequest (Some names)) fs
  = (fail_response false, fs ∖ list_to_set (flat_map (artifacts userID) names)).
Proof. unfold delete_obsm_put. simpl. now rewrite delete_embeddings_spec. Qed.

Lemma elem_of_artifacts userID names p :
  p ∈ (list_to_set (flat_map (artifacts userID) names) : FS)
  <-> exists name, In name names /\ In p (artifacts userID name).
Proof.
  rewrite elem_of_list_to_set, list_elem_of_In, in_flat_map. reflexivity.
Qed.

(** C7. Deleting a list of embedding names answers [{"fail": false}] and
    leaves none of the three artifacts of any of the names in the user's
    scope: not the coordinates [<user>/emb/<name>.p], not the neighbour graph
    [<user>/nnm/<name>.p], not the parameters [<user>/params/<name>.p].  When
    the names are single path components and the store is in canonical form,
    no other file is touched, and nothing changes at all when none of the
    artifacts exists. *)
Theorem delete_obsm_put_removes_artifacts (userID : string) (names : list string) (fs : FS) :
  fst (delete_obsm_put userID (mkDeleteRequest (Some names)) fs) = fail_response false
  /\ (forall name, In name names ->
        (userID +:+ "/emb/" +:+ name +:+ ".p"
           ∉ snd (delete_obsm_put userID (mkDeleteRequest (Some names)) fs))
        /\ (userID +:+ "/nnm/" +:+ name +:+ ".p"
              ∉ snd (delete_obsm_put userID (mkDeleteRequest (Some names)) fs))
        /\ (userID +:+ "/params/" +:+ name +:+ ".p"
              ∉ snd (delete_obsm_put userID (mkDeleteRequest (Some names)) fs)))
  /\ (Forall (fun name => is_component name = true) names ->
      stored_canonically fs ->
      (forall p,
         (forall name, In name names ->
            p <> userID +:+ "/emb/" +:+ name +:+ ".p"
            /\ p <> userID +:+ "/nnm/" +:+ name +:+ ".p"
            /\ p <> userID +:+ "/params/" +:+ name +:+ ".p") ->
         (p ∈ snd (delete_obsm_put userID (mkDeleteRequest (Some names)) fs) <-> p ∈ fs))
      /\ ((forall name, In name names ->
             (userID +:+ "/emb/" +:+ name +:+ ".p" ∉ fs)
             /\ (userID +:+ "/nnm/" +:+ name +:+ ".p" ∉ fs)
             /\ (userID +:+ "/params/" +:+ name +:+ ".p" ∉ fs)) ->
          snd (delete_obsm_put userID (mkDeleteRequest (Some names)) fs) = fs)).
Proof.
  rewrite delete_obsm_put_names. cbn [fst snd].
  assert (Hart : forall name p, In p (artifacts userID name) <->
            p = userID +:+ "/emb/" +:+ name +:+ ".p"
            \/ p = userID +:+ "/nnm/" +:+ name +:+ ".p"
            \/ p = userID +:+ "/params/" +:+ name +:+ ".p").
  { intros name p. unfold artifacts, emb_path, nnm_path, params_path. simpl.
    intuition congruence. }
  split; [reflexivity|]. split.
  - intros name Hn.
    split; [|split]; rewrite elem_of_difference, elem_of_artifacts;
      intros [_ Hnot]; apply Hnot; exists name; (split; [exact Hn|]);
      apply Hart; auto.
  - intros _ _. split.
    + intros p Hp. rewrite elem_of_difference, elem_of_artifacts. split; [tauto|].
      intros Hin. split; [assumption|]. intros (name & Hn & Ha).
      apply Hart in Ha. destruct (Hp name Hn) as (H1 & H2 & H3).
      destruct Ha as [Ha|[Ha|Ha]]; congruence.
    + intros Habsent. apply set_eq. intros p.
      rewrite elem_of_difference, elem_of_artifacts. split; [tauto|].
      intros Hin. split; [assumption|]. intros (name & Hn & Ha).
      apply Hart in Ha. destruct (Habsent name Hn) as (H1 & H2 & H3).
      destruct Ha as [Ha|[Ha|Ha]]; subst p; contradiction.
Qed.

(** C9. Whatever the request -- [embNames] null, empty, or names without
    artifacts -- and whatever the files, the answer is 200 with the body
    [{"fail": false}]. *)
Theorem delete_obsm_put_never_fails (userID : string) (request : delete_request) (fs : FS) :
  fst (delete_obsm_put userID request fs)
  = Response (Jsonify (JObj [("fail", JBool false)])) OK
      [("Content-Type", "application/json")].
Proof.
  destruct request as [[names|]].
  - now rewrite delete_obsm_put_names.
  - reflexivity.
Qed.

End EmbeddingsFacts.

Lemma delete_obsm_put_witness :
  ("u/emb/umap.p" ∉ snd (Embeddings.delete_obsm_put "u"
                            (Embeddings.mkDeleteRequest (Some ["umap"; "gone"]))
                            {[ "u/emb/umap.p"; "u/nnm/umap.p"; "u/params/umap.p"; "u/obs.p" ]}))
  /\ ("u/nnm/umap.p" ∉ snd (Embeddings.delete_obsm_put "u"
                            (Embeddings.mkDeleteRequest (Some ["umap"; "gone"]))
                            {[ "u/emb/umap.p"; "u/nnm/umap.p"; "u/params/umap.p"; "u/obs.p" ]}))
  /\ ("u/params/umap.p" ∉ snd (Embeddings.delete_obsm_put "u"
                            (Embeddings.mkDeleteRequest (Some ["umap"; "gone"]))
                            {[ "u/emb/umap.p"; "u/nnm/umap.p"; "u/params/umap.p"; "u/obs.p" ]}))
  /\ ("u/obs.p" ∈ snd (Embeddings.delete_obsm_put "u"
                         (Embeddings.mkDeleteRequest (Some ["umap"; "gone"]))
                         {[ "u/emb/umap.p"; "u/nnm/umap.p"; "u/params/umap.p"; "u/obs.p" ]})
      <-> "u/obs.p" ∈ ({[ "u/emb/umap.p"; "u/nnm/umap.p"; "u/params/umap.p"; "u/obs.p" ]} : FS)).
Proof.
  destruct (EmbeddingsFacts.delete_obsm_put_removes_artifacts "u" ["umap"; "gone"]
              {[ "u/emb/umap.p"; "u/nnm/umap.p"; "u/params/umap.p"; "u/obs.p" ]})
    as (_ & Hgone & Hkept).
  destruct (Hgone "umap") as (He & Hn & Hp); [simpl; auto|].
  split; [exact He|]. split; [exact Hn|]. split; [exact Hp|].
  assert (Hnames : Forall (fun name => Files.is_component name = true) ["umap"; "gone"])
    by (repeat constructor).
  assert (Hfs : Files.stored_canonically
                  {[ "u/emb/umap.p"; "u/nnm/umap.p"; "u/params/umap.p"; "u/obs.p" ]}).
  { intros p Hin. clear -Hin. set_unfold. destruct Hin as [[[H|H]|H]|H]; subst p; reflexivity. }
  destruct (Hkept Hnames Hfs) as [Hframe _].
  apply Hframe. intros name [<-|[<-|[]]]; repeat split; discriminate.
Defined.

(** ** [save_metadata_put] and [save_genedata_put] *)

Module ExportFacts.
Import Files ExportFiles.

(** The hook hands back the response it was given, whether or not the file
    could be removed, and no file is left at the path. *)
Lemma remove_file_spec userID response (fs : FS) :
  remove_file userID response fs
  = (response, fs ∖ {[obs_csv userID]},
     if bool_decide (obs_csv userID ∈ fs) then []
     else [Print (FileNotFoundError (obs_csv userID))]).
Proof.
  unfold remove_file, os_remove.
  destruct (bool_decide (obs_csv userID ∈ fs)) eqn:E; [reflexivity|].
  apply bool_decide_eq_false in E. do 2 f_equal. set_solver.
Qed.

Lemma try_send_file_present p (fs : FS) : p ∈ fs -> try_send_file p fs = (SendFile p, []).
Proof. intros H. unfold try_send_file, send_file. now rewrite bool_decide_eq_true_2. Qed.

(** The gene-set export registers nothing to run after the request. *)
Lemma save_genedata_put_complete userID (fs : FS) :
  complete (save_genedata_put userID fs)
  = (fst (try_send_file (gene_sets_csv userID) fs), fs,
     snd (try_send_file (gene_sets_csv userID) fs)).
Proof.
  unfold save_genedata_put, complete.
  destruct (try_send_file (gene_sets_csv userID) fs) as [response evs]. simpl.
  now rewrite app_nil_r.
Qed.

Section Views.
Variable axis_filter_to_mask : json -> result (list bool).
Variable select_labels : json -> list bool -> result unit.

Local Abbreviation save_metadata_put :=
  (ExportFiles.save_metadata_put axis_filter_to_mask select_labels).
Local Abbreviation prepare_labels :=
  (ExportFiles.prepare_labels axis_filter_to_mask select_labels).

Lemma save_metadata_put_complete userID args (fs : FS) :
  prepare_labels userID args fs = Ok tt ->
  vr_outcome (save_metadata_put userID args fs) = SendFile (obs_csv userID)
  /\ complete (save_metadata_put userID args fs)
     = (SendFile (obs_csv userID), fs ∖ {[obs_csv userID]}, []).
Proof.
  intros Hp. unfold ExportFiles.save_metadata_put, complete. rewrite Hp.
  rewrite try_send_file_present by set_solver. simpl. split; [reflexivity|].
  rewrite remove_file_spec. rewrite bool_decide_eq_true_2 by set_solver.
  do 2 f_equal. set_solver.
Qed.

(** C3 (as the code has it). The export of obs labels removes its file
    once the response is ready: the response is the one the view made,
    the file is gone, and when the removal fails the error is printed
    and the response is left as it was.  The export of gene sets sends
    [gene-sets.csv] and removes nothing: the file store is as before. *)
Theorem export_cleanup (userID : string) (args : json) (fs : FS) :
  (prepare_labels userID args fs = Ok tt ->
     vr_outcome (save_metadata_put userID args fs) = SendFile (obs_csv userID)
     /\ complete (save_metadata_put userID args fs)
        = (SendFile (obs_csv userID), fs ∖ {[obs_csv userID]}, [])
     /\ obs_csv userID ∉ snd (fst (complete (save_metadata_put userID args fs))))
  /\ (forall response,
        fst (fst (remove_file userID response fs)) = response
        /\ (obs_csv userID ∉ fs ->
            remove_file userID response fs
            = (response, fs, [Print (FileNotFoundError (obs_csv userID))])))
  /\ snd (fst (complete (save_genedata_put userID fs))) = fs.
Proof.
  split; [|split].
  - intros Hp. destruct (save_metadata_put_complete userID args fs Hp) as [Ho Hc].
    rewrite Hc, Ho. cbn [fst snd]. split; [reflexivity|]. split; [reflexivity|]. set_solver.
  - intros response. rewrite remove_file_spec. simpl. split; [reflexivity|].
    intros Habs. rewrite bool_decide_eq_false_2 by assumption.
    do 2 f_equal. set_solver.
  - now rewrite save_genedata_put_complete.
Qed.

End Views.

End ExportFacts.

(** C3, at the gene-set export of a user who has gene sets: the file is sent
    and is still there when the request is over. *)
Lemma save_genedata_put_keeps_file :
  fst (fst (ExportFiles.complete (ExportFiles.save_genedata_put "u" ExportFiles.scope_u)))
  = SendFile "u/gene-sets.csv"
  /\ "u/gene-sets.csv" ∈ snd (fst (ExportFiles.complete
                                    (ExportFiles.save_genedata_put "u" ExportFiles.scope_u))).
Proof.
  rewrite ExportFacts.save_genedata_put_complete. simpl.
  assert (H : ExportFiles.gene_sets_csv "u" ∈ ExportFiles.scope_u)
    by (unfold ExportFiles.scope_u; set_solver).
  rewrite (ExportFacts.try_send_file_present _ _ H). split; [reflexivity | exact H].
Qed.

Lemma export_cleanup_witness :
  ExportFiles.prepare_labels ExportFiles.every_cell ExportFiles.all_labels
    "u" ExportFiles.export_request ExportFiles.scope_u = Ok tt
  /\ ("u/u_obs.csv" ∉ snd (fst (ExportFiles.complete
         (ExportFiles.save_metadata_put ExportFiles.every_cell ExportFiles.all_labels
            "u" ExportFiles.export_request ExportFiles.scope_u))))
  /\ ExportFiles.remove_file "u" (SendFile "u/u_obs.csv") ExportFiles.scope_u
     = (SendFile "u/u_obs.csv", ExportFiles.scope_u, [Print (FileNotFoundError "u/u_obs.csv")]).
Proof.
  assert (Hp : ExportFiles.prepare_labels ExportFiles.every_cell ExportFiles.all_labels
                 "u" ExportFiles.export_request ExportFiles.scope_u = Ok tt).
  { unfold ExportFiles.prepare_labels. simpl.
    rewrite bool_decide_eq_true_2; [reflexivity|].
    unfold ExportFiles.scope_u, ExportFiles.obs_pickle. simpl. set_solver. }
  destruct (ExportFacts.export_cleanup ExportFiles.every_cell ExportFiles.all_labels
              "u" ExportFiles.export_request ExportFiles.scope_u) as (Hobs & Hhook & _).
  destruct (Hobs Hp) as (_ & _ & Hgone).
  split; [exact Hp|]. split.
  - exact Hgone.
  - apply (proj2 (Hhook (SendFile "u/u_obs.csv"))).
    unfold ExportFiles.scope_u, ExportFiles.obs_csv. simpl. set_solver.
Defined.

(** ** [summarize_var_post] *)

Module SummarizeFacts.
Import Summarize.

Lemma declares_form_urlencoded_truthy request :
  declares_form_urlencoded request = true -> str_truthy (content_type request) = true.
Proof.
  unfold declares_form_urlencoded, str_truthy.
  destruct (content_type request) as [ct|]; [|discriminate].
  destruct ct; [discriminate | reflexivity].
Qed.

Section Handlers.
Variable summarizeQueryHash : string -> string.
Variable summarize_var : string -> FilterSpec -> string -> string -> bool -> result string.

Local Abbreviation summarize_var_post :=
  (Summarize.summarize_var_post summarizeQueryHash summarize_var).

(** C10 (as the code has it). A POST whose content type does not name
    the form encoding is answered 415; one that does and whose content
    length is over 1,000,000 is answered 400; in both cases nothing is
    computed: the handler stops with no effect at all. *)
Theorem summarize_var_post_guards (request : request) :
  (declares_form_urlencoded request = false ->
     summarize_var_post request = (Abort UNSUPPORTED_MEDIA_TYPE, []))
  /\ (declares_form_urlencoded request = true ->
      forall n, content_length request = Some n -> (1000000 < n)%Z ->
        summarize_var_post request = (Abort BAD_REQUEST, [])).
Proof.
  unfold Summarize.summarize_var_post. split.
  - intros H. unfold declares_form_urlencoded in H. rewrite H.
    now rewrite orb_true_r.
  - intros H n Hn Hlt. rewrite (declares_form_urlencoded_truthy _ H).
    unfold declares_form_urlencoded in H. rewrite H, Hn. simpl.
    apply Z.ltb_lt in Hlt. now rewrite Hlt.
Qed.

End Handlers.

End SummarizeFacts.

(** C10, at a two-megabyte body sent as plain text: the answer is 415, not
    400. *)
Lemma summarize_var_post_oversized_plain_text :
  Summarize.content_length Summarize.oversized_plain_text = Some 2000000%Z
  /\ Summarize.summarize_var_post Summarize.no_hash Summarize.mean_of_nothing
       Summarize.oversized_plain_text
     = (Abort UNSUPPORTED_MEDIA_TYPE, [])
  /\ UNSUPPORTED_MEDIA_TYPE <> BAD_REQUEST.
Proof. repeat split. discriminate. Qed.

Lemma summarize_var_post_guards_witness :
  Summarize.declares_form_urlencoded Summarize.oversized_plain_text = false
  /\ Summarize.summarize_var_post Summarize.no_hash Summarize.mean_of_nothing
       Summarize.oversized_plain_text
     = (Abort UNSUPPORTED_MEDIA_TYPE, [])
  /\ Summarize.declares_form_urlencoded Summarize.oversized_form = true
  /\ Summarize.summarize_var_post Summarize.no_hash Summarize.mean_of_nothing
       Summarize.oversized_form
     = (Abort BAD_REQUEST, []).
Proof.
  split; [reflexivity|]. split.
  - apply (proj1 (SummarizeFacts.summarize_var_post_guards Summarize.no_hash
                    Summarize.mean_of_nothing Summarize.oversized_plain_text)).
    reflexivity.
  - split; [reflexivity|].
    apply (proj2 (SummarizeFacts.summarize_var_post_guards Summarize.no_hash
                    Summarize.mean_of_nothing Summarize.oversized_form)
             eq_refl 2000000%Z); [reflexivity | lia].
Defined.

Example summarize_var_post_small_form :
  Summarize.summarize_var_post Summarize.no_hash Summarize.mean_of_nothing
    (Summarize.mkRequest (Some "application/x-www-form-urlencoded") (Some 21%Z) true
       [] [("obs:tissue", ["heart"]); ("method", ["mean"])] "" "obs:tissue=heart")
  = (Response (Raw "") OK [("Content-Type", "application/octet-stream")],
     [Call_summarize_var "mean"
        [("obs", FilterParser.mkAxisFilter PyLib.pyfloat [values_predicate "tissue" ["heart"]])]
        "" "X" false]).
Proof. reflexivity. Qed.

(** ** More on the filter parser *)

(** An invariant of the processed prefix, kept by every successful
    iteration, holds of the whole list when the loop finishes. *)
Lemma for_each_invariant {S X} (body : S -> X -> result S) (Inv : list X -> S -> Prop) :
  (forall done s x s', Inv done s -> body s x = Ok s' -> Inv (done ++ [x]) s') ->
  forall xs done s s', Inv done s -> for_each body xs s = Ok s' -> Inv (done ++ xs) s'.
Proof.
  intros Hstep. induction xs as [|x xs IH]; intros done s s' Hinv; cbn [for_each].
  - intros [= <-]. now rewrite app_nil_r.
  - destruct (body s x) as [s1|e] eqn:E; cbn [bind]; [|discriminate].
    intros Hrest. replace (done ++ x :: xs) with ((done ++ [x]) ++ xs)
      by (now rewrite <- app_assoc).
    eapply IH; [|exact Hrest]. eapply Hstep; eassumption.
Qed.

(** A loop finishes when its body succeeds on every element wherever the
    invariant holds. *)
Lemma for_each_finishes {S X} (body : S -> X -> result S) (Inv : list X -> S -> Prop)
    (P : X -> Prop) :
  (forall done s x, Inv done s -> P x ->
     exists s', body s x = Ok s' /\ Inv (done ++ [x]) s') ->
  forall xs done s, Inv done s -> Forall P xs ->
    exists s', for_each body xs s = Ok s' /\ Inv (done ++ xs) s'.
Proof.
  intros Hstep. induction xs as [|x xs IH]; intros done s Hinv Hall; cbn [for_each].
  - exists s. now rewrite app_nil_r.
  - inversion Hall as [|? ? Hx Hxs]; subst.
    destruct (Hstep done s x Hinv Hx) as (s1 & -> & Hinv1). cbn [bind].
    destruct (IH (done ++ [x]) s1 Hinv1 Hxs) as (s' & Hs' & Hinv').
    exists s'. split; [exact Hs'|]. now rewrite <- app_assoc in Hinv'.
Qed.

Module FilterMoreFacts.
Import FilterParser FilterShapes.
Section Facts.

Context (url_unquote : string -> string) {F : Type} (float : string -> option F).

Local Abbreviation step := (FilterParser.step url_unquote F float).
Local Abbreviation parse := (FilterParser._query_parameter_to_filter url_unquote F float).
Local Abbreviation branch := (FilterParser.branch url_unquote F float).
Local Abbreviation range_branch := (FilterParser.range_branch url_unquote F float).
Local Abbreviation value_branch := (FilterParser.value_branch url_unquote F).
Local Abbreviation try_body := (FilterParser.try_body url_unquote F float).

Lemma od_set_od_set (d : axis_dict F) k v v' :
  od_set F (od_set F d k v) k v' = od_set F d k v'.
Proof.
  induction d as [|[k0 v0] d IH]; simpl.
  - now rewrite String.eqb_refl.
  - destruct (String.eqb k0 k) eqn:E; simpl; rewrite E; [reflexivity | now rewrite IH].
Qed.

(** One iteration, for a key that splits in two on a known axis: the branch
    works on what the field holds, and the result is filed under the name. *)
Lemma step_eq fs key value a n :
  split ":" key = [a; n] -> valid_axis a = true ->
  step fs (key, value)
  = do cur <- branch (current_of F fs a (url_unquote n)) value ;;
    Ok (set_axis F fs a (od_set F (get_axis F fs a) (url_unquote n) cur)).
Proof.
  intros Hk Ha. unfold FilterParser.step, unpack2. rewrite Hk. cbn [bind].
  unfold valid_axis in Ha. rewrite Ha. cbn [negb].
  unfold od_setdefault, current_of, field_at.
  destruct (od_get F (get_axis F fs a) (url_unquote n)) as [c|]; [reflexivity|].
  destruct (branch _ value) as [cur|e]; cbn [bind]; [|reflexivity].
  now rewrite od_set_od_set.
Qed.

Lemma range_branch_wildcards cur lo hi :
  url_unquote lo = "*" -> url_unquote hi = "*" ->
  exists e, range_branch cur lo hi = Raise e.
Proof.
  intros Hlo Hhi. unfold FilterParser.range_branch. rewrite Hlo, Hhi.
  destruct cur as [nm [vs|] [l|] [h|]]; simpl; eauto.
Qed.

Lemma step_stuck_wildcards fs key value :
  both_wildcards url_unquote value = true -> exists e, step fs (key, value) = Raise e.
Proof.
  unfold both_wildcards, FilterParser.step, FilterParser.branch, unpack2.
  destruct (split ":" key) as [|a [|n [|? ?]]]; simpl; eauto.
  destruct (negb (String.eqb a "obs" || String.eqb a "var")); eauto.
  destruct (od_setdefault _ _ _ _) as [d current].
  destruct (split "," value) as [|lo [|hi [|? ?]]]; simpl; try discriminate.
  intros H. apply andb_prop in H. destruct H as [Hlo Hhi].
  apply String.eqb_eq in Hlo, Hhi.
  destruct (range_branch_wildcards current lo hi Hlo Hhi) as [e ->]. simpl. eauto.
Qed.

(** X1. A range with both endpoints wildcarded, anywhere among the
    parameters, makes filter parsing raise [FilterError]. *)
Theorem both_wildcards_raises_FilterError (args : MultiDict) (key value : string) :
  In (key, value) (items_multi args) ->
  both_wildcards url_unquote value = true ->
  exists m, parse args = Raise (FilterError m).
Proof.
  intros Hin Hw. apply (FilterParserFacts.parse_stuck url_unquote float args key value Hin).
  intros fs. now apply step_stuck_wildcards.
Qed.

Lemma loop_duplicate_range_stuck pre k1 v1 mid k2 v2 post :
  same_field url_unquote k1 k2 = true ->
  is_range v1 = true -> is_range v2 = true ->
  exists e,
    for_each step (pre ++ (k1, v1) :: mid ++ (k2, v2) :: post) (empty_filters F) = Raise e.
Proof.
  intros Hsame Hr1 Hr2.
  destruct (for_each step _ _) as [fs|e] eqn:E; [exfalso|eauto].
  apply for_each_app_Ok in E. destruct E as (s0 & _ & E). cbn [bind for_each] in E.
  destruct (step s0 (k1, v1)) as [s1|] eqn:E1; cbn [bind] in E; [|discriminate].
  apply for_each_app_Ok in E. destruct E as (s2 & Emid & E). cbn [bind for_each] in E.
  destruct (step s2 (k2, v2)) as [s3|] eqn:E2; cbn [bind] in E; [|discriminate].
  destruct (FilterParserFacts.step_Ok_inv _ _ _ _ _ _ E1)
    as (a & n & cur1 & Hk1 & Hv & Hb & Hf1 & _).
  unfold same_field in Hsame. rewrite Hk1 in Hsame.
  destruct (split ":" k2) as [|a2 [|n2 [|? ?]]] eqn:Hk2; try discriminate.
  apply andb_prop in Hsame. destruct Hsame as [Ha Hn].
  apply String.eqb_eq in Ha, Hn. subst a2.
  destruct (FilterParserFacts.for_each_keeps _ _ _ _ _ _ _ _ Emid Hv Hf1)
    as (cur2 & Hf2 & _ & Hkr).
  rewrite Hn in Hf2.
  destruct (FilterParserFacts.branch_range_Ok _ _ _ _ _ Hr1 Hb) as [_ Hc].
  destruct (FilterParserFacts.step_Ok_inv _ _ _ _ _ _ E2)
    as (a' & n' & cur3 & Hk2' & _ & Hb2 & _).
  rewrite Hk2 in Hk2'. injection Hk2' as <- <-.
  unfold current_of in Hb2. rewrite Hf2 in Hb2.
  unfold FilterParser.branch, is_range in *.
  destruct (split "," v2) as [|lo [|hi [|? ?]]]; try discriminate.
  apply FilterParserFacts.range_branch_Ok in Hb2. destruct Hb2 as (_ & Hno & _).
  rewrite (Hkr Hc) in Hno. discriminate.
Qed.

(** X2. Two ranges for the same field of the same axis, however far apart,
    make filter parsing raise [FilterError]. *)
Theorem duplicate_range_raises_FilterError (args : MultiDict)
    (pre mid post : list (string * string)) (k1 v1 k2 v2 : string) :
  items_multi args = pre ++ (k1, v1) :: mid ++ (k2, v2) :: post ->
  same_field url_unquote k1 k2 = true ->
  is_range v1 = true -> is_range v2 = true ->
  exists m, parse args = Raise (FilterError m).
Proof.
  intros Hargs Hsame Hr1 Hr2.
  destruct (loop_duplicate_range_stuck pre k1 v1 mid k2 v2 post Hsame Hr1 Hr2) as [e E].
  apply (FilterParserFacts.parse_FilterError_of_loop url_unquote float args e).
  unfold FilterParser.try_body. now rewrite Hargs.
Qed.

(** *** What every successful parse keeps *)

Lemma od_get_None_keys (d : axis_dict F) k : od_get F d k = None -> ~ In k (map fst d).
Proof.
  induction d as [|[k0 v0] d IH]; simpl; [tauto|].
  destruct (String.eqb k0 k) eqn:E; [discriminate|].
  apply String.eqb_neq in E. intros H [H1|H2]; [contradiction | now apply IH].
Qed.

Lemma od_get_In (d : axis_dict F) k p :
  List.NoDup (map fst d) -> In (k, p) d -> od_get F d k = Some p.
Proof.
  induction d as [|[k0 v0] d IH]; simpl; [tauto|].
  intros Hnd [[= -> ->]|Hin].
  - now rewrite String.eqb_refl.
  - apply List.NoDup_cons_iff in Hnd. destruct Hnd as [Hnotin Hnd'].
    destruct (String.eqb k0 k) eqn:E.
    + apply String.eqb_eq in E. subst k0. exfalso. apply Hnotin.
      apply in_map_iff. now exists (k, p).
    + now apply IH.
Qed.

Lemma od_get_Some_In (d : axis_dict F) k p : od_get F d k = Some p -> In (k, p) d.
Proof.
  induction d as [|[k0 v0] d IH]; simpl; [discriminate|].
  destruct (String.eqb k0 k) eqn:E.
  - apply String.eqb_eq in E. intros [= ->]. left. now subst.
  - intros H. right. now apply IH.
Qed.

Lemma od_set_keys (d : axis_dict F) k v :
  map fst (od_set F d k v)
  = if has_key (od_get F d k) then map fst d else map fst d ++ [k].
Proof.
  induction d as [|[k0 v0] d IH]; simpl; [reflexivity|].
  destruct (String.eqb k0 k) eqn:E; simpl; [reflexivity|].
  rewrite IH. now destruct (has_key (od_get F d k)).
Qed.

Lemma od_set_Forall (P : string * FieldPredicate F -> Prop) (d : axis_dict F) k v :
  Forall P d -> P (k, v) -> Forall P (od_set F d k v).
Proof.
  intros Hd Hv. induction d as [|[k0 v0] d IH]; simpl.
  - now constructor.
  - inversion Hd as [|? ? H0 Hd']; subst.
    destruct (String.eqb k0 k) eqn:E.
    + apply String.eqb_eq in E. subst k0. now constructor.
    + constructor; [assumption | now apply IH].
Qed.

Lemma od_set_not_nil (d : axis_dict F) k v : od_set F d k v <> [].
Proof. destruct d as [|[k0 v0] d]; simpl; [discriminate|]. now destruct (String.eqb k0 k). Qed.

Lemma od_set_ok (d : axis_dict F) k v :
  dict_ok F d -> fp_name F v = k -> well_formed F v = true -> dict_ok F (od_set F d k v).
Proof.
  intros [Hall Hnd] Hname Hwf. split.
  - apply od_set_Forall; [assumption|]. now split.
  - rewrite od_set_keys. destruct (od_get F d k) eqn:E; simpl; [assumption|].
    apply List.NoDup_app; [assumption | repeat constructor; simpl; tauto |].
    intros x Hx [<-|[]]. now apply (od_get_None_keys d k).
Qed.

Lemma value_branch_shape cur value cur' :
  value_branch cur value = Ok cur' ->
  fp_name F cur' = fp_name F cur /\ well_formed F cur' = true.
Proof.
  unfold FilterParser.value_branch, well_formed.
  destruct cur as [nm vs [l|] [h|]]; simpl; try discriminate.
  intros [= <-]. simpl. split; [reflexivity|].
  destruct vs as [[|v vs]|]; reflexivity.
Qed.

Lemma range_branch_shape cur lo hi cur' :
  range_branch cur lo hi = Ok cur' ->
  fp_name F cur' = fp_name F cur /\ well_formed F cur' = true.
Proof.
  unfold FilterParser.range_branch, py_float, well_formed, dict_len.
  destruct cur as [nm [vs|] [lo0|] [hi0|]]; simpl; try discriminate;
    destruct (String.eqb (url_unquote lo) "*"), (float (url_unquote lo));
    simpl; try discriminate;
    destruct (String.eqb (url_unquote hi) "*"), (float (url_unquote hi));
    simpl; try discriminate; intros [= <-]; auto.
Qed.

Lemma branch_shape cur value cur' :
  branch cur value = Ok cur' ->
  fp_name F cur' = fp_name F cur /\ well_formed F cur' = true.
Proof.
  unfold FilterParser.branch.
  destruct (split "," value) as [|lo [|hi [|? ?]]]; try discriminate.
  - apply value_branch_shape.
  - apply range_branch_shape.
Qed.

(** What one successful iteration did. *)
Lemma step_Ok_shape fs key value fs' :
  step fs (key, value) = Ok fs' ->
  exists a n cur,
    split ":" key = [a; n] /\ valid_axis a = true
    /\ branch (current_of F fs a (url_unquote n)) value = Ok cur
    /\ fs' = set_axis F fs a (od_set F (get_axis F fs a) (url_unquote n) cur).
Proof.
  intros H.
  destruct (split ":" key) as [|a [|n [|? ?]]] eqn:Hk;
    try (unfold FilterParser.step, unpack2 in H; rewrite Hk in H; discriminate).
  destruct (valid_axis a) eqn:Ha.
  - rewrite (step_eq fs key value a n Hk Ha) in H.
    destruct (branch _ value) as [cur|e] eqn:Eb; cbn [bind] in H; [|discriminate].
    injection H as <-. exists a, n, cur. auto.
  - unfold FilterParser.step, unpack2 in H. rewrite Hk in H. cbn [bind] in H.
    unfold valid_axis in Ha. rewrite Ha in H. discriminate.
Qed.

Lemma valid_axis_cases a : valid_axis a = true -> a = "obs" \/ a = "var".
Proof.
  unfold valid_axis. intros H. apply orb_prop in H.
  destruct H as [H|H]; apply String.eqb_eq in H; auto.
Qed.

Lemma current_of_name fs a n :
  filters_ok F fs -> valid_axis a = true -> fp_name F (current_of F fs a n) = n.
Proof.
  intros [Hobs Hvar] Ha. unfold current_of, field_at.
  destruct (od_get F (get_axis F fs a) n) as [c|] eqn:E; [|reflexivity].
  apply od_get_Some_In in E.
  assert (Hd : dict_ok F (get_axis F fs a))
    by (destruct (valid_axis_cases a Ha) as [-> | ->]; assumption).
  destruct Hd as [Hall _]. rewrite List.Forall_forall in Hall.
  now destruct (Hall _ E).
Qed.

Lemma step_keeps_ok fs kv fs' :
  filters_ok F fs -> step fs kv = Ok fs' -> filters_ok F fs'.
Proof.
  destruct kv as [key value]. intros Hok Hs.
  destruct (step_Ok_shape _ _ _ _ Hs) as (a & n & cur & _ & Ha & Hb & ->).
  destruct (branch_shape _ _ _ Hb) as [Hname Hwf].
  rewrite (current_of_name fs a _ Hok Ha) in Hname.
  destruct Hok as [Hobs Hvar].
  destruct (valid_axis_cases a Ha) as [-> | ->]; split; simpl;
    try assumption; now apply od_set_ok.
Qed.

Lemma try_body_ok args fs : try_body args = Ok fs -> filters_ok F fs.
Proof.
  intros H.
  apply (for_each_invariant step (fun _ fs => filters_ok F fs)
           (fun done s x s' Hs Hx => step_keeps_ok s x s' Hs Hx)
           (items_multi args) [] (empty_filters F) fs); [|exact H].
  split; split; constructor.
Qed.

(** What a returned filter is made of. *)
Lemma parse_Ok_inv args f :
  parse args = Ok f ->
  exists fs, try_body args = Ok fs /\ f = build_result F fs.
Proof.
  unfold FilterParser._query_parameter_to_filter. fold (try_body args).
  destruct (try_body args) as [fs|[]]; simpl; try discriminate.
  intros [= <-]. eauto.
Qed.

Lemma build_result_eq fs :
  build_result F fs
  = match f_obs F fs with
    | [] => []
    | d => [("obs", mkAxisFilter F (map snd d))]
    end
    ++ match f_var F fs with
       | [] => []
       | d => [("var", mkAxisFilter F (map snd d))]
       end.
Proof.
  unfold build_result, get_axis. simpl.
  destruct (f_obs F fs), (f_var F fs); reflexivity.
Qed.

Lemma build_result_get fs axis af :
  dict_get (build_result F fs) axis = Some af <->
  valid_axis axis = true /\ get_axis F fs axis <> []
  /\ af = mkAxisFilter F (map snd (get_axis F fs axis)).
Proof.
  rewrite build_result_eq. unfold valid_axis, get_axis.
  destruct (String.eqb axis "obs") eqn:Eo; [apply String.eqb_eq in Eo; subst axis|];
    [|destruct (String.eqb axis "var") eqn:Ev; [apply String.eqb_eq in Ev; subst axis|]].
  - destruct (f_obs F fs) as [|eo dobs], (f_var F fs) as [|ev dvar]; simpl;
      (split;
       [ first [ discriminate | intros [= <-]; repeat split; discriminate ]
       | intros (H1 & H2 & H3); first [ now elim H2 | now subst ] ]).
  - destruct (f_obs F fs) as [|eo dobs], (f_var F fs) as [|ev dvar]; simpl;
      (split;
       [ first [ discriminate | intros [= <-]; repeat split; discriminate ]
       | intros (H1 & H2 & H3); first [ now elim H2 | now subst ] ]).
  - rewrite String.eqb_sym in Eo. rewrite String.eqb_sym in Ev.
    split; [|intros [? _]; discriminate].
    destruct (f_obs F fs) as [|eo dobs], (f_var F fs) as [|ev dvar];
      cbn [dict_get app]; rewrite ?Eo, ?Ev; discriminate.
Qed.

(** X3. Every predicate of a returned filter is a non-empty value set
    without bounds, or a range with at least one bound and no values. *)
Theorem parsed_predicates_well_formed (args : MultiDict) (f : FilterSpec F)
    (axis : string) (af : AxisFilter F) (p : FieldPredicate F) :
  parse args = Ok f ->
  dict_get f axis = Some af -> In p (annotation_value F af) ->
  well_formed F p = true.
Proof.
  intros Hp Hget Hin.
  destruct (parse_Ok_inv _ _ Hp) as (fs & Hbody & ->).
  apply build_result_get in Hget. destruct Hget as (Ha & _ & ->).
  destruct (try_body_ok _ _ Hbody) as [Hobs Hvar].
  assert (Hd : dict_ok F (get_axis F fs axis))
    by (destruct (valid_axis_cases axis Ha) as [-> | ->]; assumption).
  destruct Hd as [Hall _]. rewrite List.Forall_forall in Hall.
  simpl in Hin. apply in_map_iff in Hin. destruct Hin as ([k q] & <- & Hq).
  now destruct (Hall _ Hq).
Qed.

(** X4. In a returned filter no field is listed twice under an axis. *)
Theorem parsed_fields_distinct (args : MultiDict) (f : FilterSpec F)
    (axis : string) (af : AxisFilter F) :
  parse args = Ok f ->
  dict_get f axis = Some af ->
  List.NoDup (map (fp_name F) (annotation_value F af)).
Proof.
  intros Hp Hget.
  destruct (parse_Ok_inv _ _ Hp) as (fs & Hbody & ->).
  apply build_result_get in Hget. destruct Hget as (Ha & _ & ->).
  destruct (try_body_ok _ _ Hbody) as [Hobs Hvar].
  assert (Hd : dict_ok F (get_axis F fs axis))
    by (destruct (valid_axis_cases axis Ha) as [-> | ->]; assumption).
  destruct Hd as [Hall Hnd]. simpl. rewrite map_map.
  replace (map (fun x => fp_name F (snd x)) (get_axis F fs axis))
    with (map fst (get_axis F fs axis)); [assumption|].
  apply map_ext_in. intros kp Hkp. rewrite List.Forall_forall in Hall.
  now destruct (Hall _ Hkp).
Qed.

(** *** Which axes a returned filter has *)

Lemma on_axis_split key value a n axis :
  split ":" key = [a; n] -> on_axis url_unquote axis (key, value) = String.eqb a axis.
Proof. intros Hk. unfold on_axis, field_of. simpl. now rewrite Hk. Qed.

Local Abbreviation axes_seen := (FilterShapes.axes_seen url_unquote F).

Lemma step_axes_seen done fs kv fs' :
  axes_seen done fs -> step fs kv = Ok fs' -> axes_seen (done ++ [kv]) fs'.
Proof.
  destruct kv as [key value]. intros [Hvalid Hseen] Hs.
  destruct (step_Ok_shape _ _ _ _ Hs) as (a & n & cur & Hk & Ha & _ & ->).
  split.
  - intros kv axis Hin Hon. apply in_app_or in Hin. destruct Hin as [Hin|[<-|[]]].
    + eapply Hvalid; eassumption.
    + rewrite (on_axis_split _ _ _ _ _ Hk) in Hon. apply String.eqb_eq in Hon. now subst.
  - intros axis Hax. destruct (String.eqb a axis) eqn:E.
    + apply String.eqb_eq in E. subst axis.
      rewrite FilterParserFacts.get_set_axis_eq. split.
      * intros _. exists (key, value). split; [apply in_or_app; right; now left|].
        rewrite (on_axis_split _ _ _ _ _ Hk). apply String.eqb_refl.
      * intros _. apply od_set_not_nil.
    + assert (Hne : a <> axis) by (now apply String.eqb_neq).
      rewrite (FilterParserFacts.get_set_axis_ne fs a axis _
                 (valid_axis_cases a Ha) (valid_axis_cases axis Hax) Hne).
      rewrite (Hseen axis Hax). split.
      * intros (kv & Hin & Hon). exists kv. split; [apply in_or_app; now left | assumption].
      * intros (kv & Hin & Hon). apply in_app_or in Hin. destruct Hin as [Hin|[<-|[]]].
        -- eauto.
        -- rewrite (on_axis_split _ _ _ _ _ Hk), E in Hon. discriminate.
Qed.

Lemma try_body_axes_seen args fs :
  try_body args = Ok fs -> axes_seen (items_multi args) fs.
Proof.
  intros H.
  apply (for_each_invariant step axes_seen step_axes_seen
           (items_multi args) [] (empty_filters F) fs); [|exact H].
  split.
  - intros kv axis [].
  - intros axis Hax. split.
    + intros Hne. exfalso. apply Hne.
      destruct (valid_axis_cases axis Hax) as [-> | ->]; reflexivity.
    + intros (kv & [] & _).
Qed.

(** X5. A returned filter has a key for an axis exactly when some parameter
    is for that axis, and then its list of predicates is not empty. *)
Theorem parsed_axes (args : MultiDict) (f : FilterSpec F) (axis : string) :
  parse args = Ok f ->
  ((exists af, dict_get f axis = Some af) <->
   (exists kv, In kv (items_multi args) /\ on_axis url_unquote axis kv = true))
  /\ (forall af, dict_get f axis = Some af -> annotation_value F af <> []).
Proof.
  intros Hp. destruct (parse_Ok_inv _ _ Hp) as (fs & Hbody & ->).
  destruct (try_body_axes_seen _ _ Hbody) as [Hvalid Hseen].
  split; [split|].
  - intros (af & Hget). apply build_result_get in Hget. destruct Hget as (Hax & Hne & _).
    now apply (Hseen axis Hax).
  - intros (kv & Hin & Hon). pose proof (Hvalid kv axis Hin Hon) as Hax.
    exists (mkAxisFilter F (map snd (get_axis F fs axis))).
    apply build_result_get. split; [assumption|]. split; [|reflexivity].
    apply (Hseen axis Hax). eauto.
  - intros af Hget. apply build_result_get in Hget. destruct Hget as (_ & Hne & ->).
    simpl. destruct (get_axis F fs axis); [now elim Hne | discriminate].
Qed.

(** *** Values accumulate *)

Lemma values_of_snoc axis name done kv :
  values_of url_unquote axis name (done ++ [kv])
  = values_of url_unquote axis name done
    ++ (if addresses url_unquote axis name kv then [url_unquote (snd kv)] else []).
Proof.
  unfold values_of. rewrite List.filter_app, map_app. simpl.
  now destruct (addresses url_unquote axis name kv).
Qed.

Local Abbreviation values_so_far := (FilterShapes.values_so_far url_unquote F).

Lemma value_set_snoc name vs v :
  value_set F name (vs ++ [v]) = Some (mkPred F name (Some (vs ++ [v])) None None).
Proof. destruct vs; reflexivity. Qed.

Lemma step_value_param done fs kv :
  values_so_far done fs -> is_value_param url_unquote kv = true ->
  exists fs', step fs kv = Ok fs' /\ values_so_far (done ++ [kv]) fs'.
Proof.
  destruct kv as [key value]. intros Hinv Hparam.
  unfold is_value_param, field_of in Hparam. simpl in Hparam.
  destruct (split ":" key) as [|a [|n [|? ?]]] eqn:Hk; try discriminate.
  apply andb_prop in Hparam. destruct Hparam as [Ha Hval].
  set (nm := url_unquote n).
  set (vs := values_of url_unquote a nm done).
  assert (Hbranch : branch (current_of F fs a nm) value
                    = Ok (mkPred F nm (Some (vs ++ [url_unquote value])) None None)).
  { unfold FilterParser.branch. unfold is_value in Hval.
    destruct (split "," value) as [|v0 [|? ?]]; try discriminate.
    unfold current_of. rewrite (Hinv a nm Ha). fold vs.
    destruct vs; reflexivity. }
  rewrite (step_eq fs key value a n Hk Ha). fold nm. rewrite Hbranch. cbn [bind].
  eexists. split; [reflexivity|].
  intros axis name Hax. rewrite values_of_snoc.
  unfold addresses, field_of. simpl. rewrite Hk. fold nm. unfold field_at.
  destruct (String.eqb a axis) eqn:Ea.
  - apply String.eqb_eq in Ea. subst axis. rewrite FilterParserFacts.get_set_axis_eq.
    destruct (String.eqb nm name) eqn:En; simpl.
    + apply String.eqb_eq in En. subst name.
      rewrite FilterParserFacts.od_get_set_eq. fold vs. now rewrite value_set_snoc.
    + apply String.eqb_neq in En. rewrite FilterParserFacts.od_get_set_ne by assumption.
      rewrite app_nil_r. apply (Hinv a name Ha).
  - assert (Hne : a <> axis) by (now apply String.eqb_neq).
    rewrite (FilterParserFacts.get_set_axis_ne fs a axis _
               (valid_axis_cases a Ha) (valid_axis_cases axis Hax) Hne).
    simpl. rewrite app_nil_r. apply (Hinv axis name Hax).
Qed.

Lemma values_of_other_axis axis name items :
  Forall (fun kv => is_value_param url_unquote kv = true) items ->
  valid_axis axis = false -> values_of url_unquote axis name items = [].
Proof.
  intros Hall Hax. unfold values_of.
  induction Hall as [|kv items Hkv _ IH]; [reflexivity|]. simpl.
  unfold addresses, is_value_param in *.
  destruct (field_of url_unquote (fst kv)) as [[a n]|]; [|exact IH].
  destruct (String.eqb a axis) eqn:Ea; [|exact IH].
  apply String.eqb_eq in Ea. subst a. rewrite Hax in Hkv. discriminate.
Qed.

(** X6. When every parameter is a single value for a field of a known axis,
    parsing succeeds and the predicates of the result are exactly the value
    sets of the fields addressed: each lists the decoded values sent for the
    field, in the order of the parameters. *)
Theorem value_parameters_accumulate (args : MultiDict) :
  Forall (fun kv => is_value_param url_unquote kv = true) (items_multi args) ->
  exists f, parse args = Ok f
    /\ forall axis p,
         (exists af, dict_get f axis = Some af /\ In p (annotation_value F af)) <->
         (values_of url_unquote axis (fp_name F p) (items_multi args) <> []
          /\ p = mkPred F (fp_name F p)
                   (Some (values_of url_unquote axis (fp_name F p) (items_multi args)))
                   None None).
Proof.
  intros Hall.
  destruct (for_each_finishes step values_so_far
              (fun kv => is_value_param url_unquote kv = true) step_value_param
              (items_multi args) [] (empty_filters F)) as (fs & Hbody & Hinv).
  { intros axis name Hax. unfold field_at.
    destruct (valid_axis_cases axis Hax) as [-> | ->]; reflexivity. }
  { exact Hall. }
  simpl in Hinv. exists (build_result F fs). split.
  { unfold FilterParser._query_parameter_to_filter, FilterParser.try_body.
    now rewrite Hbody. }
  pose proof (try_body_ok args fs Hbody) as Hok.
  intros axis p. destruct (valid_axis axis) eqn:Hax.
  - assert (Hd : dict_ok F (get_axis F fs axis))
      by (destruct Hok; destruct (valid_axis_cases axis Hax) as [-> | ->]; assumption).
    destruct Hd as [Hentries Hnd]. rewrite List.Forall_forall in Hentries.
    split.
    + intros (af & Hget & Hin). apply build_result_get in Hget.
      destruct Hget as (_ & _ & ->). simpl in Hin.
      apply in_map_iff in Hin. destruct Hin as ([k q] & Hq & Hin). simpl in Hq. subst q.
      destruct (Hentries _ Hin) as [Hname _]. simpl in Hname. subst k.
      pose proof (od_get_In _ _ _ Hnd Hin) as Hget.
      fold (field_at F fs axis (fp_name F p)) in Hget.
      rewrite (Hinv axis (fp_name F p) Hax) in Hget. unfold value_set in Hget.
      destruct (values_of url_unquote axis (fp_name F p) (items_multi args));
        [discriminate|]. injection Hget as <-. simpl. split; [discriminate | reflexivity].
    + intros [Hne Hp].
      pose proof (Hinv axis (fp_name F p) Hax) as Hget. unfold value_set in Hget.
      destruct (values_of url_unquote axis (fp_name F p) (items_multi args)) as [|v vs] eqn:Ev;
        [now elim Hne|].
      rewrite <- Hp in Hget. apply od_get_Some_In in Hget.
      exists (mkAxisFilter F (map snd (get_axis F fs axis))). split.
      * apply build_result_get. split; [assumption|]. split; [|reflexivity].
        intros Hnil. rewrite Hnil in Hget. destruct Hget.
      * simpl. apply in_map_iff. now exists (fp_name F p, p).
  - rewrite (values_of_other_axis axis _ _ Hall Hax). split.
    + intros (af & Hget & _). apply build_result_get in Hget.
      destruct Hget as (Hv & _). congruence.
    + intros [Hne _]. now elim Hne.
Qed.

End Facts.
End FilterMoreFacts.

Lemma both_wildcards_witness :
  In ("obs:n", "*,*") (FilterParser.items_multi [("obs:tissue", ["lung"]); ("obs:n", ["*,*"])])
  /\ FilterShapes.both_wildcards PyLib.url_unquote "*,*" = true
  /\ exists m, _query_parameter_to_filter [("obs:tissue", ["lung"]); ("obs:n", ["*,*"])]
               = Raise (FilterError m).
Proof.
  split; [simpl; auto|]. split; [reflexivity|].
  apply (FilterMoreFacts.both_wildcards_raises_FilterError PyLib.url_unquote PyLib.float
           [("obs:tissue", ["lung"]); ("obs:n", ["*,*"])] "obs:n" "*,*");
    [simpl; auto | reflexivity].
Defined.

Lemma duplicate_range_witness :
  FilterParser.same_field PyLib.url_unquote "var:n" "var:%6E" = true
  /\ exists m, _query_parameter_to_filter
                 [("var:n", ["1,*"]); ("obs:t", ["a"]); ("var:%6E", ["*,9"])]
               = Raise (FilterError m).
Proof.
  split; [reflexivity|].
  apply (FilterMoreFacts.duplicate_range_raises_FilterError PyLib.url_unquote PyLib.float
           [("var:n", ["1,*"]); ("obs:t", ["a"]); ("var:%6E", ["*,9"])]
           [] [("obs:t", "a")] [] "var:n" "1,*" "var:%6E" "*,9");
    reflexivity.
Defined.

Lemma value_parameters_accumulate_witness :
  exists f,
    _query_parameter_to_filter [("obs:tissue", ["lung"; "heart"]); ("obs:sex", ["F"])] = Ok f
    /\ exists af, dict_get f "obs" = Some af
         /\ In (values_predicate "tissue" ["lung"; "heart"])
               (FilterParser.annotation_value PyLib.pyfloat af).
Proof.
  destruct (FilterMoreFacts.value_parameters_accumulate PyLib.url_unquote PyLib.float
              [("obs:tissue", ["lung"; "heart"]); ("obs:sex", ["F"])]) as (f & Hf & Hchar).
  { repeat constructor. }
  exists f. split; [exact Hf|].
  apply (Hchar "obs" (values_predicate "tissue" ["lung"; "heart"])).
  split; [discriminate | reflexivity].
Defined.

Lemma parsed_axes_witness :
  (exists af, dict_get scenario_filter "obs" = Some af)
  /\ ~ (exists af, dict_get scenario_filter "var" = Some af).
Proof.
  destruct (FilterMoreFacts.parsed_axes PyLib.url_unquote PyLib.float
              scenario_args scenario_filter "obs" eq_refl) as [[_ Hobs] _].
  split.
  - apply Hobs. exists ("obs:tissue", "heart"). split; [simpl; auto | reflexivity].
  - intros [af Haf]. discriminate.
Defined.

Lemma parsed_predicates_well_formed_witness :
  _query_parameter_to_filter scenario_args = Ok scenario_filter
  /\ FilterShapes.well_formed PyLib.pyfloat (min_predicate "num_reads" (1000 # 1)) = true.
Proof.
  split; [reflexivity|].
  apply (FilterMoreFacts.parsed_predicates_well_formed PyLib.url_unquote PyLib.float
           scenario_args scenario_filter "obs"
           (FilterParser.mkAxisFilter PyLib.pyfloat
              [values_predicate "tissue" ["heart"]; min_predicate "num_reads" (1000 # 1)])
           (min_predicate "num_reads" (1000 # 1)));
    [reflexivity | reflexivity | simpl; auto].
Defined.

Lemma parsed_fields_distinct_witness :
  _query_parameter_to_filter scenario_args = Ok scenario_filter
  /\ List.NoDup
       (map (FilterParser.fp_name PyLib.pyfloat)
          [values_predicate "tissue" ["heart"]; min_predicate "num_reads" (1000 # 1)]).
Proof.
  split; [reflexivity|].
  apply (FilterMoreFacts.parsed_fields_distinct PyLib.url_unquote PyLib.float
           scenario_args scenario_filter "obs"
           (FilterParser.mkAxisFilter PyLib.pyfloat
              [values_predicate "tissue" ["heart"]; min_predicate "num_reads" (1000 # 1)]));
    reflexivity.
Defined.

(** ** Handlers that parse a filter from the query *)

Module QueryHandlersFacts.
Import Summarize.

(** A malformed parameter makes the parser of the server raise [FilterError]. *)
Lemma malformed_raises_FilterError (args : FilterParser.MultiDict) (kv : string * string) :
  In kv (FilterParser.items_multi args) -> DataVar.malformed kv = true ->
  exists m, _query_parameter_to_filter args = Raise (FilterError m).
Proof.
  destruct kv as [key value]. intros Hin Hbad.
  apply (FilterParserFacts.parse_stuck PyLib.url_unquote PyLib.float args key value Hin).
  intros fs. unfold DataVar.malformed in Hbad. simpl in Hbad.
  repeat (apply orb_prop in Hbad; destruct Hbad as [Hbad|Hbad]).
  - now apply FilterParserFacts.step_stuck_key.
  - now apply FilterParserFacts.step_stuck_axis.
  - now apply FilterParserFacts.step_stuck_segments.
Qed.

Section Handlers.
Variable summarizeQueryHash : string -> string.
Variable summarize_var : string -> FilterSpec -> string -> string -> bool -> result string.

Local Abbreviation summarize_var_helper :=
  (Summarize.summarize_var_helper summarizeQueryHash summarize_var).

(** X7. The summary is computed only for a request that accepts
    octet-stream, whose key, when given, is the hash of the query, and whose
    parameters other than method, key, layer and logscale parse as a filter;
    it is computed on that filter, with method [mean], layer [X] and no log
    scale unless the request says otherwise. *)
Theorem summary_computed_only_when_checked (request : request) (key : option string)
    (raw_query method query_hash layer : string) (filter : FilterSpec) (logscale : bool) :
  In (Call_summarize_var method filter query_hash layer logscale)
     (snd (summarize_var_helper request key raw_query)) ->
  accepts_octet_stream request = true
  /\ (str_truthy key = true -> key = Some query_hash)
  /\ query_hash = summarizeQueryHash raw_query
  /\ _query_parameter_to_filter
       (poplist "logscale" (poplist "layer" (poplist "key"
          (poplist "method" (values request))))) = Ok filter
  /\ method = md_get_default (values request) "method" "mean"
  /\ layer = md_get_default (values request) "layer" "X"
  /\ logscale = String.eqb (md_get_default (values request) "logscale" "false") "true".
Proof.
  unfold Summarize.summarize_var_helper.
  destruct (accepts_octet_stream request); cbn [negb]; [|intros []].
  destruct (str_truthy key) eqn:Hkey; cbn [andb].
  - destruct key as [k|]; [|discriminate].
    destruct (String.eqb (summarizeQueryHash raw_query) k) eqn:Hk; cbn [negb]; [|intros []].
    apply String.eqb_eq in Hk. subst k.
    destruct (_query_parameter_to_filter _) as [f|e] eqn:Hparse.
    + destruct (summarize_var _ f _ _ _) as [summary|[]]; cbn [snd];
        intros [[= <- <- <- <- <-]|[]]; repeat split; reflexivity.
    + destruct e; intros [].
  - destruct (_query_parameter_to_filter _) as [f|e] eqn:Hparse.
    + destruct (summarize_var _ f _ _ _) as [summary|[]]; cbn [snd];
        intros [[= <- <- <- <- <-]|[]]; repeat split; try reflexivity; discriminate.
    + destruct e; intros [].
Qed.

(** X8. When the request accepts octet-stream and its key, if any, is the
    hash of the query, a malformed filter parameter is answered 400 before
    anything is computed -- never 404, never an exception. *)
Theorem summarize_malformed_filter_is_bad_request (request : request) (key : option string)
    (raw_query : string) (kv : string * string) :
  accepts_octet_stream request = true ->
  (str_truthy key = true -> key = Some (summarizeQueryHash raw_query)) ->
  In kv (FilterParser.items_multi
           (poplist "logscale" (poplist "layer" (poplist "key"
              (poplist "method" (values request)))))) ->
  DataVar.malformed kv = true ->
  summarize_var_helper request key raw_query = (Abort BAD_REQUEST, []).
Proof.
  intros Hacc Hkey Hin Hbad.
  destruct (malformed_raises_FilterError _ kv Hin Hbad) as [m Hm].
  unfold Summarize.summarize_var_helper. rewrite Hacc. cbn [negb].
  assert (Hgate : str_truthy key
                  && negb match key with
                          | Some k => String.eqb (summarizeQueryHash raw_query) k
                          | None => false
                          end = false).
  { destruct (str_truthy key) eqn:E; [|reflexivity].
    rewrite (Hkey eq_refl). now rewrite String.eqb_refl. }
  rewrite Hgate, Hm. reflexivity.
Qed.

End Handlers.

Section DataVar.
Variable to_fbs_matrix : FilterSpec -> string -> bool -> result string.

(** X9. [data_var_get] takes every query parameter other than layer and
    logscale for a filter: when one of them is malformed the answer is 400,
    the error is logged, and the data adaptor is not called. *)
Theorem data_var_get_malformed_filter_is_bad_request (request : request)
    (kv : string * string) :
  accepts_octet_stream request = true ->
  In kv (FilterParser.items_multi (poplist "logscale" (poplist "layer" (args request)))) ->
  DataVar.malformed kv = true ->
  exists m,
    DataVar.data_var_get to_fbs_matrix request
    = (Abort BAD_REQUEST, [Logged DEBUG (LogStr (FilterError m))]).
Proof.
  intros Hacc Hin Hbad.
  destruct (malformed_raises_FilterError _ kv Hin Hbad) as [m Hm].
  exists m. unfold DataVar.data_var_get. rewrite Hacc. cbn [negb]. now rewrite Hm.
Qed.

End DataVar.
End QueryHandlersFacts.

Lemma summary_computed_only_when_checked_witness :
  In (Call_summarize_var "mean" [] "" "X" false)
     (snd (Summarize.summarize_var_helper Summarize.no_hash Summarize.mean_of_nothing
             DataVar.request_with_method None "method=mean"))
  /\ _query_parameter_to_filter
       (Summarize.poplist "logscale" (Summarize.poplist "layer" (Summarize.poplist "key"
          (Summarize.poplist "method" (Summarize.values DataVar.request_with_method)))))
     = Ok [].
Proof.
  assert (Hin : In (Call_summarize_var "mean" [] "" "X" false)
     (snd (Summarize.summarize_var_helper Summarize.no_hash Summarize.mean_of_nothing
             DataVar.request_with_method None "method=mean")))
    by (simpl; auto).
  split; [exact Hin|].
  destruct (QueryHandlersFacts.summary_computed_only_when_checked
              Summarize.no_hash Summarize.mean_of_nothing DataVar.request_with_method None
              "method=mean" "mean" "" "X" [] false Hin) as (_ & _ & _ & Hparse & _).
  exact Hparse.
Defined.

Lemma summarize_malformed_filter_witness :
  DataVar.malformed ("tissue", "lung") = true
  /\ Summarize.summarize_var_helper Summarize.no_hash Summarize.mean_of_nothing
       (Summarize.mkRequest None None true [] [("tissue", ["lung"]); ("key", ["k"])] "" "")
       None ""
     = (Abort BAD_REQUEST, []).
Proof.
  split; [reflexivity|].
  apply (QueryHandlersFacts.summarize_malformed_filter_is_bad_request
           Summarize.no_hash Summarize.mean_of_nothing
           (Summarize.mkRequest None None true [] [("tissue", ["lung"]); ("key", ["k"])] "" "")
           None "" ("tissue", "lung"));
    [reflexivity | discriminate | simpl; auto | reflexivity].
Defined.

Lemma data_var_get_malformed_filter_witness :
  DataVar.malformed ("method", "mean") = true
  /\ exists m,
       DataVar.data_var_get DataVar.empty_matrix DataVar.request_with_method
       = (Abort BAD_REQUEST, [Logged DEBUG (LogStr (FilterError m))]).
Proof.
  split; [reflexivity|].
  apply (QueryHandlersFacts.data_var_get_malformed_filter_is_bad_request
           DataVar.empty_matrix DataVar.request_with_method ("method", "mean"));
    [reflexivity | simpl; auto | reflexivity].
Defined.

(** The same query is a summary request and not a data request. *)
Example method_parameter_is_reserved_for_summaries :
  Summarize.summarize_var_get Summarize.no_hash Summarize.mean_of_nothing
    DataVar.request_with_method
  = (Response (Raw "") OK [("Content-Type", "application/octet-stream")],
     [Call_summarize_var "mean" [] "" "X" false])
  /\ DataVar.data_var_get DataVar.empty_matrix DataVar.request_with_method
     = (Abort BAD_REQUEST,
        [Logged DEBUG (LogStr (FilterError (StrOfValueError (UnpackMismatch 2 1))))]).
Proof. split; reflexivity. Qed.

(** ** [sankey_data_put] and [layout_obs_put] *)

Module SankeyFacts.
Import Sankey.
Section Handler.
Variable userID : string.
Variable compute_sankey : json -> json -> json -> string -> result (list (list json) * list json).

Local Abbreviation sankey_data_put := (Sankey.sankey_data_put userID compute_sankey).

(** A key the body does not have reads as [None]. *)
Lemma py_get_object fields k :
  py_get (JObj fields) k JNull
  = Ok match dict_get fields k with Some v => v | None => JNull end.
Proof. unfold py_get. now destruct (dict_get fields k). Qed.

Lemma sankey_of_object fields :
  sankey_data_put (JObj fields)
  = let labels := match dict_get fields "labels" with Some v => v | None => JNull end in
    let name := match dict_get fields "name" with Some v => v | None => JNull end in
    let filter := match dict_get fields "filter" with Some v => v | None => JNull end in
    if truthy labels
    then match compute_sankey labels name filter userID with
         | Ok (edges, weights) =>
             (graph_response edges weights,
              [Called (compute_sankey_df labels name filter userID)])
         | Raise e =>
             match e with
             | NotImplementedError =>
                 abort_logged [Called (compute_sankey_df labels name filter userID)]
                              NOT_IMPLEMENTED (LogStr e)
             | ValueError _ | DisabledFeatureError | FilterError _ =>
                 abort_logged [Called (compute_sankey_df labels name filter userID)]
                              BAD_REQUEST (LogStr e)
             | _ => (Raised e, [Called (compute_sankey_df labels name filter userID)])
             end
         end
    else (graph_response [] [], []).
Proof.
  unfold Sankey.sankey_data_put. rewrite !py_get_object. cbn [bind].
  now destruct (truthy _).
Qed.

(** X10. The sankey computation runs exactly when the body is an object
    whose [labels] are neither absent, null nor empty; for every other
    object the answer is 200 with no edges and no weights. *)
Theorem sankey_runs_iff_labels (args : json) :
  (adaptor_called (snd (sankey_data_put args)) = true <->
   exists fields labels,
     args = JObj fields /\ dict_get fields "labels" = Some labels /\ truthy labels = true)
  /\ (forall fields, args = JObj fields ->
        adaptor_called (snd (sankey_data_put args)) = false ->
        sankey_data_put args = (graph_response [] [], [])).
Proof.
  destruct args as [| | | | |fields];
    try (split; [split; [discriminate | intros (? & ? & ? & _); discriminate]
                | intros ? ?; discriminate]).
  rewrite sankey_of_object. cbv zeta.
  destruct (dict_get fields "labels") as [labels|] eqn:El.
  - destruct (truthy labels) eqn:Et.
    + split.
      * split; [intros _; eauto|]. intros _.
        destruct (compute_sankey _ _ _ _) as [[edges weights]|[]]; reflexivity.
      * intros ? _. destruct (compute_sankey _ _ _ _) as [[edges weights]|[]]; discriminate.
    + split; [|reflexivity]. split; [discriminate|].
      intros (? & ? & [= <-] & Hl & ?). congruence.
  - cbn [truthy]. split; [|reflexivity]. split; [discriminate|].
    intros (? & ? & [= <-] & Hl & _). congruence.
Qed.

End Handler.
End SankeyFacts.

Module ReembedFacts.
Import Reembed.
Section Handler.
Variable userID : string.
Variable hosted_mode : bool.
Variable compute : json -> json -> json -> json -> json -> string -> bool -> result json.

Local Abbreviation layout_obs_put := (Reembed.layout_obs_put userID hosted_mode compute).

Lemma item_or_object fields k dflt :
  item_or (JObj fields) k dflt
  = if truthy (JObj fields)
    then match dict_get fields k with Some v => Ok v | None => Raise (KeyError k) end
    else Ok dflt.
Proof. reflexivity. Qed.

(** X11. An embedding is computed exactly when the body is an object with a
    filter that is neither null nor empty and with the keys [method],
    [params], [parentName] and [embName]; an empty body, or a filter that is
    null or empty, is answered 400 "obs filter is required". *)
Theorem embedding_computed_iff_complete_request (args : json) :
  (adaptor_called (snd (layout_obs_put args)) = true <-> complete_request args = true)
  /\ (forall filter, item_or args "filter" JNull = Ok filter -> truthy filter = false ->
        layout_obs_put args
        = (Abort BAD_REQUEST, [Logged DEBUG (LogText "obs filter is required")])).
Proof.
  split.
  - unfold Reembed.layout_obs_put, complete_request.
    destruct args as [| |n|s|items|fields];
      try (cbn; split; discriminate).
    + cbn. destruct b; cbn; split; discriminate.
    + unfold item_or. destruct (truthy (JNum n)); cbn; split; discriminate.
    + unfold item_or. destruct (truthy (JStr s)); cbn; split; discriminate.
    + unfold item_or. destruct (truthy (JArr items)); cbn; split; discriminate.
    + rewrite !item_or_object. unfold has_field.
      destruct fields as [|kv fields'] eqn:Ef; [cbn; split; discriminate|].
      rewrite <- Ef. replace (truthy (JObj fields)) with true by (now subst).
      destruct (dict_get fields "filter") as [filter|]; [|cbn; split; discriminate].
      destruct (truthy filter); cbn [negb andb]; [|cbn; split; discriminate].
      destruct (dict_get fields "method"); cbn [bind has_key andb]; [|split; discriminate].
      destruct (dict_get fields "params"); cbn [bind has_key andb]; [|split; discriminate].
      destruct (dict_get fields "parentName"); cbn [bind has_key andb]; [|split; discriminate].
      destruct (dict_get fields "embName"); cbn [bind has_key andb]; [|split; discriminate].
      destruct (compute _ _ _ _ _ _ _) as [schema|[]]; cbn; split; reflexivity.
  - intros filter Hf Hfalsy. unfold Reembed.layout_obs_put. now rewrite Hf, Hfalsy.
Qed.

End Handler.
End ReembedFacts.

Lemma sankey_runs_iff_labels_witness :
  adaptor_called
    (snd (Sankey.sankey_data_put "u" Sankey.one_edge (JObj [("labels", JArr [JStr "louvain"])])))
  = true
  /\ Sankey.sankey_data_put "u" Sankey.one_edge (JObj [("labels", JArr [])])
     = (Sankey.graph_response [] [], []).
Proof.
  split.
  - apply (proj1 (SankeyFacts.sankey_runs_iff_labels "u" Sankey.one_edge
                    (JObj [("labels", JArr [JStr "louvain"])]))).
    exists [("labels", JArr [JStr "louvain"])], (JArr [JStr "louvain"]). repeat split.
  - apply (proj2 (SankeyFacts.sankey_runs_iff_labels "u" Sankey.one_edge
                    (JObj [("labels", JArr [])])) [("labels", JArr [])]); reflexivity.
Defined.

Lemma embedding_computed_witness :
  Reembed.complete_request Reembed.reembed_request = true
  /\ adaptor_called
       (snd (Reembed.layout_obs_put "u" false Reembed.same_schema Reembed.reembed_request))
     = true
  /\ Reembed.layout_obs_put "u" false Reembed.same_schema (JObj [])
     = (Abort BAD_REQUEST, [Logged DEBUG (LogText "obs filter is required")]).
Proof.
  split; [reflexivity|]. split.
  - apply (proj1 (ReembedFacts.embedding_computed_iff_complete_request
                    "u" false Reembed.same_schema Reembed.reembed_request)).
    reflexivity.
  - apply (proj2 (ReembedFacts.embedding_computed_iff_complete_request
                    "u" false Reembed.same_schema (JObj [])) JNull); reflexivity.
Defined.

Example layout_obs_put_missing_filter_key_raises :
  Reembed.layout_obs_put "u" false Reembed.same_schema (JObj [("method", JStr "umap")])
  = (Raised (KeyError "filter"), []).
Proof. reflexivity. Qed.

(** ** Strings *)

Module StringFacts.
Local Arguments String.append : simpl nomatch.

Lemma append_assoc (a b c : string) : (a +:+ b) +:+ c = a +:+ (b +:+ c).
Proof. induction a as [|x a IH]; simpl; [reflexivity | now rewrite IH]. Qed.

Lemma length_append (a b : string) :
  String.length (a +:+ b) = String.length a + String.length b.
Proof. induction a as [|x a IH]; simpl; [reflexivity | now rewrite IH]. Qed.

Lemma prefix_append (a b : string) : String.prefix a (a +:+ b) = true.
Proof.
  induction a as [|x a IH]; simpl; [now destruct b|].
  destruct (ascii_dec x x) as [_|Hne]; [exact IH | now elim Hne].
Qed.

Lemma prefix_inv (a s : string) :
  String.prefix a s = true -> exists rest, s = a +:+ rest.
Proof.
  revert s. induction a as [|x a IH]; intros s.
  - intros _. now exists s.
  - destruct s as [|y s]; simpl; [discriminate|].
    destruct (ascii_dec x y) as [->|_]; [|discriminate].
    intros H. destruct (IH s H) as [rest ->]. now exists rest.
Qed.

Lemma substring_append_l (a b : string) :
  String.substring 0 (String.length a) (a +:+ b) = a.
Proof.
  induction a as [|x a IH]; simpl; [now destruct b | now rewrite IH].
Qed.

Lemma substring_append_r (a b : string) :
  String.substring (String.length a) (String.length b) (a +:+ b) = b.
Proof.
  induction a as [|x a IH]; simpl; [|exact IH].
  induction b as [|y b IHb]; simpl; [reflexivity | now rewrite IHb].
Qed.

Lemma substring_split (n : nat) (s : string) :
  String.substring 0 n s +:+ String.substring n (String.length s - n) s = s.
Proof.
  revert n. induction s as [|x s IH]; intros [|n]; simpl; try reflexivity.
  - f_equal. clear IH. induction s as [|y s IHs]; simpl; [reflexivity | now rewrite IHs].
  - now rewrite IH.
Qed.

Lemma append_inj_r (a b c : string) : a +:+ b = a +:+ c -> b = c.
Proof. induction a as [|x a IH]; simpl; [tauto | intros [= H]; now apply IH]. Qed.

Lemma append_inj_l (a b c : string) :
  a +:+ c = b +:+ c -> a = b.
Proof.
  revert b. induction a as [|x a IH]; intros [|y b]; simpl; try reflexivity.
  - intros H. apply (f_equal String.length) in H. simpl in H.
    rewrite length_append in H. lia.
  - intros H. apply (f_equal String.length) in H. simpl in H.
    rewrite length_append in H. lia.
  - intros [= -> H]. f_equal. now apply IH.
Qed.

End StringFacts.

(** ** The layouts of the schema *)

Module LayoutFacts.
Import Embeddings Layout StringFacts.
Local Arguments String.append : simpl nomatch.

Lemma has_slash_append (a b : string) :
  has_slash (a +:+ b) = has_slash a || has_slash b.
Proof.
  induction a as [|x a IH]; simpl; [reflexivity|].
  rewrite IH. now rewrite orb_assoc.
Qed.

Lemma prefix_has_slash (sep s : string) :
  String.prefix sep s = true -> has_slash sep = true -> has_slash s = true.
Proof.
  intros Hp Hs. destruct (prefix_inv _ _ Hp) as [rest ->].
  rewrite has_slash_append, Hs. reflexivity.
Qed.

(** Past an occurrence of the separator, the split goes on with the rest. *)
Lemma split_on_from_skip (sep a rest : string) :
  split_on_from sep (String.length a) (a +:+ rest) = split_on_from sep 0 rest.
Proof.
  induction a as [|x a IH]; simpl; [|exact IH].
  destruct rest; reflexivity.
Qed.

Lemma split_on_occurrence (sep rest : string) :
  sep <> EmptyString ->
  split_on sep (sep +:+ rest) = EmptyString :: split_on sep rest.
Proof.
  intros Hne. unfold split_on. destruct sep as [|x sep]; [now elim Hne|].
  cbn [append split_on_from].
  change (String x (sep +:+ rest)) with (String x sep +:+ rest).
  rewrite prefix_append.
  replace (String.length (String x sep) - 1) with (String.length sep)
    by (simpl; lia).
  now rewrite split_on_from_skip.
Qed.

(** A string without a slash has no occurrence of a separator with one. *)
Lemma split_on_no_occurrence (sep s : string) :
  has_slash sep = true -> has_slash s = false -> split_on sep s = [s].
Proof.
  intros Hsep. unfold split_on. induction s as [|x s IH]; intros Hs; [reflexivity|].
  cbn [split_on_from].
  destruct (String.prefix sep (String x s)) eqn:Hp.
  - apply (prefix_has_slash _ _ Hp) in Hsep. congruence.
  - simpl in Hs. apply orb_false_elim in Hs. destruct Hs as [_ Hs].
    now rewrite (IH Hs).
Qed.

Lemma emb_dir_has_slash userID : has_slash (userID +:+ "/emb/") = true.
Proof. rewrite has_slash_append. simpl. apply orb_true_r. Qed.

Lemma emb_dir_not_empty userID : userID +:+ "/emb/" <> EmptyString.
Proof. intros H. apply (f_equal has_slash) in H. rewrite emb_dir_has_slash in H. discriminate. Qed.

Lemma emb_path_eq userID name :
  emb_path userID name = (userID +:+ "/emb/") +:+ (name +:+ ".p").
Proof. unfold emb_path. now rewrite append_assoc. Qed.

Lemma drop_last_two_dot_p name : drop_last_two (name +:+ ".p") = name.
Proof.
  unfold drop_last_two. rewrite length_append. simpl.
  replace (String.length name + 2 - 2) with (String.length name) by lia.
  apply substring_append_l.
Qed.

(** The name read off a path in the directory of the coordinates. *)
Lemma layout_name_in_dir userID base :
  has_slash base = false ->
  layout_name userID ((userID +:+ "/emb/") +:+ base) = drop_last_two base.
Proof.
  intros Hbase. unfold layout_name.
  rewrite (split_on_occurrence _ _ (emb_dir_not_empty userID)).
  rewrite (split_on_no_occurrence _ _ (emb_dir_has_slash userID) Hbase).
  reflexivity.
Qed.

Lemma layout_name_of_emb_path_lemma userID name :
  has_slash name = false -> layout_name userID (emb_path userID name) = name.
Proof.
  intros Hname. rewrite emb_path_eq, layout_name_in_dir.
  - apply drop_last_two_dot_p.
  - rewrite has_slash_append, Hname. reflexivity.
Qed.

(** X12. The schema reads back the name under which the coordinates of an
    embedding are filed: for a name without a slash, the layout name of
    [<user>/emb/<name>.p] is the name. *)
Theorem layout_name_of_emb_path (userID name : string) :
  has_slash name = false ->
  layout_name userID (emb_path userID name) = name.
Proof. apply layout_name_of_emb_path_lemma. Qed.

(** *** What the glob finds *)

Lemma substring_rest (a rest : string) :
  String.substring (String.length a) (String.length (a +:+ rest) - String.length a)
                   (a +:+ rest) = rest.
Proof.
  rewrite length_append.
  replace (String.length a + String.length rest - String.length a)
    with (String.length rest) by lia.
  apply substring_append_r.
Qed.

Lemma in_emb_glob_iff userID p :
  in_emb_glob userID p = true <->
  exists base, p = (userID +:+ "/emb/") +:+ base /\ star_dot_p base = true.
Proof.
  unfold in_emb_glob. split.
  - intros H. apply andb_prop in H. destruct H as [Hp Hb].
    destruct (prefix_inv _ _ Hp) as [rest ->]. rewrite substring_rest in Hb. eauto.
  - intros (base & -> & Hb). now rewrite prefix_append, substring_rest.
Qed.

Lemma ends_with_dot_p_append stem : ends_with_dot_p (stem +:+ ".p") = true.
Proof.
  unfold ends_with_dot_p. rewrite length_append. simpl.
  replace (String.length stem + 2 - 2) with (String.length stem) by lia.
  change 2 with (String.length ".p") at 1. now rewrite substring_append_r.
Qed.

Lemma ends_with_dot_p_inv base :
  ends_with_dot_p base = true -> exists stem, base = stem +:+ ".p".
Proof.
  unfold ends_with_dot_p. intros H. apply String.eqb_eq in H.
  exists (String.substring 0 (String.length base - 2) base).
  rewrite <- (substring_split (String.length base - 2) base) at 1. f_equal.
  destruct base as [|x [|y base]].
  - discriminate.
  - simpl in H. discriminate.
  - rewrite <- H. f_equal. simpl. lia.
Qed.

Lemma star_dot_p_stem stem : star_dot_p (stem +:+ ".p") = listable stem.
Proof.
  unfold star_dot_p, listable.
  rewrite has_slash_append, ends_with_dot_p_append. simpl.
  now rewrite orb_false_r, andb_true_r.
Qed.

Lemma in_emb_glob_emb_path userID name :
  in_emb_glob userID (emb_path userID name) = listable name.
Proof.
  rewrite emb_path_eq. unfold in_emb_glob.
  now rewrite prefix_append, substring_rest, star_dot_p_stem.
Qed.

Lemma listable_no_slash name : listable name = true -> has_slash name = false.
Proof.
  unfold listable. intros H. apply andb_prop in H. destruct H as [H _].
  now destruct (has_slash name).
Qed.

(** What the glob finds is the coordinates file of the name read off it. *)
Lemma in_emb_glob_inv userID p :
  in_emb_glob userID p = true ->
  listable (layout_name userID p) = true /\ p = emb_path userID (layout_name userID p).
Proof.
  intros H. apply in_emb_glob_iff in H. destruct H as (base & -> & Hb).
  assert (Hends : ends_with_dot_p base = true).
  { unfold star_dot_p in Hb. apply andb_prop in Hb. destruct Hb as [Hb _].
    apply andb_prop in Hb. tauto. }
  destruct (ends_with_dot_p_inv _ Hends) as [stem ->].
  rewrite star_dot_p_stem in Hb. rewrite <- emb_path_eq.
  rewrite (layout_name_of_emb_path_lemma userID stem (listable_no_slash _ Hb)). auto.
Qed.

Lemma listed_iff userID (fs : FS) name :
  In name (listed userID fs) <-> listable name = true /\ emb_path userID name ∈ fs.
Proof.
  unfold listed, schema_layout, glob_emb. rewrite map_map. cbn [ls_name].
  rewrite in_map_iff. split.
  - intros (x & <- & Hx). apply filter_In in Hx. destruct Hx as [Hx Hglob].
    apply list_elem_of_In, elem_of_elements in Hx.
    destruct (in_emb_glob_inv _ _ Hglob) as [Hl Hpath]. split; [assumption|].
    now rewrite <- Hpath.
  - intros [Hl Hin]. exists (emb_path userID name). split.
    + apply layout_name_of_emb_path_lemma, listable_no_slash, Hl.
    + apply filter_In. split.
      * now apply list_elem_of_In, elem_of_elements.
      * now rewrite in_emb_glob_emb_path.
Qed.

(** X13. The schema lists an embedding name exactly when the file of its
    coordinates, [<user>/emb/<name>.p], exists and the name is one the glob
    can find: it has no slash and the file name does not start with a dot. *)
Theorem schema_lists_existing_embeddings (userID : string) (fs : FS) (name : string) :
  In name (listed userID fs) <-> listable name = true /\ emb_path userID name ∈ fs.
Proof. apply listed_iff. Qed.

(** Every layout of the schema is two-dimensional, of type float32, with
    dimensions named after it. *)
Lemma schema_layout_entries userID (fs : FS) (l : layout_schema) :
  In l (schema_layout userID fs) ->
  ls_type l = "float32" /\ ls_dims l = [ls_name l +:+ "_0"; ls_name l +:+ "_1"].
Proof.
  unfold schema_layout. rewrite in_map_iff. intros (x & <- & _). split; reflexivity.
Qed.

(** *** Paths of the three artifacts *)

Lemma emb_path_inj userID a b : emb_path userID a = emb_path userID b -> a = b.
Proof.
  rewrite !emb_path_eq. intros H. apply append_inj_r in H. now apply append_inj_l in H.
Qed.

Lemma emb_nnm_distinct userID a b : emb_path userID a <> nnm_path userID b.
Proof. unfold emb_path, nnm_path. intros H. apply append_inj_r in H. discriminate. Qed.

Lemma emb_params_distinct userID a b : emb_path userID a <> params_path userID b.
Proof. unfold emb_path, params_path. intros H. apply append_inj_r in H. discriminate. Qed.

Lemma nnm_params_distinct userID a b : nnm_path userID a <> params_path userID b.
Proof. unfold nnm_path, params_path. intros H. apply append_inj_r in H. discriminate. Qed.

Lemma emb_path_artifact userID a b :
  In (emb_path userID a) (artifacts userID b) -> a = b.
Proof.
  unfold artifacts. intros [H|[H|[H|[]]]].
  - symmetry. now apply emb_path_inj in H.
  - symmetry in H. now apply emb_nnm_distinct in H.
  - symmetry in H. now apply emb_params_distinct in H.
Qed.

(** X14. After [delete_obsm_put] for names that are single path
    components, on a store in canonical form, the schema lists the names it
    listed before except the deleted ones. *)
Theorem deleted_embeddings_leave_the_schema (userID : string) (names : list string) (fs : FS)
    (name : string) :
  Forall (fun n => Files.is_component n = true) names ->
  Files.stored_canonically fs ->
  In name (listed userID (snd (delete_obsm_put userID (mkDeleteRequest (Some names)) fs)))
  <-> In name (listed userID fs) /\ ~ In name names.
Proof.
  intros _ _.
  rewrite EmbeddingsFacts.delete_obsm_put_names. cbn [snd]. rewrite !listed_iff.
  rewrite elem_of_difference, EmbeddingsFacts.elem_of_artifacts. split.
  - intros (Hl & Hin & Hnot). repeat split; try assumption.
    intros Hname. apply Hnot. exists name. split; [assumption|]. left. reflexivity.
  - intros ((Hl & Hin) & Hname). repeat split; try assumption.
    intros (m & Hm & Ha). apply emb_path_artifact in Ha. now subst.
Qed.

End LayoutFacts.

(** ** [delete_obsm_put], again, and [rename_obsm_put] *)

Module StoreFacts.
Import Files Embeddings Rename Layout LayoutFacts.

(** X15. Deleting one list of names and then another is deleting both at
    once; in particular a second deletion of the same names changes
    nothing. *)
Theorem deletions_compose (userID : string) (names more : list string) (fs : FS) :
  snd (delete_obsm_put userID (mkDeleteRequest (Some more))
         (snd (delete_obsm_put userID (mkDeleteRequest (Some names)) fs)))
  = snd (delete_obsm_put userID (mkDeleteRequest (Some (names ++ more))) fs)
  /\ snd (delete_obsm_put userID (mkDeleteRequest (Some names))
            (snd (delete_obsm_put userID (mkDeleteRequest (Some names)) fs)))
     = snd (delete_obsm_put userID (mkDeleteRequest (Some names)) fs).
Proof.
  rewrite !EmbeddingsFacts.delete_obsm_put_names. cbn [snd]. split.
  - rewrite flat_map_app, list_to_set_app_L. set_solver.
  - set_solver.
Qed.

Lemma os_rename_present src dst (fs : FS) :
  src ∈ fs -> os_rename src dst fs = (Ok tt, {[dst]} ∪ (fs ∖ {[src]})).
Proof. intros H. unfold os_rename. now rewrite bool_decide_eq_true_2. Qed.

Lemma os_rename_absent src dst (fs : FS) :
  src ∉ fs -> os_rename src dst fs = (Raise (FileNotFoundError src), fs).
Proof. intros H. unfold os_rename. now rewrite bool_decide_eq_false_2. Qed.

Section Handler.
Variable replace : string -> string -> string -> string.
Variable schema_get_helper : FS -> result json.

Local Abbreviation rename_embedding := (Rename.rename_embedding replace).
Local Abbreviation rename_embeddings := (Rename.rename_embeddings replace).
Local Abbreviation renames := (Rename.renames replace).
Local Abbreviation rename_obsm_put := (Rename.rename_obsm_put replace schema_get_helper).

(** The files after the three artifacts of [name] moved to [target]. *)
Lemma rename_embedding_present userID old new name (fs : FS) :
  emb_path userID name ∈ fs -> nnm_path userID name ∈ fs -> params_path userID name ∈ fs ->
  rename_embedding userID old new name fs
  = (Ok tt,
     list_to_set (artifacts userID (replace name old new))
     ∪ (fs ∖ list_to_set (artifacts userID name))).
Proof.
  intros He Hn Hp. unfold Rename.rename_embedding, andthen.
  set (target := replace name old new).
  pose proof (emb_nnm_distinct userID target name) as D1.
  pose proof (emb_nnm_distinct userID name name) as D2.
  pose proof (emb_params_distinct userID target name) as D3.
  pose proof (emb_params_distinct userID name name) as D4.
  pose proof (nnm_params_distinct userID target name) as D5.
  pose proof (nnm_params_distinct userID name name) as D6.
  rewrite (os_rename_present _ _ fs He).
  rewrite os_rename_present by set_solver.
  rewrite os_rename_present by set_solver.
  f_equal. unfold artifacts. cbn [list_to_set foldr].
  apply set_eq. intros p. set_unfold.
  destruct (decide (p = emb_path userID name)) as [E1|N1];
    destruct (decide (p = nnm_path userID name)) as [E2|N2];
    destruct (decide (p = params_path userID name)) as [E3|N3];
    destruct (decide (p = emb_path userID target)) as [E4|N4];
    destruct (decide (p = nnm_path userID target)) as [E5|N5];
    destruct (decide (p = params_path userID target)) as [E6|N6];
    try (exfalso; congruence); tauto.
Qed.

Lemma renames_single userID old new name (fs : FS) :
  renames userID (mkRenameRequest (Some [name]) (Some old) (Some new)) fs
  = rename_embedding userID old new name fs.
Proof.
  unfold Rename.renames. cbn [embNames oldName newName Rename.rename_embeddings].
  unfold andthen. now destruct (rename_embedding userID old new name fs) as [[[]|e] fs'].
Qed.

Lemma rename_obsm_put_files userID request (fs : FS) :
  snd (rename_obsm_put userID request fs) = snd (renames userID request fs).
Proof.
  unfold Rename.rename_obsm_put.
  destruct (renames userID request fs) as [[[]|e] fs']; [|reflexivity].
  now destruct (schema_get_helper fs') as [schema|[]].
Qed.

Lemma rename_single_present userID old new name (fs : FS) :
  emb_path userID name ∈ fs -> nnm_path userID name ∈ fs -> params_path userID name ∈ fs ->
  snd (rename_obsm_put userID (mkRenameRequest (Some [name]) (Some old) (Some new)) fs)
  = list_to_set (artifacts userID (replace name old new))
    ∪ (fs ∖ list_to_set (artifacts userID name)).
Proof.
  intros He Hn Hp.
  now rewrite rename_obsm_put_files, renames_single, rename_embedding_present.
Qed.




End Handler.
End StoreFacts.

Lemma layout_name_of_emb_path_witness :
  Layout.has_slash "umap" = false
  /\ Layout.layout_name "u" "u/emb/umap.p" = "umap".
Proof.
  split; [reflexivity|].
  apply (LayoutFacts.layout_name_of_emb_path "u" "umap"). reflexivity.
Defined.

Lemma schema_lists_existing_embeddings_witness :
  In "umap" (Layout.listed "u" Rename.umap_scope)
  /\ ~ In "tsne" (Layout.listed "u" Rename.umap_scope).
Proof.
  assert (Hin : Embeddings.emb_path "u" "umap" ∈ Rename.umap_scope)
    by (unfold Rename.umap_scope; set_solver).
  split.
  - exact (proj2 (LayoutFacts.schema_lists_existing_embeddings "u" Rename.umap_scope "umap")
             (conj eq_refl Hin)).
  - intros H.
    destruct (proj1 (LayoutFacts.schema_lists_existing_embeddings "u" Rename.umap_scope "tsne")
                H) as [_ Hno].
    clear H Hin. unfold Rename.umap_scope in Hno. set_unfold.
    intuition discriminate.
Defined.

(** The scopes of the examples are in canonical form. *)
Lemma umap_scope_canonical : Files.stored_canonically Rename.umap_scope.
Proof.
  intros p Hin. unfold Rename.umap_scope in Hin. set_unfold.
  destruct Hin as [[[H|H]|H]|H]; subst p; reflexivity.
Qed.

Lemma broken_scope_canonical : Files.stored_canonically Rename.broken_scope.
Proof.
  intros p Hin. unfold Rename.broken_scope in Hin. set_unfold.
  destruct Hin as [H|H]; subst p; reflexivity.
Qed.

Lemma deleted_embeddings_leave_the_schema_witness :
  Files.is_component "umap" = true
  /\ ~ In "umap"
        (Layout.listed "u"
           (snd (Embeddings.delete_obsm_put "u" (Embeddings.mkDeleteRequest (Some ["umap"]))
                   Rename.umap_scope))).
Proof.
  split; [reflexivity|].
  intros H.
  assert (Hnames : Forall (fun n => Files.is_component n = true) ["umap"])
    by (repeat constructor).
  destruct (proj1 (LayoutFacts.deleted_embeddings_leave_the_schema
                     "u" ["umap"] Rename.umap_scope "umap" Hnames umap_scope_canonical) H)
    as [_ Hnot].
  apply Hnot. left. reflexivity.
Defined.




(** ** [reembed_parameters_obsm_put] *)

Module ReembedParamsFacts.
Import ReembedParams.

Lemma del_if_present_keys k d :
  map fst (del_if_present k d) = List.filter (fun x => negb (String.eqb x k)) (map fst d).
Proof.
  unfold del_if_present. induction d as [|[k' v] d IH]; [reflexivity|].
  simpl. destruct (String.eqb k' k); simpl; now rewrite IH.
Qed.

Lemma filter_filter {A} (f g : A -> bool) l :
  List.filter f (List.filter g l) = List.filter (fun x => g x && f x) l.
Proof.
  induction l as [|a l IH]; [reflexivity|].
  simpl. destruct (g a); simpl; [destruct (f a)|]; now rewrite IH.
Qed.

Lemma strip_keys d :
  map fst (strip d) = List.filter (fun k => negb (is_internal k)) (map fst d).
Proof.
  unfold strip. rewrite !del_if_present_keys, !filter_filter.
  apply List.filter_ext. intros k. unfold is_internal, internal_keys. cbn [existsb].
  destruct (String.eqb k "parentParams"), (String.eqb k "sample_ids"),
    (String.eqb k "feature_ids"), (String.eqb k "feature_weights"); reflexivity.
Qed.

Lemma del_if_present_In k d kv :
  In kv (del_if_present k d) <-> In kv d /\ String.eqb (fst kv) k = false.
Proof.
  unfold del_if_present. rewrite List.filter_In, negb_true_iff. reflexivity.
Qed.

Lemma strip_In d k v :
  In (k, v) (strip d) <-> In (k, v) d /\ is_internal k = false.
Proof.
  unfold strip. rewrite !del_if_present_In. cbn [fst].
  unfold is_internal, internal_keys. cbn [existsb].
  rewrite !orb_false_iff. tauto.
Qed.

Lemma to_python_keys d o : to_python d = Ok o -> map fst o = map fst d.
Proof.
  revert o. induction d as [|[k v] d IH]; intros o H.
  - injection H as <-. reflexivity.
  - cbn [to_python] in H.
    destruct (match v with Plain j => Ok j | Numpy item => item end) as [j|e]; [|discriminate].
    cbn [bind] in H. destruct (to_python d) as [o'|e]; [|discriminate].
    cbn [bind] in H. injection H as <-. simpl. now rewrite (IH o' eq_refl).
Qed.

Lemma to_python_values d o k :
  to_python d = Ok o ->
  (forall j, In (k, Plain j) d -> In (k, j) o)
  /\ (forall j, In (k, Numpy (Ok j)) d -> In (k, j) o).
Proof.
  revert o. induction d as [|[k' v] d IH]; intros o H.
  - split; intros j [].
  - cbn [to_python] in H.
    destruct (match v with Plain j => Ok j | Numpy item => item end) as [j'|e] eqn:Ev;
      [|discriminate].
    cbn [bind] in H. destruct (to_python d) as [o'|e]; [|discriminate].
    cbn [bind] in H. injection H as <-.
    destruct (IH o' eq_refl) as [IHp IHn].
    split; intros j [Heq|Hin].
    + injection Heq as -> ->. injection Ev as ->. now left.
    + right. now apply IHp.
    + injection Heq as -> ->. injection Ev as ->. now left.
    + right. now apply IHn.
Qed.

Lemma to_python_succeeds d :
  (forall k e, ~ In (k, Numpy (Raise e)) d) -> exists o, to_python d = Ok o.
Proof.
  induction d as [|[k v] d IH]; intros H.
  - now exists [].
  - destruct IH as [o Ho].
    { intros k' e Hin. apply (H k' e). now right. }
    cbn [to_python]. rewrite Ho.
    destruct v as [j|[j|e]].
    + now exists ((k, j) :: o).
    + now exists ((k, j) :: o).
    + exfalso. apply (H k e). now left.
Qed.

Lemma response_inv load args embName d o :
  getitem args "embName" = Ok embName ->
  load embName = Ok d ->
  fst (reembed_parameters_obsm_put load args) = params_response o ->
  to_python (strip d) = Ok o.
Proof.
  intros Hname Hload. unfold reembed_parameters_obsm_put. rewrite Hname, Hload.
  cbn [option_map]. destruct (to_python (strip d)) as [o'|e].
  - cbn [fst]. unfold params_response. intros H. now injection H as ->.
  - destruct e; cbn; discriminate.
Qed.

(** X19. The parameters of an embedding are answered without the four
    keys kept for reproduction ([parentParams], [sample_ids], [feature_ids],
    [feature_weights]): the answer has the other keys of the stored dict,
    in their order, with plain values as stored and numpy values replaced
    by their [item()]. *)
Theorem answered_parameters_omit_internal_keys
  (load : json -> result params) (args embName : json) (d : params) (o : list (string * json)) :
  getitem args "embName" = Ok embName ->
  load embName = Ok d ->
  fst (reembed_parameters_obsm_put load args) = params_response o ->
  map fst o = List.filter (fun k => negb (is_internal k)) (map fst d)
  /\ (forall k, In k internal_keys -> ~ In k (map fst o))
  /\ (forall k j, is_internal k = false -> In (k, Plain j) d -> In (k, j) o)
  /\ (forall k j, is_internal k = false -> In (k, Numpy (Ok j)) d -> In (k, j) o).
Proof.
  intros Hname Hload Hresp.
  pose proof (response_inv _ _ _ _ _ Hname Hload Hresp) as Hpy.
  assert (Hkeys : map fst o = List.filter (fun k => negb (is_internal k)) (map fst d)).
  { rewrite (to_python_keys _ _ Hpy). apply strip_keys. }
  split; [exact Hkeys|]. split; [|split].
  - intros k Hint Hin. rewrite Hkeys in Hin. apply List.filter_In in Hin.
    destruct Hin as [_ Hneg]. apply negb_true_iff in Hneg.
    unfold is_internal in Hneg.
    assert (Hex : existsb (String.eqb k) internal_keys = true).
    { apply List.existsb_exists. exists k. split; [exact Hint | apply String.eqb_refl]. }
    congruence.
  - intros k j Hk Hin. apply (proj1 (to_python_values _ _ k Hpy)).
    apply strip_In. now split.
  - intros k j Hk Hin. apply (proj2 (to_python_values _ _ k Hpy)).
    apply strip_In. now split.
Qed.

(** X20. Whatever is stored under the four internal keys, it cannot
    make the request fail: when the request names an embedding and no
    other value of the stored parameters is a numpy object whose [item()]
    raises, the request is answered 200, also when no parameters can be
    read at all. *)
Theorem internal_values_never_fail_the_request
  (load : json -> result params) (args embName : json) :
  getitem args "embName" = Ok embName ->
  (forall d k e, load embName = Ok d -> In (k, Numpy (Raise e)) d -> is_internal k = true) ->
  exists o, reembed_parameters_obsm_put load args = (params_response o, []).
Proof.
  intros Hname Hint. unfold reembed_parameters_obsm_put. rewrite Hname.
  destruct (load embName) as [d|e] eqn:Hload; cbn [option_map].
  - destruct (to_python_succeeds (strip d)) as [o Ho].
    + intros k e Hin. apply strip_In in Hin. destruct Hin as [Hin Hk].
      specialize (Hint d k e eq_refl Hin). congruence.
    + rewrite Ho. now exists o.
  - now exists [].
Qed.

End ReembedParamsFacts.

(** ** [annotations_obs_put] and [annotations_obs_get] *)

Module LabelsFacts.
Import Labels.

Section Handlers.

Variable userID : string.
Variable table : Type.
Variable is_empty : table -> bool.
Variable user_annotations_enabled : bool.
Variable is_safe_collection_name : string -> bool.
Variable zlib_decompress : string -> result string.
Variable decode_matrix_fbs : string -> result table.
Variable check_new_labels : table -> result table.
Variable annotation_to_fbs_matrix : list string -> option table -> result string.
Variable exceeds_limit : nat -> bool.
Variable obs_keys : nat.

Local Abbreviation put :=
  (annotations_obs_put table is_empty user_annotations_enabled is_safe_collection_name
     zlib_decompress decode_matrix_fbs check_new_labels).
Local Abbreviation get :=
  (annotations_obs_get userID table user_annotations_enabled annotation_to_fbs_matrix
     exceeds_limit obs_keys).
Local Abbreviation helper :=
  (annotations_put_fbs_helper table is_empty user_annotations_enabled
     decode_matrix_fbs check_new_labels).

Lemma put_OK_inv request (st : state table) :
  answered_OK (fst (put request st)) = true ->
  user_annotations_enabled = true
  /\ exists fbs t,
       zlib_decompress (data request) = Ok fbs
       /\ helper fbs = Ok t
       /\ stored table (snd (put request st)) = Some t.
Proof.
  unfold annotations_obs_put, inflate, answered_OK.
  destruct user_annotations_enabled; cbn [negb]; [|discriminate].
  destruct (zlib_decompress (data request)) as [fbs|e]; [|discriminate].
  intros H. split; [reflexivity|]. exists fbs.
  destruct (anno_collection request) as [name|].
  - destruct (is_safe_collection_name name); cbn [negb] in *; [|discriminate].
    destruct (annotations_put_fbs_helper _ _ _ _ _ fbs) as [t|e].
    + exists t. now split.
    + destruct e; discriminate.
  - destruct (annotations_put_fbs_helper _ _ _ _ _ fbs) as [t|e].
    + exists t. now split.
    + destruct e; discriminate.
Qed.

Lemma helper_Ok_inv fbs t :
  helper fbs = Ok t ->
  exists df, decode_matrix_fbs fbs = Ok df
    /\ (if is_empty df then t = df else check_new_labels df = Ok t).
Proof.
  unfold annotations_put_fbs_helper.
  destruct user_annotations_enabled; cbn [negb]; [|discriminate].
  destruct (decode_matrix_fbs fbs) as [df|e]; [|discriminate].
  cbn [bind]. intros H. exists df. split; [reflexivity|].
  destruct (is_empty df); cbn [negb] in H; [now injection H as <- | exact H].
Qed.

(** X21. Labels written are the labels read: when a write is answered
    200, the table kept is the one decoded from the inflated body, checked
    by [check_new_labels] unless it is empty, and a later read that passes
    the column limit and the Accept check hands exactly that table to the
    encoder and answers what the encoder gives. *)
Theorem labels_written_are_labels_read
  (w : put_request) (r : get_request) (st : state table) :
  answered_OK (fst (put w st)) = true ->
  exceeds_limit (if Nat.eqb (length (annotation_names r)) 0
                 then obs_keys else length (annotation_names r)) = false ->
  accepts_octet_stream r = true ->
  exists fbs df t,
    zlib_decompress (data w) = Ok fbs
    /\ decode_matrix_fbs fbs = Ok df
    /\ (if is_empty df then t = df else check_new_labels df = Ok t)
    /\ stored table (snd (put w st)) = Some t
    /\ forall out,
         annotation_to_fbs_matrix (annotation_names r) (Some t) = Ok out ->
         get r (snd (put w st))
         = (Response (Raw out) OK [("Content-Type", "application/octet-stream")], []).
Proof.
  intros Hput Hlim Hacc.
  destruct (put_OK_inv _ _ Hput) as (Hen & fbs & t & Hz & Hh & Hst).
  destruct (helper_Ok_inv _ _ Hh) as (df & Hdec & Hchk).
  exists fbs, df, t. split; [exact Hz|]. split; [exact Hdec|]. split; [exact Hchk|].
  split; [exact Hst|].
  intros out Hout. unfold annotations_obs_get. rewrite Hlim, Hacc, Hst.
  cbn [negb bind]. rewrite Hen. cbn [bind]. now rewrite Hout.
Qed.

(** X22. A write that is not answered 200 leaves the stored labels as
    they were.  The collection is another matter: once the body has been
    inflated and the name found safe, the collection named by the request
    is selected, whether or not the labels are then accepted. *)
Theorem refused_write_keeps_stored_labels (w : put_request) (st : state table) :
  (answered_OK (fst (put w st)) = false ->
     stored table (snd (put w st)) = stored table st)
  /\ (forall fbs name,
        user_annotations_enabled = true ->
        zlib_decompress (data w) = Ok fbs ->
        anno_collection w = Some name ->
        is_safe_collection_name name = true ->
        collection table (snd (put w st)) = Some name).
Proof.
  split.
  - unfold annotations_obs_put, inflate, answered_OK.
    destruct user_annotations_enabled; cbn [negb]; [|reflexivity].
    destruct (zlib_decompress (data w)) as [fbs|e]; [|reflexivity].
    destruct (anno_collection w) as [name|].
    + destruct (is_safe_collection_name name); cbn [negb]; [|reflexivity].
      destruct (annotations_put_fbs_helper _ _ _ _ _ fbs) as [t|e]; [discriminate|].
      destruct e; reflexivity.
    + destruct (annotations_put_fbs_helper _ _ _ _ _ fbs) as [t|e]; [discriminate|].
      destruct e; reflexivity.
  - intros fbs name Hen Hz Hname Hsafe.
    unfold annotations_obs_put, inflate. rewrite Hen, Hz, Hname, Hsafe. cbn [negb].
    destruct (annotations_put_fbs_helper _ _ _ _ _ fbs) as [t|e]; [reflexivity|].
    destruct e; reflexivity.
Qed.

End Handlers.

End LabelsFacts.

(** ** [save_metadata_put]: the file store around an export *)

Module ExportMoreFacts.
Import Files ExportFiles.

Section Views.

Variable axis_filter_to_mask : json -> result (list bool).
Variable select_labels : json -> list bool -> result unit.

Local Abbreviation save_metadata_put :=
  (ExportFiles.save_metadata_put axis_filter_to_mask select_labels).
Local Abbreviation prepare_labels :=
  (ExportFiles.prepare_labels axis_filter_to_mask select_labels).

(** X23. An export of labels leaves no trace in the file store: when
    no CSV of the user was there before the request, the files after the
    request are the files before it, whether the export was sent or
    failed on the way. *)
Theorem export_leaves_the_store_as_it_was (userID : string) (args : json) (fs : FS) :
  obs_csv userID ∉ fs ->
  snd (fst (complete (save_metadata_put userID args fs))) = fs.
Proof.
  intros Habs. destruct (prepare_labels userID args fs) as [[]|e] eqn:Hp.
  - destruct (ExportFacts.save_metadata_put_complete
                axis_filter_to_mask select_labels userID args fs Hp) as [_ Hc].
    rewrite Hc. cbn [fst snd]. set_solver.
  - unfold ExportFiles.save_metadata_put. rewrite Hp. reflexivity.
Qed.

End Views.

End ExportMoreFacts.

(** X19, at the parameters of a UMAP embedding: the neighbour count and
    the metric are answered, the parent parameters and the feature weights
    are not. *)
Lemma answered_parameters_omit_internal_keys_witness :
  fst (ReembedParams.reembed_parameters_obsm_put ReembedParams.load_umap
         (JObj [("embName", JStr "umap")]))
  = ReembedParams.params_response [("n_neighbors", JNum 15); ("metric", JStr "cosine")]
  /\ ~ In "feature_weights" (map fst [("n_neighbors", JNum 15); ("metric", JStr "cosine")])
  /\ In ("metric", JStr "cosine") [("n_neighbors", JNum 15); ("metric", JStr "cosine")].
Proof.
  destruct (ReembedParamsFacts.answered_parameters_omit_internal_keys
              ReembedParams.load_umap (JObj [("embName", JStr "umap")]) (JStr "umap")
              ReembedParams.umap_params
              [("n_neighbors", JNum 15); ("metric", JStr "cosine")]
              eq_refl eq_refl eq_refl) as (_ & Hint & Hplain & _).
  split; [reflexivity|]. split.
  - apply Hint. simpl. tauto.
  - apply Hplain; [reflexivity|]. simpl. tauto.
Defined.

(** X20, at the same parameters: the feature weights are an array whose
    [item()] raises, and the request is answered all the same. *)
Lemma internal_values_never_fail_the_request_witness :
  In ("feature_weights", ReembedParams.Numpy (Raise TypeError)) ReembedParams.umap_params
  /\ exists o,
       ReembedParams.reembed_parameters_obsm_put ReembedParams.load_umap
         (JObj [("embName", JStr "umap")])
       = (ReembedParams.params_response o, []).
Proof.
  split; [simpl; tauto|].
  apply (ReembedParamsFacts.internal_values_never_fail_the_request
           ReembedParams.load_umap (JObj [("embName", JStr "umap")]) (JStr "umap") eq_refl).
  intros d k e Hload Hin. injection Hload as <-.
  simpl in Hin. destruct Hin as [H|[H|[H|[H|[]]]]]; try discriminate.
  injection H as <- _. reflexivity.
Defined.

(** X21, at a first write of one row of labels followed by a read of all
    columns. *)
Lemma labels_written_are_labels_read_witness :
  exists fbs df t,
    Labels.stored_as_is "cluster" = Ok fbs
    /\ Labels.one_row fbs = Ok df
    /\ (if Labels.no_rows df then t = df else Labels.not_louvain df = Ok t)
    /\ Labels.stored Labels.rows
         (snd (Labels.annotations_obs_put Labels.rows Labels.no_rows true Labels.any_name
                 Labels.stored_as_is Labels.one_row Labels.not_louvain
                 (Labels.mkPut None "cluster") (Labels.mkState Labels.rows None None)))
       = Some t
    /\ forall out,
         Labels.first_row [] (Some t) = Ok out ->
         Labels.annotations_obs_get "u" Labels.rows true Labels.first_row Labels.no_limit 0
           (Labels.mkGet [] true)
           (snd (Labels.annotations_obs_put Labels.rows Labels.no_rows true Labels.any_name
                   Labels.stored_as_is Labels.one_row Labels.not_louvain
                   (Labels.mkPut None "cluster") (Labels.mkState Labels.rows None None)))
         = (Response (Raw out) OK [("Content-Type", "application/octet-stream")], []).
Proof.
  apply (LabelsFacts.labels_written_are_labels_read "u" Labels.rows Labels.no_rows true
           Labels.any_name Labels.stored_as_is Labels.one_row Labels.not_louvain
           Labels.first_row Labels.no_limit 0
           (Labels.mkPut None "cluster") (Labels.mkGet [] true)
           (Labels.mkState Labels.rows None None)); reflexivity.
Defined.

(** X22, at a write of a label named as a column of the dataset into the
    collection [mine]: the write is refused, no labels are stored, and the
    collection is [mine] from then on. *)
Lemma refused_write_keeps_stored_labels_witness :
  fst (fst (Labels.annotations_obs_put Labels.rows Labels.no_rows true Labels.any_name
              Labels.stored_as_is Labels.one_row Labels.not_louvain
              (Labels.mkPut (Some "mine") "louvain") (Labels.mkState Labels.rows None None)))
  = Abort BAD_REQUEST
  /\ Labels.stored Labels.rows
       (snd (Labels.annotations_obs_put Labels.rows Labels.no_rows true Labels.any_name
               Labels.stored_as_is Labels.one_row Labels.not_louvain
               (Labels.mkPut (Some "mine") "louvain") (Labels.mkState Labels.rows None None)))
     = None
  /\ Labels.collection Labels.rows
       (snd (Labels.annotations_obs_put Labels.rows Labels.no_rows true Labels.any_name
               Labels.stored_as_is Labels.one_row Labels.not_louvain
               (Labels.mkPut (Some "mine") "louvain") (Labels.mkState Labels.rows None None)))
     = Some "mine".
Proof.
  destruct (LabelsFacts.refused_write_keeps_stored_labels Labels.rows Labels.no_rows true
              Labels.any_name Labels.stored_as_is Labels.one_row Labels.not_louvain
              (Labels.mkPut (Some "mine") "louvain") (Labels.mkState Labels.rows None None))
    as [Hstored Hcoll].
  split; [reflexivity|]. split.
  - apply Hstored. reflexivity.
  - apply (Hcoll "louvain" "mine"); reflexivity.
Defined.

(** X23, at an export of all labels of user [u], who has no CSV yet. *)
Lemma export_leaves_the_store_as_it_was_witness :
  ("u/u_obs.csv" ∉ ExportFiles.scope_u)
  /\ snd (fst (ExportFiles.complete
                 (ExportFiles.save_metadata_put ExportFiles.every_cell ExportFiles.all_labels
                    "u" ExportFiles.export_request ExportFiles.scope_u)))
     = ExportFiles.scope_u.
Proof.
  assert (Habs : ExportFiles.obs_csv "u" ∉ ExportFiles.scope_u).
  { unfold ExportFiles.scope_u, ExportFiles.obs_csv. simpl. set_solver. }
  split; [exact Habs|].
  exact (ExportMoreFacts.export_leaves_the_store_as_it_was
           ExportFiles.every_cell ExportFiles.all_labels
           "u" ExportFiles.export_request ExportFiles.scope_u Habs).
Defined.
